(* ===== verification/_CoqProject ===== *)
-Q . S2P
Prelude.v
PyStr.v
Data.v
Store.v
Rand.v
Generator.v
Events.v
Gateway.v
Allocator.v
Wizard.v
Dropdown.v
RandomFlow.v
Liveness.v
Npc.v
Views.v
Session.v
Reach.v
Bot.v
Commands.v
Process.v
Scenarios.v
