(* ===== verification/Prelude.v ===== *)
(** * Emo-2.0 character creation: a verification development

    The program is the D&D character-creation part of a Discord bot.
    Under [src/] it has three files:
    - [src/cogs/character_creation.py] is the [CharacterCreation] cog. It
      holds the guided wizard [character_creation] (command [!creation]),
      the generator [generate_random_character], the reroll loop
      [random_character] with [display_and_confirm] (command [!random]),
      and the read-only views [view_character] and [list_characters].
    - [src/cogs/npc_manager.py] is the [NPCManager] cog, with the commands
      [create_npc], [list_npcs], [npc_detail] and [remove_npc].
    - [src/Emo.py] starts the bot: a Flask health check, the error
      handlers and extension loading.

    Both cogs read and write one shared session record per channel, the
    [game] dict of the DnDGame cog ([get_game]/[save_game]). That cog is
    not under [src/]. The development models it as an interface (see
    [Store.v]) and proves the handlers against that interface.

    ** Files, in dependency order
    - [Prelude.v] (this file): the [emo_scope] notations, the development's
      tactics and hint database [emo], and the generic lemmas on lists,
      sums and options that several components share.
    - [PyStr.v]: the Python string builtins the handlers call
      ([str.lower], [str.strip], [int()] on a string, [str()] of an int).
      A Python string is modelled as a Coq [string] over code points
      0..255 (Latin-1), with Python's case and whitespace tables on that
      range.
    - [Rand.v]: Python's [random] module as a state monad over a tape of
      draws: [random.choice], and [random.shuffle] written as the
      library's Fisher-Yates loop. Theorem: [shuffle] permutes its input.
    - [Data.v]: the data of the code: the ability, class and race
      enumerations; the fixed name, backstory and alignment lists of
      [CharacterCreation.__init__]; the character dict as the record
      [Character]; the game dict as the record [Game].
    - [Store.v]: the session-store interface [SessionStore]
      ([get_game]/[save_game]) with its laws, and its gmap instance.
    - [Generator.v]: [generate_random_character]: the priority order, the
      assignment of the shuffled standard array, and the racial bonuses.
    - [Events.v]: what the handlers see and say: channels (text
      channel, thread, DM), messages, the timed events delivered to a
      handler, the notices it sends (one constructor per message the
      code sends, with its data), and [on_command_error] of [Emo.py],
      which answers the exceptions a command raises.
    - [Gateway.v]: the save sequence both creation paths end with
      ([save_and_announce]: put the character in the handler's [game]
      copy, stamp it, [save_game], announce, read again, send the
      "everyone is ready" notice when every player has a character).
    - [Allocator.v]: the point-buy loop of step 6 of the wizard
      (lines 306-354), with its invariant.
    - [Wizard.v]: the [!creation] handler as a state machine. There is
      one program point per [await] of the source, and one step per
      event delivered to the handler: a message, a menu selection, or
      the passing of time.
    - [Dropdown.v]: the dropdown menus ([RaceDropdown], [ClassDropdown],
      [SelectionView], lines 9-61) as a state machine of their own, and
      the wizard run with its views at the two menu waits, proved to
      refine the [EvSelect] abstraction of [Wizard.v].
    - [RandomFlow.v]: the [!random] handler ([random_character] and
      [display_and_confirm], lines 520-568 and 675-733) as a state
      machine of the same kind, and the duplicate-name resolver
      [resolve_name] (lines 677-691).
    - [Liveness.v]: a cooperative author, who answers every wait in
      time with a reply it accepts, and the proof that both creation
      commands then save; and the well-founded relation of the wizard's
      moves between waits, whatever the events.
    - [Npc.v]: the four commands of [npc_manager.py] ([create_npc],
      [list_npcs], [npc_detail], [remove_npc]) as functions of the
      session store: none of them waits.
    - [Views.v]: [view_character] and [list_characters], with the
      thread fallback of the game lookup, the copy to the out-of-character
      channel, [normalize_race], the image key, and the text fields of a
      character embed ([_add_character_fields]).
    - [Session.v]: the contract of a creation handler towards the store:
      per step, the interface [CreationHandler] (each step leaves the
      store or saves the handler's snapshot with one character) with
      its two instances; per run, the abstract specification
      [create_spec] that both handlers refine; two handlers driven by one
      schedule of events; and the interface [CheckedHandler] (each save
      puts a complete character) under which any interleaving keeps the
      store well-formed ([store_wf]).
    - [Reach.v]: the reachable stores and states of the wizard, an
      inductive relation closed under [wizard_step], and its invariants
      by rule induction, composed with the views.
    - [Bot.v]: [on_ready] of [Emo.py] as an event on the bot's state:
      the start of the status task, the six extensions loaded in order,
      the [cog_load] lookups that give the handlers their [parent_cog]
      references (each [setup] adds its cog after its [cog_load] looked
      up the others), the later [on_ready] of each reconnection, the
      [status_update] loop and what [on_error] prints.
    - [Commands.v]: command dispatch: a message [!name args] read as
      discord.py reads it, the command looked up among the loaded cogs,
      each command's argument rules, [!test], and the errors passed to
      [on_command_error].
    - [Process.v]: the process around the bot: the environment
      ([PORT], [DISCORD_TOKEN]), the health-check route and port, the
      intents, [bot.run]; and one message delivered both to a waiting
      wizard and to the command dispatcher.
    - [Scenarios.v]: concrete stores and dialogues: the scenarios of the
      spec run on the models, two wizards on one session, and a witness
      for every theorem with hypotheses.

    ** How the asynchronous code is modelled
    Each handler is a state machine. Its state is the record of the
    Python locals (the [game] copy read at command time, [character_data],
    [ability_values], [remaining_points]) and a program counter naming the
    pending [await]. The environment delivers timed events: a message
    (author, channel, content), a dropdown selection, or a clock tick.
    A wait opened at time [t] with timeout [d] has deadline [t + d]. An
    event at a time [>= t + d] finds the timer already fired, so the
    handler takes its timeout branch. A message that fails the wait's
    [check] predicate is ignored, as [bot.wait_for] ignores it.
    [datetime.now()] is the time of the event that runs the step.

    ** What the theorems show (claim ids refer to PROJECT.json)
    - Store safety (C1, C3): a run of either handler that does not end
      with the character saved leaves the session store exactly as it
      was; only the final "yes" writes, through the gateway.
    - Saved records (C2, C4): what the wizard saves has a name, class,
      race and six scores in [10, 17] whose points sum to 18 minus the
      forfeited ones; what [!random] saves is a generated character
      (standard array permuted, plus the racial bonus) with scores in
      [8, 17], whatever rerolls came before.
    - Dropdown menus (C11): the wizard with its [SelectionView]
      dropdowns made explicit (selection, stop, timeout, and the
      handler resuming after [view.wait()]) has exactly the runs of
      the wizard whose menu waits are [EvSelect] events with a 60 s
      deadline.
    - Command dispatch (C33, C34): a command of a cog whose extension
      failed to load is unknown and gets no reply at all;
      [!npc_detail] and [!remove_npc] without a name answer "Missing
      required argument", [!create_npc] without one generates the
      name.
    - Process (C28): one DM is both a reply to the waiting wizard and
      a command: [!cancel] at the name prompt becomes the name while
      the unknown command is dropped.
    - Refinement (C9, C10): both handlers refine one abstract
      contract, [Session.create_spec]: over a whole run the store is
      unchanged, or the game read at command time with one acceptable
      character put under the author is saved.
    - Liveness (C14, C15): an author who answers every wait in time
      with an accepted reply gets the character saved: within 13
      answers for the wizard, 2 for [!random]; no wait loops for ever
      on accepted replies.
    - Sessions (C8): against the [CreationHandler] interface, for any
      interleaving of two handlers of different users on one channel,
      the later save erases the earlier: the two users never both end
      with a character when neither had one.
    - Generator (C5, C20, C26): a generated character is made from the
      code's tables; its scores lie in [8, 17]; and, because the array
      is shuffled before the priority assignment, a class's first
      primary ability gets the first shuffled value, whatever it is, 8
      included.
    - Waits and replies (C21, C22, C23, C24, C25, C27): a confirmation
      timeout of [!random] ends the command without saving; invalid
      point replies re-prompt; "no" to a card rerolls, any other reply
      is ignored; the cancel test runs before [strip()], so ["
      cancel"] becomes the name; a reply that empties the pool skips
      the remaining prompts, and the next number answers "save?" and
      cancels (the spec's 7, 7, 4, 0, 0, 0 scenario).
    - Resolver (C6): a clashing name is replaced by a free one of
      [self.names], compared case-insensitively, when one is free.
    - NPCs (C7, C17, C18, C29, C30): only the game master or the
      creator changes the NPC list; [!create_npc] appends one
      generated, marked NPC; [!remove_npc] pops the first case-
      insensitive match, the one [!npc_detail] shows; create then
      remove restores the list; a second NPC of an existing name is
      appended anyway and is shadowed by the older one.
    - Views (C19): [!view_character] keys the image by the raw race,
      unlike the creation embeds, for Half-Elf and Half-Orc.
    - Well-formed stores (C12, C13): against the [CheckedHandler]
      interface, any interleaving of two creation handlers keeps every
      stored character complete (race, class, six scores); so in every
      store the wizard reaches (the relation [Reach.wizard_reachable],
      by rule induction) every character can be viewed without
      [KeyError].
    - Termination (C16): the relation "one event moves the wizard to
      another wait" is well founded: the dialogue never returns to an
      earlier question, whatever the events.
    - Bot (C31, C32, C35): with the code's load order every cog finds
      the cogs it depends on exactly when they loaded; without DnDGame
      every creation and NPC command answers "not available" and
      writes nothing; every [on_ready] after the first (one per
      reconnection) fails at [status_update.start()] and changes
      nothing.

    ** Bounds and fuel
    Every definition is structurally recursive: the handlers consume
    one event per step, and a run is a fold over the event list. So no
    fuel is needed. The [while True] reroll loop of [!random] is not a
    recursive definition either: each iteration waits, so it is one
    step per event. The random module reads a finite tape of draws (a
    draw past the end reads 0), so every run is total.
    [Liveness.cooperative_run] is the one definition with fuel: the
    number of answers of the cooperative author. [wizard_rank] is
    enough fuel, as [wizard_cooperative_saves] proves: each accepted
    answer lowers the rank of the pending wait, and the rank is at most
    13 (replace, name, class, race, backstory, alignment, six
    abilities, confirmation). The same rank makes the wizard's moves
    between waits a well-founded relation ([wizard_moves_wf]). Ability
    values are Python ints, modelled as [Z] (unbounded, as in Python).

    ** Not modelled
    Rendering of embeds (colours, thumbnails, the image table of the
    [character_images] module, which is not under [src/]) and message
    formatting are out of scope: a sent message is modelled by its kind
    and its data. The one exception is the text of a character embed's
    fields ([Views.character_fields]), whose scores are read back. Of
    [Emo.py], serving HTTP in the Flask thread and the login to Discord
    are I/O: [Process.v] keeps the port, the route's text, the token and
    whether the login succeeds (a parameter); [status_update] is kept as
    the presence it sets, and the
    lines [on_error] and the [cog_load]s print are not kept. The other
    cogs it loads ([private_groups], [gemini_chat], [emo_narration],
    [dnd_game]) are not under [src/], and only the store interface of
    [dnd_game] is modelled. Quoted command arguments are read as their
    first word; the guild's member lookup and [bot.get_channel] are
    parameters. Snowflakes are strings: a DM channel is named by its
    user, as the bot has one DM channel per user, and its own id, which
    is neither the user's id nor a guild channel's, is the key
    ["dm:" + user] ([Events.chan_id]).

    ** Plan for later work
    A serialized variant of the save (re-read, then put) proved free of
    the lost update, as the spec requires (a change of the code, not a
    model of it); messages delivered to the other waits of the two
    handlers together with the dispatcher, as [Process.deliver_message]
    does for the name prompt. *)

From stdpp Require Import base list.
From Stdlib Require Import ZArith Lia.

Declare Scope emo_scope.
Delimit Scope emo_scope with emo.
Open Scope emo_scope.

(** Python's [d.get(k, default)] on an optional entry. *)
Notation "o '??' d" := (default d o) (at level 20, no associativity) : emo_scope.

Create HintDb emo discriminated.
Create Rewrite HintDb emo_rw.

(** Inversion that keeps the context readable. *)
Ltac inv_clear H := inversion H; subst; clear H.

(** Case analysis on every boolean test of the goal, as the code branches
    on its [if]s. *)
Ltac case_ifs :=
  repeat match goal with
  | |- context [if ?b then _ else _] =>
      let E := fresh "E" in destruct b eqn:E
  end.

(** Updating one entry of a total function, as a Python dict store
    [d[k] = v] does on a dict whose keys range over a finite type. *)
Definition upd {K V} `{EqDecision K} (f : K -> V) (k : K) (v : V) : K -> V :=
  fun k' => if decide (k = k') then v else f k'.

(** ** Sums over lists *)

Definition sumZ {A} (f : A -> Z) (l : list A) : Z :=
  fold_right (fun x acc => (f x + acc)%Z) 0%Z l.

Lemma sumZ_app {A} (f : A -> Z) l1 l2 :
  sumZ f (l1 ++ l2) = (sumZ f l1 + sumZ f l2)%Z.
Proof. induction l1 as [|x l1 IH]; simpl; [done | rewrite IH; lia]. Qed.

Lemma sumZ_ext {A} (f g : A -> Z) l :
  (forall x, In x l -> f x = g x) -> sumZ f l = sumZ g l.
Proof.
  induction l as [|x l IH]; intros Hfg; simpl; [done|].
  rewrite (Hfg x (or_introl eq_refl)), IH; [done|]. intros y Hy. apply Hfg. by right.
Qed.

Lemma sumZ_permutation {A} (f : A -> Z) l1 l2 :
  l1 ≡ₚ l2 -> sumZ f l1 = sumZ f l2.
Proof. induction 1; simpl; lia. Qed.

Lemma sumZ_bounds {A} (f : A -> Z) lo hi l :
  (forall x, In x l -> lo <= f x <= hi)%Z ->
  (Z.of_nat (length l) * lo <= sumZ f l <= Z.of_nat (length l) * hi)%Z.
Proof.
  induction l as [|x l IH]; intros H; simpl; [lia|].
  specialize (H x (or_introl eq_refl)) as Hx.
  assert (IH' : (Z.of_nat (length l) * lo <= sumZ f l <= Z.of_nat (length l) * hi)%Z)
    by (apply IH; intros y Hy; apply H; by right).
  lia.
Qed.

Lemma sumZ_nonneg {A} (f : A -> Z) l :
  (forall x, In x l -> 0 <= f x)%Z -> (0 <= sumZ f l)%Z.
Proof.
  induction l as [|x l IH]; intros H; simpl; [lia|].
  specialize (H x (or_introl eq_refl)) as Hx.
  assert (0 <= sumZ f l)%Z by (apply IH; intros y Hy; apply H; by right). lia.
Qed.

Lemma upd_eq {K V} `{EqDecision K} (f : K -> V) k v : upd f k v k = v.
Proof. unfold upd. by rewrite decide_True. Qed.

Lemma upd_ne {K V} `{EqDecision K} (f : K -> V) k k' v :
  k <> k' -> upd f k v k' = f k'.
Proof. intros. unfold upd. by rewrite decide_False. Qed.

#[export] Hint Rewrite @upd_eq : emo_rw.
#[export] Hint Rewrite @sumZ_app : emo_rw.

(** A sum over a duplicate-free list, after one entry of the summand is
    changed, moves by the change of that entry. *)
Lemma sumZ_upd {K} `{EqDecision K} (f : K -> Z) k v (l : list K) :
  NoDup l -> In k l -> sumZ (upd f k v) l = (sumZ f l + (v - f k))%Z.
Proof.
  induction l as [|x l IH]; intros Hnd Hin; simpl in *; [done|].
  apply NoDup_cons in Hnd as [Hx Hnd].
  destruct Hin as [->|Hin].
  - rewrite upd_eq. rewrite (sumZ_ext (upd f k v) f); [lia|].
    intros y Hy. apply upd_ne. intros ->. apply Hx. by apply list_elem_of_In.
  - rewrite upd_ne; [|intros ->; apply Hx; by apply list_elem_of_In].
    rewrite IH; [lia|done|done].
Qed.

Lemma sumZ_upd_notin {K} `{EqDecision K} (f : K -> Z) k v (l : list K) :
  ~ In k l -> sumZ (upd f k v) l = sumZ f l.
Proof.
  intros Hn. apply sumZ_ext. intros y Hy. apply upd_ne. by intros ->.
Qed.

#[export] Hint Resolve sumZ_nonneg : emo.

Lemma sumZ_map {A B} (f : B -> Z) (g : A -> B) l :
  sumZ f (map g l) = sumZ (fun x => f (g x)) l.
Proof. induction l as [|x l IH]; simpl; [done|]. by rewrite IH. Qed.
