(* ===== verification/PyStr.v ===== *)
(** * Python string builtins used by the handlers

    The handlers of [src/cogs/character_creation.py] and
    [src/cogs/npc_manager.py] compare replies with [content.lower()], clean
    them with [content.strip()], and parse ability points with
    [int(points_str)]. This file models those builtins. A Python [str]
    is a sequence of code points. It is modelled as a Coq [string] whose
    8-bit characters are the code points 0..255 (Latin-1). On that range
    the tables below are CPython's: [str.lower] maps A-Z and the Latin-1
    capitals U+00C0..U+00DE (except U+00D7) to their small forms, and
    [str.isspace] holds of U+0009..U+000D, U+001C..U+0020, U+0085 and
    U+00A0. [int()] accepts surrounding whitespace, one optional sign,
    and decimal digits with single underscores between them (PEP 515).
    [str()] of a non-negative int gives its decimal digits, and [int()]
    reads them back ([py_int_str_nat]). *)

From stdpp Require Import base list strings.
From Stdlib Require Import Ascii String ZArith Lia.
From S2P Require Import Prelude.

Open Scope Z_scope.

(** ** [str.lower] *)

Definition is_upper_cp (n : nat) : bool :=
  ((65 <=? n) && (n <=? 90))%nat || ((192 <=? n) && (n <=? 222) && negb (n =? 215))%nat.

Definition lower_char (c : ascii) : ascii :=
  let n := nat_of_ascii c in
  if is_upper_cp n then ascii_of_nat (n + 32) else c.

Fixpoint py_lower (s : string) : string :=
  match s with
  | EmptyString => EmptyString
  | String c s' => String (lower_char c) (py_lower s')
  end.

(** ** [str.isspace] and [str.strip] *)

Definition py_isspace (c : ascii) : bool :=
  let n := nat_of_ascii c in
  ((9 <=? n) && (n <=? 13))%nat || ((28 <=? n) && (n <=? 32))%nat
  || (n =? 133)%nat || (n =? 160)%nat.

Fixpoint lstrip_list (l : list ascii) : list ascii :=
  match l with
  | [] => []
  | c :: l' => if py_isspace c then lstrip_list l' else l
  end.

(** [s.strip()]: leading whitespace, then trailing whitespace, removed. *)
Definition py_strip (s : string) : string :=
  string_of_list_ascii
    (rev (lstrip_list (rev (lstrip_list (list_ascii_of_string s))))).

(** Python's truth value of a string: [not s] holds of the empty string. *)
Definition py_truthy (s : string) : bool :=
  match s with EmptyString => false | _ => true end.

(** ** [int()] on a string, base 10 *)

Definition digit_value (c : ascii) : option Z :=
  let n := nat_of_ascii c in
  if ((48 <=? n) && (n <=? 57))%nat then Some (Z.of_nat n - 48) else None.

(** The digits after the optional sign. [after_sep] is true at the
    start and after an underscore: a digit must follow there. *)
Fixpoint parse_digits (acc : Z) (after_sep : bool) (l : list ascii) : option Z :=
  match l with
  | [] => if after_sep then None else Some acc
  | c :: l' =>
      match digit_value c with
      | Some d => parse_digits (acc * 10 + d) false l'
      | None =>
          if (Ascii.eqb c "_"%char) && negb after_sep
          then parse_digits acc true l'
          else None
      end
  end.

(** [int(s)]: [None] stands for the [ValueError] the code catches. *)
Definition py_int (s : string) : option Z :=
  match lstrip_list (rev (lstrip_list (rev (list_ascii_of_string s)))) with
  | c :: l =>
      if Ascii.eqb c "-"%char then option_map Z.opp (parse_digits 0 true l)
      else if Ascii.eqb c "+"%char then parse_digits 0 true l
      else parse_digits 0 true (c :: l)
  | [] => None
  end.

(** ** [str()] of a non-negative int, used to render ability scores *)

Fixpoint digits_of_nat (fuel n : nat) (acc : list ascii) : list ascii :=
  match fuel with
  | O => acc
  | S fuel' =>
      let acc' := ascii_of_nat (48 + n mod 10) :: acc in
      if (n <? 10)%nat then acc' else digits_of_nat fuel' (n / 10) acc'
  end.

Definition py_str_nat (n : nat) : string :=
  string_of_list_ascii (digits_of_nat (S n) n []).

(** ** [str.split(sep)], [sep.join(l)] and [sep in s] for a
    one-character separator *)

(** [s.split(sep)]: the pieces between the separators, empty pieces
    included; [""] splits to [[""]]. *)
Fixpoint py_split_char (sep : ascii) (s : string) : list string :=
  match s with
  | EmptyString => [EmptyString]
  | String c s' =>
      let rest := py_split_char sep s' in
      if Ascii.eqb c sep then EmptyString :: rest
      else match rest with
           | [] => [String c EmptyString]
           | p :: ps => String c p :: ps
           end
  end.

(** [sep.join(l)]. *)
Definition py_join (sep : string) (l : list string) : string := String.concat sep l.

(** [c in s] for a one-character [c]. *)
Fixpoint py_in_char (c : ascii) (s : string) : bool :=
  match s with
  | EmptyString => false
  | String c' s' => Ascii.eqb c c' || py_in_char c s'
  end.

(** ** Lemmas *)

Lemma lower_char_idem c : lower_char (lower_char c) = lower_char c.
Proof. destruct c as [[] [] [] [] [] [] [] []]; reflexivity. Qed.

Lemma py_lower_idem s : py_lower (py_lower s) = py_lower s.
Proof. induction s as [|c s IH]; simpl; [done|]. by rewrite lower_char_idem, IH. Qed.

Lemma py_lower_length s : String.length (py_lower s) = String.length s.
Proof. induction s; simpl; auto. Qed.

Lemma lstrip_list_head l :
  match lstrip_list l with [] => True | c :: _ => py_isspace c = false end.
Proof.
  induction l as [|c l IH]; simpl; [done|].
  destruct (py_isspace c) eqn:E; [done|]. done.
Qed.

(** [s.strip()] is empty exactly when every character of [s] is
    whitespace: this is the [if not name] test of the wizard. *)
Lemma lstrip_list_nil l : lstrip_list l = [] <-> Forall (fun c => py_isspace c = true) l.
Proof.
  induction l as [|c l IH]; simpl; [split; auto|].
  destruct (py_isspace c) eqn:E.
  - rewrite IH. split; [by constructor | by inversion 1].
  - split; [done|]. inversion 1; congruence.
Qed.

Lemma Forall_rev_iff {A} (P : A -> Prop) l : Forall P (rev l) <-> Forall P l.
Proof.
  split; [|apply List.Forall_rev]. intros H.
  rewrite <- (rev_involutive l). by apply List.Forall_rev.
Qed.

Lemma string_of_list_ascii_nil l : string_of_list_ascii l = EmptyString -> l = [].
Proof. destruct l; simpl; congruence. Qed.

Lemma rev_nil_inv {A} (l : list A) : rev l = [] -> l = [].
Proof. destruct l as [|x l]; simpl; [done|]. intros H. by apply app_nil in H as [_ ?]. Qed.

Lemma lstrip_list_idem l : lstrip_list (lstrip_list l) = lstrip_list l.
Proof.
  induction l as [|c l IH]; simpl; [done|].
  destruct (py_isspace c) eqn:E; [done|]. simpl. by rewrite E.
Qed.

Lemma py_strip_empty s :
  py_strip s = EmptyString <->
  Forall (fun c => py_isspace c = true) (list_ascii_of_string s).
Proof.
  unfold py_strip. set (L := list_ascii_of_string s).
  transitivity (lstrip_list (rev (lstrip_list L)) = []).
  { split; [intros H; by apply string_of_list_ascii_nil, rev_nil_inv in H|].
    intros ->. reflexivity. }
  rewrite lstrip_list_nil, Forall_rev_iff, <- lstrip_list_nil, lstrip_list_idem.
  apply lstrip_list_nil.
Qed.

Lemma parse_digits_nonneg acc b l v :
  0 <= acc -> parse_digits acc b l = Some v -> 0 <= v.
Proof.
  revert acc b. induction l as [|c l IH]; intros acc b Hacc H; simpl in H.
  - destruct b; congruence.
  - destruct (digit_value c) as [d|] eqn:Ed.
    + refine (IH _ _ _ H). unfold digit_value in Ed.
      destruct (_ && _)%nat eqn:Hr; [|discriminate]. inv_clear Ed.
      apply andb_true_iff in Hr as [H1 _]. apply Nat.leb_le in H1. lia.
    + destruct (_ && _); [|discriminate]. exact (IH _ _ Hacc H).
Qed.

Lemma py_split_char_cons sep s : exists p ps, py_split_char sep s = p :: ps.
Proof.
  induction s as [|c s' (p & ps & IH)]; simpl; [by eexists _, _|].
  rewrite IH. destruct (Ascii.eqb c sep); by eexists _, _.
Qed.

(** Joining the pieces of a split with the separator gives the string
    back. *)
Lemma py_join_split sep s : py_join (String sep EmptyString) (py_split_char sep s) = s.
Proof.
  unfold py_join. induction s as [|c s' IH]; [done|].
  destruct (py_split_char_cons sep s') as (p & ps & Hs).
  cbn [py_split_char]. rewrite Hs in IH |- *. rewrite <- IH.
  destruct (Ascii.eqb c sep) eqn:E.
  - apply Ascii.eqb_eq in E as ->. reflexivity.
  - by destruct ps.
Qed.

(** A string without the separator splits into itself. *)
Lemma py_split_char_notin sep s : py_in_char sep s = false -> py_split_char sep s = [s].
Proof.
  induction s as [|c s' IH]; [done|]. simpl. intros Hin.
  apply orb_false_iff in Hin as [Hc Hin]. rewrite IH by done.
  rewrite Ascii.eqb_sym, Hc. done.
Qed.

(** ** [int(str(n))] *)

(** A decimal digit character. *)
Definition is_digit_char (c : ascii) : Prop := (48 <= nat_of_ascii c <= 57)%nat.

Lemma list_ascii_of_string_app s1 s2 :
  list_ascii_of_string (s1 ++ s2) = list_ascii_of_string s1 ++ list_ascii_of_string s2.
Proof. induction s1 as [|c s1 IH]; simpl; [done|]. by rewrite IH. Qed.

Lemma digit_char_of m : (m < 10)%nat -> is_digit_char (ascii_of_nat (48 + m)).
Proof. intros Hm. unfold is_digit_char. rewrite nat_ascii_embedding by lia. lia. Qed.

Lemma digit_value_of m : (m < 10)%nat -> digit_value (ascii_of_nat (48 + m)) = Some (Z.of_nat m).
Proof.
  intros Hm. unfold digit_value. rewrite nat_ascii_embedding by lia.
  replace ((48 <=? 48 + m) && (48 + m <=? 57))%nat with true
    by (symmetry; apply andb_true_iff; split; apply Nat.leb_le; lia).
  f_equal. lia.
Qed.

Lemma digits_of_nat_digits fuel n acc :
  Forall is_digit_char acc -> Forall is_digit_char (digits_of_nat fuel n acc).
Proof.
  revert n acc. induction fuel as [|f IH]; intros n acc Hacc; simpl; [done|].
  assert (Hd : is_digit_char (ascii_of_nat (48 + n mod 10))) by (apply digit_char_of, Nat.mod_upper_bound; lia).
  destruct (n <? 10)%nat; [by constructor|]. apply IH. by constructor.
Qed.

(** Reading the digits [str] writes gives the number back, whatever
    follows. *)
Lemma parse_digits_of_nat fuel n acc b :
  (n < fuel)%nat -> parse_digits 0 b (digits_of_nat fuel n acc) = parse_digits (Z.of_nat n) false acc.
Proof.
  revert n acc. induction fuel as [|f IH]; intros n acc Hn; [lia|]. cbn [digits_of_nat].
  destruct (Nat.ltb_spec n 10) as [Hlt|Hge].
  - cbn [parse_digits]. rewrite digit_value_of by (apply Nat.mod_upper_bound; lia).
    rewrite Nat.mod_small by done. f_equal; lia.
  - rewrite IH by (apply Nat.Div0.div_lt_upper_bound; lia). cbn [parse_digits].
    rewrite digit_value_of by (apply Nat.mod_upper_bound; lia). f_equal.
    pose proof (Nat.div_mod_eq n 10). lia.
Qed.

Lemma lstrip_list_no_space l : Forall (fun c => py_isspace c = false) l -> lstrip_list l = l.
Proof. destruct l as [|c l]; [done|]. intros Hl. apply Forall_cons in Hl as [Hc _]. simpl. by rewrite Hc. Qed.

Lemma digit_not_space c : is_digit_char c -> py_isspace c = false.
Proof.
  unfold is_digit_char, py_isspace. intros Hc. set (n := nat_of_ascii c) in *.
  assert (H1 : ((9 <=? n) && (n <=? 13))%nat = false) by (apply andb_false_iff; right; apply Nat.leb_gt; lia).
  assert (H2 : ((28 <=? n) && (n <=? 32))%nat = false) by (apply andb_false_iff; right; apply Nat.leb_gt; lia).
  assert (H3 : (n =? 133)%nat = false) by (apply Nat.eqb_neq; lia).
  assert (H4 : (n =? 160)%nat = false) by (apply Nat.eqb_neq; lia).
  by rewrite H1, H2, H3, H4.
Qed.

(** [int()] reads back what [str()] writes for a non-negative
    number: the scores the code stores as strings ([str(...)], lines 344
    and 668) denote the numbers the model keeps. *)
Lemma py_int_str_nat n : py_int (py_str_nat n) = Some (Z.of_nat n).
Proof.
  unfold py_int, py_str_nat. rewrite list_ascii_of_string_of_list_ascii.
  pose proof (digits_of_nat_digits (S n) n [] (List.Forall_nil _)) as Hd.
  assert (Hs : Forall (fun c => py_isspace c = false) (digits_of_nat (S n) n [])).
  { eapply Forall_impl; [exact Hd|]. intros c. apply digit_not_space. }
  rewrite (lstrip_list_no_space (rev (digits_of_nat (S n) n []))) by (apply List.Forall_rev; exact Hs).
  rewrite rev_involutive, lstrip_list_no_space by exact Hs.
  pose proof (parse_digits_of_nat (S n) n [] true ltac:(lia)) as Hp.
  destruct (digits_of_nat (S n) n []) as [|c l] eqn:E; [simpl in Hp; discriminate|].
  apply Forall_cons in Hd as [Hc _]. unfold is_digit_char in Hc.
  replace (Ascii.eqb c "-") with false by (symmetry; apply Ascii.eqb_neq; intros ->; vm_compute in Hc; lia).
  replace (Ascii.eqb c "+") with false by (symmetry; apply Ascii.eqb_neq; intros ->; vm_compute in Hc; lia).
  by rewrite Hp.
Qed.

Example py_int_examples :
  py_int " 7 " = Some 7 /\ py_int "+3" = Some 3 /\ py_int "-0" = Some 0
  /\ py_int "1_0" = Some 10 /\ py_int "1__0" = None /\ py_int "_1" = None
  /\ py_int "seven" = None /\ py_int "" = None /\ py_int "007" = Some 7.
Proof. vm_compute. repeat split. Qed.

Example py_strip_examples :
  py_strip "  Thorin  " = "Thorin"%string /\ py_strip " 	 " = EmptyString
  /\ py_lower "CANCEL" = "cancel"%string /\ py_str_nat 17 = "17"%string
  /\ py_str_nat 0 = "0"%string.
Proof. vm_compute. repeat split. Qed.
