(* ===== verification/Data.v ===== *)
(** * The data of the character-creation cog

    The enumerations the code draws from (the ability keys of
    [ability_scores], the dropdown lists of [ClassDropdown] and
    [RaceDropdown], repeated in [generate_random_character]), the fixed
    lists of [CharacterCreation.__init__] (names, backstories,
    alignments), the character dict as the record [Character], and the
    game dict of the DnDGame cog as the record [Game]. A dict key the code
    may leave unset is an [option] field. The [characters] dict of a game
    is a [gmap] from user id to character; a game without the key
    ["characters"] (the code adds it with [game["characters"] = {}]) is a
    game whose map is empty. *)

From stdpp Require Import base list gmap strings.
From Stdlib Require Import String ZArith.
From S2P Require Import Prelude PyStr.

Open Scope Z_scope.

(** ** Abilities, classes and races *)

Inductive Ability :=
  Strength | Dexterity | Constitution | Intelligence | Wisdom | Charisma.

#[export] Instance Ability_eq_dec : EqDecision Ability.
Proof. solve_decision. Defined.

(** [ability_scores] of the wizard (line 307) and of the generator
    (line 574), in the code's order. *)
Definition ability_scores : list Ability :=
  [Strength; Dexterity; Constitution; Intelligence; Wisdom; Charisma].

(** The dict key of an ability: [ability.lower()] in the wizard, the
    literal key in the generator. *)
Definition ability_key (a : Ability) : string :=
  match a with
  | Strength => "strength" | Dexterity => "dexterity"
  | Constitution => "constitution" | Intelligence => "intelligence"
  | Wisdom => "wisdom" | Charisma => "charisma"
  end.

Inductive CharClass :=
  Artificer | Barbarian | Bard | Cleric | Druid | Fighter | Monk
| Paladin | Ranger | Rogue | Sorcerer | Warlock | Wizard.

#[export] Instance CharClass_eq_dec : EqDecision CharClass.
Proof. solve_decision. Defined.

(** The option list of [ClassDropdown] (lines 33-37), and [classes] of
    the generator (line 573): the same list. *)
Definition classes : list CharClass :=
  [Artificer; Barbarian; Bard; Cleric; Druid; Fighter; Monk;
   Paladin; Ranger; Rogue; Sorcerer; Warlock; Wizard].

Definition class_name (c : CharClass) : string :=
  match c with
  | Artificer => "Artificer" | Barbarian => "Barbarian" | Bard => "Bard"
  | Cleric => "Cleric" | Druid => "Druid" | Fighter => "Fighter"
  | Monk => "Monk" | Paladin => "Paladin" | Ranger => "Ranger"
  | Rogue => "Rogue" | Sorcerer => "Sorcerer" | Warlock => "Warlock"
  | Wizard => "Wizard"
  end.

Inductive Race :=
  Human | Elf | Dwarf | Halfling | Gnome | Dragonborn | Tiefling | HalfElf | HalfOrc.

#[export] Instance Race_eq_dec : EqDecision Race.
Proof. solve_decision. Defined.

(** The option list of [RaceDropdown] (lines 11-14) and [races] of the
    generator (line 572). *)
Definition races : list Race :=
  [Human; Elf; Dwarf; Halfling; Gnome; Dragonborn; Tiefling; HalfElf; HalfOrc].

Definition race_name (r : Race) : string :=
  match r with
  | Human => "Human" | Elf => "Elf" | Dwarf => "Dwarf" | Halfling => "Halfling"
  | Gnome => "Gnome" | Dragonborn => "Dragonborn" | Tiefling => "Tiefling"
  | HalfElf => "Half-Elf" | HalfOrc => "Half-Orc"
  end.

(** A dropdown delivers [self.values[0]], the value of the chosen
    option. The options are built with [value=cls] from the lists above,
    so the value names exactly one element of the list. *)
Definition class_of_value (v : string) : option CharClass :=
  List.find (fun c => String.eqb (class_name c) v) classes.

Definition race_of_value (v : string) : option Race :=
  List.find (fun r => String.eqb (race_name r) v) races.

(** ** The fixed lists of [CharacterCreation.__init__] *)

(** [self.names] (lines 71-98). *)
Definition names : list string := [
    "Aldrich"; "Blackwood"; "Cedric"; "Darius"; "Edmund"; "Frederick"; "Gregory"; "Henrik";
    "Isabella"; "Jasper"; "Katherine"; "Lysander"; "Magnus"; "Nathaniel"; "Octavia"; "Percival";
    "Aelindra"; "Caelynn"; "Eldrath"; "Faelyn"; "Galanodel"; "Holimion"; "Ilphukiir"; "Liadon";
    "Meliamne"; "Nailo"; "Siannodel"; "Xiloscient"; "Yaeldrin"; "Zylphara"; "Balderk"; "Dankil";
    "Gorunn"; "Holderhek"; "Loderr"; "Lutgehr"; "Rumnaheim"; "Torunn"; "Alton"; "Bramble";
    "Corrin"; "Derrick"; "Eldon"; "Finnan"; "Garret"; "Lindal"; "Arjhan"; "Balasar";
    "Bharash"; "Donaar"; "Ghesh"; "Heskan"; "Kriv"; "Medrash"; "Akmenos"; "Barakas";
    "Damakos"; "Ekemon"; "Iados"; "Kairon"; "Leucis"; "Melech"; "Alvyn"; "Boddynock";
    "Dimble"; "Fonkin"; "Gimble"; "Glim"; "Jellybean"; "Namfoodle"; "Dench"; "Feng";
    "Gell"; "Henk"; "Holg"; "Imsh"; "Keth"; "Krusk"; "Ront"; "Shump";
    "Azura"; "Briar"; "Caspian"; "Drystan"; "Elowen"; "Faelan"; "Galadriel"; "Haldir";
    "Isolde"; "Jareth"; "Katniss"; "Legolas"; "Merlin"; "Nimue"; "Orion"; "Phoenix";
    "Quill"; "Rowan"; "Seraphina"; "Thorne"; "Ulysses"; "Vespera"; "Willow"; "Xanthe";
    "Yennefer"; "Zephyr"; "Arwen"; "Boromir"; "Celeborn"; "Draco"; "Eowyn"; "Frodo";
    "Gimli"; "Hermione"; "Inigo"; "Jaskier"; "Kvothe"; "Lyra"; "Morpheus"; "Neo";
    "Oberyn"; "Poe"; "Quentin"; "Ripley"; "Sauron"; "Trinity"; "Ursula"; "Voldemort";
    "Wesley"; "Xander"; "Yvaine"; "Zelda"
].

(** [self.backstories] (lines 100-126). *)
Definition backstories : list string := [
    "Raised by wolves in the wild forest, learning the ways of nature.";
    "Orphaned and trained by a secretive guild of assassins.";
    "A noble's child who ran away from home to pursue adventure.";
    "Survived a shipwreck and washed ashore on a mysterious island.";
    "Born during a rare celestial event, blessed with magical powers.";
    "Former soldier who deserted after witnessing war atrocities.";
    "Apprentice to a powerful wizard who mysteriously disappeared.";
    "Village healer who left home to find a cure for a deadly plague.";
    "Cursed by an ancient artifact, seeking ways to break free.";
    "Last survivor of a destroyed monastery, carrying ancient secrets.";
    "Former circus performer with a mysterious magical heritage.";
    "Exiled noble seeking to reclaim their rightful throne.";
    "Scholar who discovered forbidden knowledge in ancient ruins.";
    "Street urchin who discovered their innate magical abilities.";
    "Tribal warrior chosen by ancestral spirits for a sacred quest.";
    "Former pirate seeking redemption through noble deeds.";
    "Merchant's child who lost everything to supernatural forces.";
    "Raised in a cult, escaped after discovering dark truths.";
    "Wandering storyteller collecting tales of ancient heroes.";
    "Survivor of a dragon attack, sworn to protect others.";
    "Former gladiator who won their freedom through combat.";
    "Child of an interplanar romance seeking their otherworldly parent.";
    "Hermit who received visions from their deity.";
    "Apprentice blacksmith whose craft was enhanced by divine blessing.";
    "Former guard who uncovered corruption in their city."
].

(** [self.alignments] (lines 128-144). *)
Definition alignments : list string := [
    "Lawful Good";
    "Neutral Good";
    "Chaotic Good";
    "Lawful Neutral";
    "True Neutral";
    "Chaotic Neutral";
    "Lawful Evil";
    "Neutral Evil";
    "Chaotic Evil";
    "Chaotic Good (with Lawful tendencies)";
    "Lawful Good (with Neutral tendencies)";
    "Neutral Good (with Chaotic tendencies)";
    "Chaotic Neutral (with Good tendencies)";
    "True Neutral (with Good tendencies)";
    "Lawful Neutral (with Good tendencies)";
    "Chaotic Neutral (with Evil tendencies)";
    "True Neutral (with Evil tendencies)";
    "Lawful Neutral (with Evil tendencies)";
    "Neutral Good (with Lawful tendencies)";
    "Neutral Evil (with Lawful tendencies)";
    "Neutral Evil (with Chaotic tendencies)"
].

(** ** The character dict *)

(** A character as the code stores it: the wizard's [character_data]
    (lines 202-344), the generator's dict (lines 580-592 and 670-671),
    and the NPC keys added by [create_npc]. Ability scores are stored by
    the code as [str(n)]; here they are the ints [n] themselves, and
    [py_str_nat] of [PyStr.v] is the rendering. *)
Record Character := mkCharacter {
  ch_name : option string;
  ch_class : option CharClass;
  ch_race : option Race;
  ch_backstory : option string;
  ch_alignment : option string;
  ch_level : string;
  ch_scores : Ability -> option Z;
  ch_skills : option (list string);
  ch_inventory : option (list string);
  ch_spells : option (list string);
  ch_cantrips : option (list string);
  ch_is_npc : option bool;
  ch_created_at : Z
}.

(** [{"level": "1", "created_at": now}] of line 202. *)
Definition empty_character (now : Z) : Character :=
  mkCharacter None None None None None "1" (fun _ => None) None None None None None now.

(** The dict stores [d[key] = v] that the handlers perform. *)
Definition set_name (n : string) (c : Character) : Character :=
  mkCharacter (Some n) c.(ch_class) c.(ch_race) c.(ch_backstory) c.(ch_alignment)
    c.(ch_level) c.(ch_scores) c.(ch_skills) c.(ch_inventory) c.(ch_spells)
    c.(ch_cantrips) c.(ch_is_npc) c.(ch_created_at).

Definition set_class (k : CharClass) (c : Character) : Character :=
  mkCharacter c.(ch_name) (Some k) c.(ch_race) c.(ch_backstory) c.(ch_alignment)
    c.(ch_level) c.(ch_scores) c.(ch_skills) c.(ch_inventory) c.(ch_spells)
    c.(ch_cantrips) c.(ch_is_npc) c.(ch_created_at).

Definition set_race (r : Race) (c : Character) : Character :=
  mkCharacter c.(ch_name) c.(ch_class) (Some r) c.(ch_backstory) c.(ch_alignment)
    c.(ch_level) c.(ch_scores) c.(ch_skills) c.(ch_inventory) c.(ch_spells)
    c.(ch_cantrips) c.(ch_is_npc) c.(ch_created_at).

Definition set_backstory (b : string) (c : Character) : Character :=
  mkCharacter c.(ch_name) c.(ch_class) c.(ch_race) (Some b) c.(ch_alignment)
    c.(ch_level) c.(ch_scores) c.(ch_skills) c.(ch_inventory) c.(ch_spells)
    c.(ch_cantrips) c.(ch_is_npc) c.(ch_created_at).

Definition set_alignment (al : string) (c : Character) : Character :=
  mkCharacter c.(ch_name) c.(ch_class) c.(ch_race) c.(ch_backstory) (Some al)
    c.(ch_level) c.(ch_scores) c.(ch_skills) c.(ch_inventory) c.(ch_spells)
    c.(ch_cantrips) c.(ch_is_npc) c.(ch_created_at).

Definition set_score (a : Ability) (v : Z) (c : Character) : Character :=
  mkCharacter c.(ch_name) c.(ch_class) c.(ch_race) c.(ch_backstory) c.(ch_alignment)
    c.(ch_level) (upd c.(ch_scores) a (Some v)) c.(ch_skills) c.(ch_inventory)
    c.(ch_spells) c.(ch_cantrips) c.(ch_is_npc) c.(ch_created_at).

(** [character_data["is_npc"] = True] and
    [character_data["created_at"] = now] of [create_npc]. *)
Definition mark_npc (now : Z) (c : Character) : Character :=
  mkCharacter c.(ch_name) c.(ch_class) c.(ch_race) c.(ch_backstory) c.(ch_alignment)
    c.(ch_level) c.(ch_scores) c.(ch_skills) c.(ch_inventory) c.(ch_spells)
    c.(ch_cantrips) (Some true) now.

(** [character.get("name", "")], the key the name searches compare. *)
Definition name_or_empty (c : Character) : string := c.(ch_name) ?? EmptyString.

(** ** The game dict *)

(** The session record of the DnDGame cog, with the keys these cogs read
    and write. *)
Record Game := mkGame {
  g_player_ids : list string;
  g_game_master_id : string;
  g_created_by : string;
  g_characters : gmap string Character;
  g_npcs : list Character;
  g_last_updated : Z;
  g_ooc_channel_id : option string
}.

(** [game["characters"][user_id] = character_data] followed by
    [game["last_updated"] = now]. *)
Definition put_character (uid : string) (c : Character) (now : Z) (g : Game) : Game :=
  mkGame g.(g_player_ids) g.(g_game_master_id) g.(g_created_by)
    (<[uid := c]> g.(g_characters)) g.(g_npcs) now g.(g_ooc_channel_id).

(** [game["npcs"] = npcs] followed by [game["last_updated"] = now]. *)
Definition put_npcs (npcs : list Character) (now : Z) (g : Game) : Game :=
  mkGame g.(g_player_ids) g.(g_game_master_id) g.(g_created_by)
    g.(g_characters) npcs now g.(g_ooc_channel_id).

(** [user_id in game["player_ids"]]. *)
Definition is_player (uid : string) (g : Game) : bool :=
  bool_decide (uid ∈ g.(g_player_ids)).

(** [user_id in game["characters"]]. *)
Definition has_character (uid : string) (g : Game) : bool :=
  bool_decide (is_Some (g.(g_characters) !! uid)).

(** [len(game["characters"]) == len(game["player_ids"])], the test behind
    the "everyone made their character" notice. *)
Definition all_ready (g : Game) : bool :=
  Nat.eqb (size g.(g_characters)) (List.length g.(g_player_ids)).

(** ** Facts about the tables *)

Lemma ability_scores_NoDup : NoDup ability_scores.
Proof. apply (bool_decide_unpack _). by vm_compute. Qed.

Lemma ability_scores_complete a : In a ability_scores.
Proof. destruct a; simpl; tauto. Qed.

Lemma class_of_value_name c : class_of_value (class_name c) = Some c.
Proof. destruct c; reflexivity. Qed.

Lemma race_of_value_name r : race_of_value (race_name r) = Some r.
Proof. destruct r; reflexivity. Qed.

Lemma put_character_lookup uid c now g :
  (put_character uid c now g).(g_characters) !! uid = Some c.
Proof. apply lookup_insert_eq. Qed.

#[export] Hint Resolve ability_scores_NoDup ability_scores_complete : emo.
