(* ===== verification/Store.v ===== *)
(** * The session store: [get_game] / [save_game]

    Both cogs reach the game state through the DnDGame cog:
    [await self.parent_cog.get_game(channel_id)] and
    [await self.parent_cog.save_game(channel_id, game)]. That cog is not
    under [src/]. Its contract is the one the spec states (section 6,
    "Session store"): a keyed mapping from channel id to a session record,
    with [get] and [save]. The class [SessionStore] is that interface. The
    class [SessionStoreLaws] is what the handlers rely on: a read after a
    save of the same channel returns the saved record, and a save leaves
    the other channels alone. The handlers' theorems are proved against
    the laws. The gmap instance below discharges them and is used to run
    the models on concrete inputs.

    A record read by [get_game] is a value: the handler mutates its
    local copy, and nothing changes in the store until [save_game]. *)

From stdpp Require Import base gmap strings.
From S2P Require Import Prelude Data.

Class SessionStore (St : Type) := {
  get_game : St -> string -> option Game;
  save_game : St -> string -> Game -> St
}.

Class SessionStoreLaws (St : Type) `{!SessionStore St} := {
  get_save_eq : forall s ch g, get_game (save_game s ch g) ch = Some g;
  get_save_ne : forall s ch ch' g, ch <> ch' -> get_game (save_game s ch g) ch' = get_game s ch'
}.

(** The store as a finite map from channel id to game. *)
#[export] Instance gmap_store : SessionStore (gmap string Game) := {
  get_game s ch := s !! ch;
  save_game s ch g := <[ch := g]> s
}.

#[export] Instance gmap_store_laws : SessionStoreLaws (gmap string Game).
Proof.
  split; intros; simpl.
  - apply lookup_insert_eq.
  - by apply lookup_insert_ne.
Qed.

Section Laws.
Context `{SessionStoreLaws St}.

(** Saving what was just read changes no read. *)
Lemma get_save_same_value s ch g ch' :
  get_game s ch = Some g -> get_game (save_game s ch g) ch' = get_game s ch'.
Proof.
  intros Hg. destruct (decide (ch = ch')) as [<-|Hne].
  - by rewrite get_save_eq.
  - by apply get_save_ne.
Qed.
End Laws.

#[export] Hint Rewrite @get_save_eq : emo_rw.
