(* ===== verification/Rand.v ===== *)
(** * Python's [random] module as a state monad over a tape of draws

    [generate_random_character] calls [random.choice] five times and
    [random.shuffle] once, and [display_and_confirm] calls
    [random.choice] on the free names. Every call of these goes through
    [Random._randbelow(n)], which returns an int in [0, n). The model
    reads the results of [_randbelow] from a tape, a list of naturals, one
    per call, in call order. A draw [d] is reduced modulo [n]. This is the
    identity on an in-range draw, so every run of the real generator is a
    run of the model on some tape. An empty tape draws 0.

    [random.shuffle(x)] is CPython's loop
    [for i in reversed(range(1, len(x))): j = randbelow(i + 1);
     x[i], x[j] = x[j], x[i]]. *)

From stdpp Require Import base list.
From Stdlib Require Import Permutation Lia.
From S2P Require Import Prelude.

Definition Tape := list nat.

(** A computation that draws from the tape. *)
Definition rand (A : Type) : Type := Tape -> A * Tape.

Definition rret {A} (x : A) : rand A := fun t => (x, t).

Definition rbind {A B} (m : rand A) (k : A -> rand B) : rand B :=
  fun t => let '(x, t') := m t in k x t'.

Declare Scope rand_scope.
Delimit Scope rand_scope with rand.
Notation "x <-$ m ;; k" := (rbind m (fun x => k))
  (at level 100, m at next level, right associativity) : rand_scope.
Open Scope rand_scope.

(** [self._randbelow(n)]. *)
Definition randbelow (n : nat) : rand nat :=
  fun t => match t with
           | [] => (0, [])
           | d :: t' => (d mod n, t')
           end.

(** [random.choice(seq)] is [seq[self._randbelow(len(seq))]]. The default
    [d] is never returned on a non-empty list. *)
Definition choice {A} (d : A) (l : list A) : rand A :=
  i <-$ randbelow (length l) ;; rret (nth i l d).

(** [x[i], x[j] = x[j], x[i]]. *)
Definition swap {A} (i j : nat) (l : list A) : list A :=
  match l !! i, l !! j with
  | Some xi, Some xj => <[j := xi]> (<[i := xj]> l)
  | _, _ => l
  end.

(** The loop body for [i = k], then for [k - 1], ..., down to [1]. *)
Fixpoint shuffle_from {A} (k : nat) (l : list A) : rand (list A) :=
  match k with
  | O => rret l
  | S k' => j <-$ randbelow (S k) ;; shuffle_from k' (swap k j l)
  end.

(** [random.shuffle(x)], returning the shuffled list. *)
Definition shuffle {A} (l : list A) : rand (list A) :=
  shuffle_from (length l - 1) l.

(** ** Lemmas *)

Lemma randbelow_lt n t : 0 < n -> fst (randbelow n t) < n.
Proof. intros Hn. destruct t; simpl; [lia|]. apply Nat.mod_upper_bound. lia. Qed.

Lemma choice_In {A} (d : A) l t : l <> [] -> In (fst (choice d l t)) l.
Proof.
  intros Hl. unfold choice, rbind, rret.
  destruct (randbelow (length l) t) as [i t'] eqn:E. simpl.
  apply nth_In. pose proof (randbelow_lt (length l) t) as Hlt. rewrite E in Hlt.
  apply Hlt. destruct l; [done|simpl; lia].
Qed.

(** Exchanging two entries of a list permutes it. *)
Lemma swap_perm {A} (i j : nat) (l : list A) : swap i j l ≡ₚ l.
Proof.
  unfold swap.
  destruct (l !! i) as [xi|] eqn:Ei; [|done].
  destruct (l !! j) as [xj|] eqn:Ej; [|done].
  by apply Permutation_insert_swap.
Qed.

Lemma shuffle_from_perm {A} k (l : list A) t : fst (shuffle_from k l t) ≡ₚ l.
Proof.
  revert l t. induction k as [|k IH]; intros l t; simpl; [done|].
  unfold rbind. destruct (randbelow (S (S k)) t) as [j t'].
  by rewrite IH, swap_perm.
Qed.

#[export] Hint Resolve shuffle_from_perm swap_perm : emo.
