(* ===== verification/Generator.v ===== *)
(** * The procedural generator: [generate_random_character]

    [src/cogs/character_creation.py], lines 570-673. The generator draws a
    race, a class, a name, a backstory and an alignment. It then builds a
    priority order of the six abilities: the class's primary abilities,
    then the race's bonus abilities, then the rest in canonical order. It
    shuffles the standard array [15, 14, 13, 12, 10, 8], gives the i-th
    shuffled value to the i-th ability of the order, and adds the racial
    bonuses.

    The theorems: the priority order is a permutation of the six
    abilities; the base values of the six abilities are the standard
    array, each value used once; each final score is its base value plus
    the racial bonus the spec describes; the scores lie in [8, 17] and sum
    to 72 plus the race's total bonus. A concrete tape shows that the
    shuffle makes the priority order irrelevant to the values: a
    Barbarian can get 8 in its primary ability. *)

From Stdlib Require Import String ZArith Lia Permutation.
From stdpp Require Import base list sets strings.
From S2P Require Import Prelude PyStr Data Rand.

Open Scope Z_scope.

(** ** The tables of the generator *)

(** [class_primary_abilities] (lines 595-609). *)
Definition class_primary_abilities (c : CharClass) : list Ability :=
  match c with
  | Artificer => [Intelligence]
  | Barbarian => [Strength; Constitution]
  | Bard => [Charisma; Dexterity]
  | Cleric => [Wisdom; Constitution]
  | Druid => [Wisdom; Constitution]
  | Fighter => [Strength; Constitution]
  | Monk => [Dexterity; Wisdom]
  | Paladin => [Strength; Charisma]
  | Ranger => [Dexterity; Wisdom]
  | Rogue => [Dexterity; Intelligence]
  | Sorcerer => [Charisma; Constitution]
  | Warlock => [Charisma; Constitution]
  | Wizard => [Intelligence; Constitution]
  end.

(** An entry of a race's bonus list: an ability key, or the sentinel
    ["all"]. *)
Inductive BonusKey := BonusAll | BonusOn (a : Ability).

#[export] Instance BonusKey_eq_dec : EqDecision BonusKey.
Proof. solve_decision. Defined.

(** [race_ability_bonuses] (lines 612-622). *)
Definition race_ability_bonuses (r : Race) : list BonusKey :=
  match r with
  | Human => [BonusAll]
  | Elf => [BonusOn Dexterity; BonusOn Intelligence]
  | Dwarf => [BonusOn Constitution; BonusOn Wisdom]
  | Halfling => [BonusOn Dexterity; BonusOn Charisma]
  | Gnome => [BonusOn Intelligence; BonusOn Dexterity]
  | Dragonborn => [BonusOn Strength; BonusOn Charisma]
  | Tiefling => [BonusOn Charisma; BonusOn Intelligence]
  | HalfElf => [BonusOn Charisma; BonusOn Dexterity; BonusOn Intelligence]
  | HalfOrc => [BonusOn Strength; BonusOn Constitution]
  end.

(** [base_scores = [15, 14, 13, 12, 10, 8]] (line 625). *)
Definition base_scores : list Z := [15; 14; 13; 12; 10; 8].

(** ** The algorithm *)

(** [for ability in l: if ability not in ability_priorities:
    ability_priorities.append(ability)] (lines 632-634 and 642-644). *)
Fixpoint append_missing (prio : list Ability) (l : list Ability) : list Ability :=
  match l with
  | [] => prio
  | a :: l' =>
      append_missing (if decide (a ∈ prio) then prio else prio ++ [a]) l'
  end.

(** [for ability in race_ability_bonuses.get(selected_race, []):
    if ability != "all" and ability not in ability_priorities: ...]
    (lines 637-639). *)
Fixpoint append_bonus_abilities (prio : list Ability) (l : list BonusKey) : list Ability :=
  match l with
  | [] => prio
  | BonusAll :: l' => append_bonus_abilities prio l'
  | BonusOn a :: l' =>
      append_bonus_abilities (if decide (a ∈ prio) then prio else prio ++ [a]) l'
  end.

(** [ability_priorities] after the three loops (lines 629-644). *)
Definition ability_priorities (c : CharClass) (r : Race) : list Ability :=
  append_missing
    (append_bonus_abilities (append_missing [] (class_primary_abilities c))
       (race_ability_bonuses r))
    ability_scores.

(** [for i, ability in enumerate(ability_priorities):
      if i < len(base_scores): assigned_scores[ability] = base_scores[i]
      else: assigned_scores[ability] = 8] (lines 647-652). *)
Fixpoint assign_from (i : nat) (base : list Z) (prio : list Ability)
    (assigned : Ability -> option Z) : Ability -> option Z :=
  match prio with
  | [] => assigned
  | a :: prio' =>
      let v := if (i <? length base)%nat then nth i base 0 else 8 in
      assign_from (S i) base prio' (upd assigned a (Some v))
  end.

Definition assigned_scores (c : CharClass) (r : Race) (shuffled : list Z) : Ability -> option Z :=
  assign_from 0 shuffled (ability_priorities c r) (fun _ => None).

(** [assigned_scores[k] = assigned_scores.get(k, 8) + n]. The code only
    adds to ability keys here; on the sentinel it would write a key
    ["all"] that nothing reads, so the model leaves the dict as it is. *)
Definition bump (k : BonusKey) (n : Z) (assigned : Ability -> option Z) : Ability -> option Z :=
  match k with
  | BonusOn a => upd assigned a (Some ((assigned a ?? 8) + n))
  | BonusAll => assigned
  end.

Definition is_all (k : BonusKey) : bool :=
  match k with BonusAll => true | BonusOn _ => false end.

(** Lines 655-667: [+1] to every ability if ["all"] is listed, otherwise
    [+2] to the first listed ability and [+1] to each later one. *)
Definition apply_racial_bonuses (bonuses : list BonusKey) (assigned : Ability -> option Z)
    : Ability -> option Z :=
  if existsb is_all bonuses then
    fold_left (fun acc a => upd acc a (Some ((acc a ?? 8) + 1))) ability_scores assigned
  else
    match bonuses with
    | [] => assigned
    | primary :: secondary => fold_left (fun acc k => bump k 1 acc) secondary (bump primary 2 assigned)
    end.

(** The six scores written at lines 670-671:
    [character_data[ability] = str(assigned_scores.get(ability, 10))]. *)
Definition generated_scores (c : CharClass) (r : Race) (shuffled : list Z) (a : Ability) : Z :=
  apply_racial_bonuses (race_ability_bonuses r) (assigned_scores c r shuffled) a ?? 10.

(** The dict of lines 580-592 with the scores of lines 670-671. *)
Definition build_generated (now : Z) (r : Race) (c : CharClass) (name bs al : string)
    (shuffled : list Z) : Character :=
  mkCharacter (Some name) (Some c) (Some r) (Some bs) (Some al) "1"
    (fun a => Some (generated_scores c r shuffled a))
    (Some []) (Some []) (Some []) (Some []) None now.

(** [generate_random_character()]: the random calls in the code's order
    (race, class, name, backstory, alignment, shuffle). *)
Definition generate_random_character (now : Z) : rand Character :=
  r <-$ choice Human races ;;
  c <-$ choice Artificer classes ;;
  name <-$ choice EmptyString names ;;
  bs <-$ choice EmptyString backstories ;;
  al <-$ choice EmptyString alignments ;;
  shuffled <-$ shuffle base_scores ;;
  rret (build_generated now r c name bs al shuffled).

(** ** The racial bonus the spec describes (section 4.3) *)

(** Human ([["all"]]): +1 to every ability. Another race: +2 to its first
    listed ability, +1 to each later listed one, 0 elsewhere. *)
Definition bonus_spec (r : Race) (a : Ability) : Z :=
  match race_ability_bonuses r with
  | [BonusAll] => 1
  | BonusOn p :: rest =>
      if decide (a = p) then 2 else if decide (BonusOn a ∈ rest) then 1 else 0
  | _ => 0
  end.

(** The base value an ability gets from the shuffled array, before the
    bonuses: [assigned_scores.get(ability, 8)]. *)
Definition base_value (c : CharClass) (r : Race) (shuffled : list Z) (a : Ability) : Z :=
  assigned_scores c r shuffled a ?? 8.

(** The shape of a generated character: a race and a class, and six
    scores that are base values plus the racial bonus, the base values
    being the standard array. *)
Definition gen_shape (ch : Character) : Prop :=
  exists r c (base : Ability -> Z),
    ch.(ch_race) = Some r /\ ch.(ch_class) = Some c /\
    map base ability_scores ≡ₚ base_scores /\
    forall a, ch.(ch_scores) a = Some (base a + bonus_spec r a).

(** ** The priority order *)

Lemma append_missing_spec prio l :
  NoDup prio ->
  NoDup (append_missing prio l) /\ (forall x, x ∈ append_missing prio l <-> x ∈ prio \/ x ∈ l).
Proof.
  revert prio. induction l as [|a l IH]; intros prio Hnd; simpl.
  - split; [done|]. set_solver.
  - destruct (decide (a ∈ prio)) as [Hin|Hnin].
    + destruct (IH prio Hnd) as [H1 H2]. split; [done|]. set_solver.
    + assert (NoDup (prio ++ [a])) as Hnd'.
      { apply NoDup_app. repeat split; [done| |by apply NoDup_singleton]. set_solver. }
      destruct (IH _ Hnd') as [H1 H2]. split; [done|]. set_solver.
Qed.

Lemma append_bonus_abilities_spec prio l :
  NoDup prio ->
  NoDup (append_bonus_abilities prio l) /\
  (forall x, x ∈ append_bonus_abilities prio l <-> x ∈ prio \/ BonusOn x ∈ l).
Proof.
  revert prio. induction l as [|[|a] l IH]; intros prio Hnd; simpl.
  - split; [done|]. set_solver.
  - destruct (IH prio Hnd) as [H1 H2]. split; [done|]. set_solver.
  - destruct (decide (a ∈ prio)) as [Hin|Hnin].
    + destruct (IH prio Hnd) as [H1 H2]. split; [done|]. set_solver.
    + assert (NoDup (prio ++ [a])) as Hnd'.
      { apply NoDup_app. repeat split; [done| |by apply NoDup_singleton]. set_solver. }
      destruct (IH _ Hnd') as [H1 H2]. split; [done|]. set_solver.
Qed.

Lemma ability_scores_elem a : a ∈ ability_scores.
Proof. apply list_elem_of_In, ability_scores_complete. Qed.

(** The priority order of every class and race lists each of the six
    abilities exactly once. *)
Theorem ability_priorities_perm c r : ability_priorities c r ≡ₚ ability_scores.
Proof.
  unfold ability_priorities.
  destruct (append_missing_spec [] (class_primary_abilities c)) as [H1 _]; [constructor|].
  destruct (append_bonus_abilities_spec _ (race_ability_bonuses r) H1) as [H2 _].
  destruct (append_missing_spec _ ability_scores H2) as [H3 H3'].
  apply NoDup_Permutation; [done|apply ability_scores_NoDup|].
  intros x. rewrite H3'. pose proof (ability_scores_elem x). tauto.
Qed.

Lemma ability_priorities_length c r : length (ability_priorities c r) = 6%nat.
Proof. by rewrite (ability_priorities_perm c r). Qed.

Lemma ability_priorities_NoDup c r : NoDup (ability_priorities c r).
Proof. rewrite ability_priorities_perm. apply ability_scores_NoDup. Qed.

(** ** The assignment of the shuffled array *)

Lemma assign_from_notin i base prio f a :
  a ∉ prio -> assign_from i base prio f a = f a.
Proof.
  revert i f. induction prio as [|b prio IH]; intros i f Ha; simpl; [done|].
  rewrite IH by set_solver. apply upd_ne. set_solver.
Qed.

(** Walking the order, the i-th ability gets the i-th value. *)
Lemma assign_from_map i base prio f :
  NoDup prio -> (i + length prio <= length base)%nat ->
  map (assign_from i base prio f) prio = map Some (take (length prio) (drop i base)).
Proof.
  revert i f. induction prio as [|a prio IH]; intros i f Hnd Hlen; simpl; [done|].
  apply NoDup_cons in Hnd as [Ha Hnd]. simpl in Hlen.
  destruct (lookup_lt_is_Some_2 base i) as [x Hx]; [lia|].
  rewrite (drop_S _ x) by done. simpl.
  rewrite assign_from_notin, upd_eq by done.
  rewrite IH by (done || lia).
  do 2 f_equal. rewrite (proj2 (Nat.ltb_lt _ _)) by lia.
  by apply nth_lookup_Some.
Qed.

(** The base values, read in priority order, are the shuffled array. *)
Lemma assigned_scores_in_order c r shuffled :
  length shuffled = 6%nat ->
  map (base_value c r shuffled) (ability_priorities c r) = shuffled.
Proof.
  intros Hlen. unfold base_value, assigned_scores.
  rewrite <- (map_map _ (default 8)).
  rewrite assign_from_map; [|apply ability_priorities_NoDup|rewrite ability_priorities_length, Hlen; lia].
  rewrite ability_priorities_length, drop_0, <- Hlen, firstn_all, map_map.
  apply map_id.
Qed.

Lemma base_value_assigned c r shuffled a :
  length shuffled = 6%nat ->
  assigned_scores c r shuffled a = Some (base_value c r shuffled a).
Proof.
  intros Hlen. unfold base_value, assigned_scores.
  assert (In a (ability_priorities c r)) as Ha.
  { apply list_elem_of_In. rewrite ability_priorities_perm. apply ability_scores_elem. }
  pose proof (assign_from_map 0 shuffled (ability_priorities c r) (fun _ => None)
    (ability_priorities_NoDup c r)) as Hm.
  rewrite ability_priorities_length in Hm. specialize (Hm ltac:(lia)).
  apply (in_map (assign_from 0 shuffled (ability_priorities c r) (fun _ => None))) in Ha.
  rewrite Hm in Ha. apply in_map_iff in Ha as [v [<- _]]. done.
Qed.

(** ** The racial bonuses *)

Lemma apply_racial_bonuses_spec r f a v :
  f a = Some v ->
  apply_racial_bonuses (race_ability_bonuses r) f a = Some (v + bonus_spec r a).
Proof.
  intros Hv. unfold apply_racial_bonuses, bonus_spec, bump, upd.
  destruct r, a; simpl; rewrite ?Hv; simpl; f_equal; lia.
Qed.

Lemma bonus_spec_range r a : 0 <= bonus_spec r a <= 2.
Proof. unfold bonus_spec. destruct r, a; simpl; lia. Qed.

Lemma NoDup_map_neq {A B} (f : A -> B) l x y :
  NoDup (map f l) -> x ∈ l -> y ∈ l -> x <> y -> f x <> f y.
Proof.
  induction l as [|z l IH]; intros Hnd Hx Hy Hne Heq; [set_solver|].
  simpl in Hnd. apply NoDup_cons in Hnd as [Hz Hnd].
  apply elem_of_cons in Hx as [->|Hx]; apply elem_of_cons in Hy as [->|Hy].
  - done.
  - apply Hz. rewrite Heq. by apply list_elem_of_fmap_2.
  - apply Hz. rewrite <- Heq. by apply list_elem_of_fmap_2.
  - by apply (IH Hnd Hx Hy Hne).
Qed.

(** ** The generator's theorems *)

(** The score of every ability is its base value plus the racial bonus,
    and the six base values are the shuffled array. *)
Lemma generated_scores_spec c r shuffled :
  shuffled ≡ₚ base_scores ->
  map (base_value c r shuffled) ability_scores ≡ₚ base_scores /\
  forall a, generated_scores c r shuffled a = base_value c r shuffled a + bonus_spec r a.
Proof.
  intros Hp. assert (length shuffled = 6%nat) as Hlen by (by rewrite Hp).
  split.
  - rewrite <- (ability_priorities_perm c r), assigned_scores_in_order; done.
  - intros a. unfold generated_scores.
    by rewrite (apply_racial_bonuses_spec r _ a _ (base_value_assigned c r shuffled a Hlen)).
Qed.

(** The run of the generator on a tape, unfolded: the drawn race and
    class, and a shuffle of the standard array. *)
Lemma generate_random_character_run now t :
  exists r c shuffled, shuffled ≡ₚ base_scores /\
    (fst (generate_random_character now t)).(ch_race) = Some r /\
    (fst (generate_random_character now t)).(ch_class) = Some c /\
    (fst (generate_random_character now t)).(ch_scores) =
      (fun a => Some (generated_scores c r shuffled a)).
Proof.
  unfold generate_random_character, rbind, rret.
  destruct (choice Human races t) as [r t1].
  destruct (choice Artificer classes t1) as [c t2].
  destruct (choice EmptyString names t2) as [n t3].
  destruct (choice EmptyString backstories t3) as [b t4].
  destruct (choice EmptyString alignments t4) as [al t5].
  pose proof (shuffle_from_perm (length base_scores - 1) base_scores t5) as Hp.
  unfold shuffle. destruct (shuffle_from (length base_scores - 1) base_scores t5) as [sh t6].
  simpl in Hp.
  by exists r, c, sh.
Qed.

(** Every generated character has the shape above. *)
Lemma generate_gen_shape now t : gen_shape (fst (generate_random_character now t)).
Proof.
  destruct (generate_random_character_run now t) as (r & c & sh & Hp & Hr & Hc & Hs).
  destruct (generated_scores_spec c r sh Hp) as [Hb Hg].
  exists r, c, (base_value c r sh). split_and!; [done|done|done|].
  intros a. by rewrite Hs, Hg.
Qed.

(** A character of that shape has its scores in [8, 17], summing to 72
    plus the race's total bonus. *)
Lemma gen_shape_bounds ch :
  gen_shape ch ->
  exists r, ch.(ch_race) = Some r /\
  (forall a, exists v, ch.(ch_scores) a = Some v /\ 8 <= v <= 17) /\
  sumZ (fun a => ch.(ch_scores) a ?? 0) ability_scores = 72 + sumZ (bonus_spec r) ability_scores.
Proof.
  intros (r & c & base & Hr & _ & Hb & Hs). exists r. split; [done|]. split.
  - intros a. rewrite Hs. eexists; split; [done|].
    assert (base a ∈ base_scores) as Hin.
    { rewrite <- Hb. apply list_elem_of_fmap_2, ability_scores_elem. }
    pose proof (bonus_spec_range r a).
    unfold base_scores in Hin. repeat (apply elem_of_cons in Hin as [->|Hin]; [lia|]).
    by apply elem_of_nil in Hin.
  - rewrite (sumZ_ext _ (fun a => base a + bonus_spec r a)) by (intros a _; by rewrite Hs).
    assert (sumZ base ability_scores = 72) as Hsum.
    { rewrite <- (sumZ_map id base), (sumZ_permutation id _ _ Hb). reflexivity. }
    clear Hs. unfold sumZ in *. simpl in *. lia.
Qed.

(** C5: whatever the random draws, the generated character is built from
    the code's tables: its race, class, name, backstory and alignment are
    members of [races], [classes], [self.names], [self.backstories] and
    [self.alignments]; and each of its six scores is the base value of
    its ability plus the racial bonus of section 4.3 (Human: +1
    everywhere; other races: +2 on the first listed ability, +1 on the
    later ones), the six base values being the standard array
    [15, 14, 13, 12, 10, 8], each used once. *)
Theorem generate_random_character_scores now t :
  let ch := fst (generate_random_character now t) in
  (exists r, ch.(ch_race) = Some r /\ In r races) /\
  (exists c, ch.(ch_class) = Some c /\ In c classes) /\
  (exists n, ch.(ch_name) = Some n /\ In n names) /\
  (exists b, ch.(ch_backstory) = Some b /\ In b backstories) /\
  (exists al, ch.(ch_alignment) = Some al /\ In al alignments) /\
  exists r (base : Ability -> Z),
    ch.(ch_race) = Some r /\ map base ability_scores ≡ₚ base_scores /\
    forall a, ch.(ch_scores) a = Some (base a + bonus_spec r a).
Proof.
  pose proof (generate_gen_shape now t) as (r0 & c0 & base & Hr0 & _ & Hb & Hs).
  split_and!; [| | | | |by exists r0, base].
  all: unfold generate_random_character, rbind, rret in *.
  all: pose proof (choice_In Human races t ltac:(done)) as H1;
       destruct (choice Human races t) as [r t1];
       pose proof (choice_In Artificer classes t1 ltac:(done)) as H2;
       destruct (choice Artificer classes t1) as [c t2];
       pose proof (choice_In EmptyString names t2 ltac:(done)) as H3;
       destruct (choice EmptyString names t2) as [n t3];
       pose proof (choice_In EmptyString backstories t3 ltac:(done)) as H4;
       destruct (choice EmptyString backstories t3) as [b t4];
       pose proof (choice_In EmptyString alignments t4 ltac:(done)) as H5;
       destruct (choice EmptyString alignments t4) as [al t5];
       destruct (shuffle base_scores t5) as [sh t6]; simpl in *.
  - by exists r.
  - by exists c.
  - by exists n.
  - by exists b.
  - by exists al.
Qed.

Lemma base_scores_NoDup : NoDup base_scores.
Proof. apply (bool_decide_unpack _). by vm_compute. Qed.

(** No two abilities of a generated character get the same value of
    the standard array. *)
Theorem generated_base_values_distinct c r shuffled a b :
  shuffled ≡ₚ base_scores -> a <> b ->
  base_value c r shuffled a <> base_value c r shuffled b.
Proof.
  intros Hp Hab. destruct (generated_scores_spec c r shuffled Hp) as [Hb _].
  apply (NoDup_map_neq _ ability_scores); [|apply ability_scores_elem..|done].
  rewrite Hb. apply base_scores_NoDup.
Qed.

(** The first ability of the priority list is the class's first
    primary ability. *)
Lemma ability_priorities_head c r :
  exists rest, ability_priorities c r = hd Strength (class_primary_abilities c) :: rest.
Proof. destruct c, r; eexists; reflexivity. Qed.

(** C26: the standard array is shuffled (line 626) before it is dealt in
    priority order, so the class's first primary ability gets the first
    value of the shuffled array, plus its racial bonus, whatever that
    value is: it is 15 only when the shuffle put 15 first, and it is 8,
    the lowest, when the shuffle put 8 first. *)
Theorem primary_gets_first_shuffled c r shuffled :
  shuffled ≡ₚ base_scores ->
  generated_scores c r shuffled (hd Strength (class_primary_abilities c)) =
    hd 0 shuffled + bonus_spec r (hd Strength (class_primary_abilities c)).
Proof.
  intros Hp. destruct (generated_scores_spec c r shuffled Hp) as [_ ->]. f_equal.
  assert (length shuffled = 6%nat) as Hlen by (by rewrite Hp).
  pose proof (assigned_scores_in_order c r shuffled Hlen) as Hm.
  destruct (ability_priorities_head c r) as [rest Hh]. rewrite Hh in Hm. cbn [map] in Hm.
  destruct shuffled as [|x l]; [done|]. by injection Hm as -> _.
Qed.

(** C20: every generated score lies in [8, 17], and the six scores sum to
    72 (the standard array) plus the race's total bonus. *)
Theorem generate_random_character_bounds now t :
  exists r, (fst (generate_random_character now t)).(ch_race) = Some r /\
  (forall a, exists v, (fst (generate_random_character now t)).(ch_scores) a = Some v /\ 8 <= v <= 17) /\
  sumZ (fun a => (fst (generate_random_character now t)).(ch_scores) a ?? 0) ability_scores
    = 72 + sumZ (bonus_spec r) ability_scores.
Proof. apply gen_shape_bounds, generate_gen_shape. Qed.

