(* ===== verification/Events.v ===== *)
(** * The messaging transport: channels, incoming events, outgoing notices

    The handlers talk to Discord through [ctx.send], [ctx.author.send],
    [bot.wait_for('message', check=..., timeout=...)] and dropdown views
    ([SelectionView.wait()]). The model of that transport:
    - a channel is a guild text channel, a thread of one, or the direct
      message channel of a user ([discord.DMChannel]);
    - an incoming event is a message (author, channel, content), a
      dropdown selection (the chosen option's value), or a clock tick.
      Each carries the time at which it happens;
    - an outgoing notice is a message the handler sends, to a channel or
      to a user's DMs, modelled by its kind and the data it shows.
      Embeds and formatting are not modelled.
    A wait opened at time [t] with timeout [d] has deadline [t + d].
    [bot.wait_for] raises [asyncio.TimeoutError] at the deadline, so an
    event at or after it finds the wait already timed out.
    An exception a command does not catch goes to [on_command_error]
    of [src/Emo.py], modelled at the end of this file. *)

From Stdlib Require Import String ZArith.
From stdpp Require Import base list gmap strings.
From S2P Require Import Prelude PyStr Data.

Open Scope Z_scope.

Inductive Chan :=
| ChText (id : string)
| ChThread (id parent : string)
| ChDM (user : string).

#[export] Instance Chan_eq_dec : EqDecision Chan.
Proof. solve_decision. Defined.

(** [str(ctx.channel.id)]. A DM channel has a snowflake of its own,
    distinct from the user's id and from every guild channel's: it is
    modelled by the key ["dm:" + user], which no channel id (a string of
    digits) equals. *)
Definition chan_id (c : Chan) : string :=
  match c with ChText id => id | ChThread id _ => id | ChDM u => ("dm:" ++ u)%string end.

(** [isinstance(m.channel, discord.DMChannel)]. *)
Definition is_dm (c : Chan) : bool :=
  match c with ChDM _ => true | _ => false end.

Record Message := mkMessage {
  msg_author : string;
  msg_channel : Chan;
  msg_content : string
}.

Inductive Event :=
| EvMessage (t : Z) (m : Message)
| EvSelect (t : Z) (value : string)
| EvTick (t : Z).

Definition ev_time (ev : Event) : Z :=
  match ev with EvMessage t _ | EvSelect t _ | EvTick t => t end.

(** The kinds of message the handlers send. *)
Inductive Notice :=
| NUnavailable                     (* "Error: DnD game system is not currently available." *)
| NNoGame                          (* "There is no active D&D game in this channel..." *)
| NNotPlayer                       (* "You are not a player in this D&D game." *)
| NNotGM                           (* "Only the Game Master or game creator can ..." *)
| NReplacePrompt                   (* "Replace Character?" embed *)
| NCancelled                       (* "Character creation cancelled." *)
| NTimedOut                        (* "Timed out. Character creation cancelled." *)
| NIntro | NNamePrompt | NNameTimeout | NNameRequired
| NClassMenu | NClassTimeout | NRaceMenu | NRaceTimeout
| NClassSelected (v : string)      (* the class menu edited to "Class selected: **v**" *)
| NRaceSelected (v : string)       (* the race menu edited to "Race selected: **v**" *)
| NBackstoryPrompt | NBackstoryTimeout | NAlignmentPrompt | NAlignmentTimeout
| NScoresIntro
| NAbilityPrompt (a : Ability) (remaining : Z)
| NInvalidPoints (bound : Z)       (* "Invalid points. Must be between 0 and ..." *)
| NNotANumber                      (* "Please enter a valid number." *)
| NUnassigned (n : Z)              (* "You have n points left unassigned." *)
| NConfirmCard (c : Character)     (* the confirmation embed *)
| NConfirmTimeout                  (* "Confirmation timed out. Character creation cancelled." *)
| NRandomCard (c : Character)      (* the "Random Character" embed of display_and_confirm *)
| NRerolling                       (* "Generating a new character..." *)
| NCreated (uid : string) (c : Character)   (* "Character created successfully ..." *)
| NAllReady                        (* "As everyone made their character, ..." *)
| NNpcCreated (c : Character)
| NNoNpcs | NNpcNotFound (name : string) | NNpcRemoved (name : string)
| NNpcList (npcs : list Character) | NNpcDetail (c : Character)
| NNoCharacter                     (* "... doesn't have a character in this game." *)
| NNoCharacters                    (* "No characters have been created in this game yet." *)
| NCharacterView (c : Character) (image_key : string)
| NCharacterList (cs : gmap string Character)
| NMissingArgument (param : string)  (* "Missing required argument: ..." *)
| NMemberNotFound                  (* "Could not find that member." *)
| NErrorOccurred (what : string)   (* "An error occurred: ..." *)
| NTestWorks.                     (* "Test command works!" *)

Inductive Out :=
| OutChannel (c : Chan) (n : Notice)
| OutDM (user : string) (n : Notice).

(** The notices of a trace that are [n], wherever they were sent. *)
Definition notice_of (o : Out) : Notice :=
  match o with OutChannel _ n | OutDM _ n => n end.

(** The errors a command raises, as [on_command_error] sees them. A
    Python exception inside a handler ([KeyError], [ValueError], ...)
    arrives wrapped in [CommandInvokeError]: [ErrOther]. *)
Inductive CmdError :=
| ErrCommandNotFound
| ErrMissingArgument (param : string)
| ErrMemberNotFound
| ErrOther (what : string).

(** [on_command_error] of [src/Emo.py] (lines 39-49): an unknown
    command is ignored; the others are answered in the command's
    channel. *)
Definition on_command_error (origin : Chan) (e : CmdError) : list Out :=
  match e with
  | ErrCommandNotFound => []
  | ErrMissingArgument p => [OutChannel origin (NMissingArgument p)]
  | ErrMemberNotFound => [OutChannel origin NMemberNotFound]
  | ErrOther what => [OutChannel origin (NErrorOccurred what)]
  end.
