(* ===== verification/Gateway.v ===== *)
(** * The persistence gateway: saving a confirmed character

    The two creation paths end the same way. The guided wizard does it
    at lines 374-394 of [src/cogs/character_creation.py], and
    [display_and_confirm] at lines 711-726: put the character under the
    user's id in the handler's [game] dict, stamp [last_updated], call
    [save_game], announce the character in the command's channel, read
    the game again, and announce when every player has a character.
    [save_and_announce] is that sequence. The game it writes is the
    handler's local copy, read when the command started. *)

From Stdlib Require Import String ZArith.
From stdpp Require Import base list gmap strings.
From S2P Require Import Prelude Data Store Events.

Open Scope Z_scope.

(** The notices of the second read: "As everyone made their character,
    ..." when [len(game["characters"]) == len(game["player_ids"])]. (If
    the read found no game, the code would raise on
    [game["characters"]]; under the store laws it always finds one.) *)
Definition ready_notice (origin : Chan) (og : option Game) : list Out :=
  match og with
  | Some g' => if all_ready g' then [OutChannel origin NAllReady] else []
  | None => []
  end.

Definition save_and_announce `{SessionStore St} (s : St) (ch : string) (origin : Chan)
    (uid : string) (c : Character) (now : Z) (g : Game) : St * list Out :=
  let s' := save_game s ch (put_character uid c now g) in
  (s', OutChannel origin (NCreated uid c) :: ready_notice origin (get_game s' ch)).

Section Laws.
Context `{SessionStoreLaws St}.

(** After the gateway, the channel's game is the handler's copy with the
    character put under the user's id. *)
Lemma save_and_announce_get s ch origin uid c now g :
  get_game (save_and_announce s ch origin uid c now g).1 ch = Some (put_character uid c now g).
Proof. apply get_save_eq. Qed.

(** The ready notice is decided on the saved game itself. *)
Lemma save_and_announce_ready s ch origin uid c now g :
  (save_and_announce s ch origin uid c now g).2 =
  OutChannel origin (NCreated uid c) :: ready_notice origin (Some (put_character uid c now g)).
Proof. unfold save_and_announce. simpl. by rewrite get_save_eq. Qed.
End Laws.
