(* ===== verification/Allocator.v ===== *)
(** * The ability allocator: step 6 of the guided wizard

    [src/cogs/character_creation.py], lines 306-354. The loop
    [for ability in ability_scores:] walks the six abilities in order.
    If no point is left ([remaining_points == 0]) it writes ["10"] and
    moves on without a prompt. Otherwise it prompts until a reply
    arrives: ["cancel"] aborts; a reply that [int()] rejects, or a number
    outside [0, min(7, remaining_points)], is answered with an error and
    prompted again; a valid number is added to the ability and taken
    from the pool. Points left at the end are reported and lost.

    The allocator's state is [ability_values] and [remaining_points]. Its
    writes go to the [character_data] dict of the wizard, passed in and
    out as a [Character]. The wizard ([Wizard.v]) owns the waits. This
    file gives the two pieces of the loop between waits:
    [alloc_advance] (run the [for] loop to the next prompt) and
    [alloc_reply] (handle one reply).

    The invariant [alloc_inv]: the pool is non-negative; the points
    given out plus the pool make 18; every value lies in [10, 17]; the
    abilities still to be visited are at 10 and unwritten; the visited
    ones are written with their value. *)

From Stdlib Require Import String ZArith Lia.
From stdpp Require Import base list sets strings.
From S2P Require Import Prelude PyStr Data.

Open Scope Z_scope.

Record Alloc := mkAlloc {
  al_values : Ability -> Z;
  al_remaining : Z
}.

(** [ability_values = {ability.lower(): 10 for ...}] and
    [remaining_points = 18] (lines 317-318). *)
Definition alloc_init : Alloc := mkAlloc (fun _ => 10) 18.

(** Where the [for] loop stops: at a prompt for an ability (with the
    abilities after it), or past the last ability. *)
Inductive AllocStop :=
| StopPrompt (a : Ability) (rest : list Ability)
| StopDone.

(** Lines 320-325: [if remaining_points == 0:
    character_data[ability_key] = "10"; continue], otherwise stop at the
    [while True] prompt loop of this ability. *)
Fixpoint alloc_advance (st : Alloc) (data : Character) (l : list Ability) : Character * AllocStop :=
  match l with
  | [] => (data, StopDone)
  | a :: rest =>
      if al_remaining st =? 0 then alloc_advance st (set_score a 10 data) rest
      else (data, StopPrompt a rest)
  end.

(** The outcome of one reply to the prompt of an ability. *)
Inductive AllocReply :=
| ReplyCancel
| ReplyNotNumber
| ReplyOutOfRange (bound : Z)
| ReplyAccepted (st : Alloc) (data : Character).

(** Lines 335-349, for the reply [content] to the prompt of [a]. *)
Definition alloc_reply (st : Alloc) (data : Character) (a : Ability) (content : string) : AllocReply :=
  if String.eqb (py_lower content) "cancel" then ReplyCancel
  else
    match py_int (py_strip content) with
    | None => ReplyNotNumber
    | Some points =>
        let bound := Z.min 7 (al_remaining st) in
        if (0 <=? points) && (points <=? bound) then
          let v := al_values st a + points in
          ReplyAccepted (mkAlloc (upd (al_values st) a v) (al_remaining st - points))
                        (set_score a v data)
        else ReplyOutOfRange bound
    end.

(** ** The invariant *)

Definition alloc_inv (st : Alloc) (pending : list Ability) (data : Character) : Prop :=
  0 <= al_remaining st /\
  sumZ (fun a => al_values st a - 10) ability_scores + al_remaining st = 18 /\
  (forall a, 10 <= al_values st a <= 17) /\
  NoDup pending /\
  (forall a, a ∈ pending -> al_values st a = 10 /\ ch_scores data a = None) /\
  (forall a, a ∉ pending -> ch_scores data a = Some (al_values st a)).

Lemma set_score_scores a v data b :
  ch_scores (set_score a v data) b = if decide (a = b) then Some v else ch_scores data b.
Proof. reflexivity. Qed.

(** Before the loop, with nothing written, the invariant holds. *)
Lemma alloc_inv_init data :
  (forall a, ch_scores data a = None) -> alloc_inv alloc_init ability_scores data.
Proof.
  intros Hn. unfold alloc_inv, alloc_init. simpl.
  split; [lia|]. split; [reflexivity|]. split; [intros; lia|].
  split; [apply ability_scores_NoDup|]. split; [done|].
  intros a Ha. exfalso. apply Ha, list_elem_of_In, ability_scores_complete.
Qed.

(** The [for] loop up to the next prompt keeps the invariant; when it
    stops at a prompt, the pool is not empty. *)
Lemma alloc_advance_inv st data l :
  alloc_inv st l data ->
  match alloc_advance st data l with
  | (data', StopPrompt a rest) => alloc_inv st (a :: rest) data' /\ al_remaining st <> 0
  | (data', StopDone) => alloc_inv st [] data'
  end.
Proof.
  revert data. induction l as [|a l IH]; intros data Hinv; simpl; [done|].
  destruct (Z.eqb_spec (al_remaining st) 0) as [H0|H0]; [|done].
  apply IH. destruct Hinv as (Hr & Hs & Hb & Hnd & Hp & Hw).
  apply NoDup_cons in Hnd as [Ha Hnd].
  destruct (Hp a (list_elem_of_here _ _)) as [Hva _].
  do 4 (split; [done|]). split.
  - intros b Hb'. rewrite set_score_scores. destruct (decide (a = b)) as [<-|]; [done|].
    apply Hp. by apply list_elem_of_further.
  - intros b Hb'. rewrite set_score_scores. destruct (decide (a = b)) as [<-|Hne]; [by rewrite Hva|].
    apply Hw. rewrite elem_of_cons. intros [->|]; done.
Qed.

(** An accepted reply keeps the invariant, with the ability visited. *)
Lemma alloc_reply_inv st data a rest content st' data' :
  alloc_inv st (a :: rest) data ->
  alloc_reply st data a content = ReplyAccepted st' data' ->
  alloc_inv st' rest data'.
Proof.
  intros (Hr & Hs & Hb & Hnd & Hp & Hw) Hrep. unfold alloc_reply in Hrep.
  destruct (String.eqb _ _); [discriminate|].
  destruct (py_int _) as [p|]; [|discriminate].
  destruct ((0 <=? p) && (p <=? Z.min 7 (al_remaining st))) eqn:Hrange; [|discriminate].
  inv_clear Hrep. apply andb_true_iff in Hrange as [H1 H2].
  apply Z.leb_le in H1. apply Z.leb_le in H2.
  apply NoDup_cons in Hnd as [Ha Hnd].
  destruct (Hp a (list_elem_of_here _ _)) as [Hva _].
  unfold alloc_inv. cbn [al_values al_remaining]. split; [lia|]. split; [|split; [|split; [done|split]]].
  - assert (Hsum : sumZ (fun b => upd (al_values st) a (al_values st a + p) b - 10) ability_scores
                   = sumZ (fun b => al_values st b - 10) ability_scores + p).
    { rewrite (sumZ_ext _ (upd (fun b => al_values st b - 10) a (al_values st a + p - 10))).
      - rewrite sumZ_upd; [lia|apply ability_scores_NoDup|apply ability_scores_complete].
      - intros b _. unfold upd. by destruct (decide (a = b)). }
    lia.
  - intros b. unfold upd. destruct (decide (a = b)) as [<-|]; [lia|apply Hb].
  - intros b Hb'. unfold upd. rewrite set_score_scores.
    destruct (decide (a = b)) as [<-|]; [done|]. apply Hp. by apply list_elem_of_further.
  - intros b Hb'. rewrite set_score_scores. unfold upd.
    destruct (decide (a = b)) as [<-|Hne]; [done|].
    apply Hw. rewrite elem_of_cons. intros [->|]; done.
Qed.

(** At the end of the loop every ability is written, with a value in
    [10, 17], and the points spent are 18 minus the points left. *)
Lemma alloc_inv_done st data :
  alloc_inv st [] data ->
  0 <= al_remaining st /\
  (forall a, exists v, ch_scores data a = Some v /\ 10 <= v <= 17) /\
  sumZ (fun a => (ch_scores data a ?? 0) - 10) ability_scores = 18 - al_remaining st.
Proof.
  intros (Hr & Hs & Hb & _ & _ & Hw). split; [done|]. split.
  - intros a. exists (al_values st a). split; [apply Hw; apply not_elem_of_nil|apply Hb].
  - rewrite (sumZ_ext _ (fun a => al_values st a - 10)); [lia|].
    intros a _. rewrite Hw; [done|apply not_elem_of_nil].
Qed.

(** With the pool empty, the [for] loop writes ["10"] for every ability
    left and never stops at a prompt (lines 320-325). *)
Lemma alloc_advance_empty st data l :
  al_remaining st = 0 ->
  alloc_advance st data l = (fold_left (fun d b => set_score b 10 d) l data, StopDone).
Proof.
  intros H0. revert data. induction l as [|a l IH]; intros data; simpl; [done|].
  rewrite H0. apply IH.
Qed.

Lemma fold_set_ten_other l data b :
  b ∉ l -> ch_scores (fold_left (fun d b => set_score b 10 d) l data) b = ch_scores data b.
Proof.
  revert data. induction l as [|a l IH]; intros data Hb; simpl; [done|].
  rewrite IH by (intros H; apply Hb; by apply list_elem_of_further).
  rewrite set_score_scores. destruct (decide (a = b)) as [->|]; [|done].
  exfalso. apply Hb, list_elem_of_here.
Qed.

Lemma fold_set_ten l data b :
  b ∈ l -> ch_scores (fold_left (fun d b => set_score b 10 d) l data) b = Some 10.
Proof.
  revert data. induction l as [|a l IH]; intros data Hb; [by apply not_elem_of_nil in Hb|]. simpl.
  destruct (decide (b ∈ l)) as [Hin|Hnin]; [by apply IH|].
  apply elem_of_cons in Hb as [->|]; [|done].
  rewrite fold_set_ten_other by done. rewrite set_score_scores. by rewrite decide_True.
Qed.
