(* ===== verification/Wizard.v ===== *)
(** * The guided wizard: the [!creation] command

    [src/cogs/character_creation.py], [CharacterCreation.character_creation],
    lines 158-394. The handler checks its preconditions (the DnDGame cog is
    loaded, a game exists for the channel, the author is a player). If the
    author already has a character, it asks in the channel whether to
    replace it (30 s). Then, in the author's DMs, it asks for a name, a
    class (menu), a race (menu), a backstory, an alignment, and six
    ability allocations, and finally for a yes/no confirmation (60 s
    each). Only the confirmation writes the game, in one
    [save_game]; the handler then reads the game again and announces
    when every player has a character.

    The handler is a state machine. [Pc] names the pending [await].
    [WizardState] holds the Python locals: [user_id], [ctx.channel], the
    [game] dict read at line 169, [character_data], the allocator state
    ([ability_values], [remaining_points]), and the deadline of the
    pending wait. [character_creation] runs the code up to the first
    wait. [wizard_step] runs it from one wait to the next, on one event. *)

From Stdlib Require Import String ZArith Lia.
From stdpp Require Import base list sets gmap strings.
From S2P Require Import Prelude PyStr Data Store Events Gateway Allocator.

Open Scope Z_scope.

Inductive Outcome := Saved | Cancelled | TimedOut.

Inductive Pc :=
| PcReplace                                (* line 193: yes/no in the channel *)
| PcName                                   (* line 223 *)
| PcClass                                  (* line 245: class menu *)
| PcRace                                   (* line 260: race menu *)
| PcBackstory                              (* line 275 *)
| PcAlignment                              (* line 295 *)
| PcPoints (a : Ability) (rest : list Ability)   (* line 334, for [a] *)
| PcConfirm                                (* line 366 *)
| PcDone (o : Outcome).

#[export] Instance Outcome_eq_dec : EqDecision Outcome.
Proof. solve_decision. Defined.

#[export] Instance Pc_eq_dec : EqDecision Pc.
Proof. solve_decision. Defined.

Record WizardState := mkWizard {
  wz_actor : string;
  wz_origin : Chan;
  wz_game : Game;
  wz_data : Character;
  wz_alloc : Alloc;
  wz_deadline : Z;
  wz_pc : Pc
}.

(** [channel_id = str(ctx.channel.id)]. *)
Definition wz_channel_id (w : WizardState) : string := chan_id (wz_origin w).

Definition goto (pc : Pc) (deadline : Z) (data : Character) (al : Alloc) (w : WizardState) : WizardState :=
  mkWizard (wz_actor w) (wz_origin w) (wz_game w) data al deadline pc.

(** A [return] of the handler. *)
Definition finish (o : Outcome) (w : WizardState) : WizardState :=
  goto (PcDone o) (wz_deadline w) (wz_data w) (wz_alloc w) w.

(** [ctx.author.send(...)] and [ctx.send(...)]. *)
Definition dm (w : WizardState) (n : Notice) : Out := OutDM (wz_actor w) n.
Definition pub (w : WizardState) (n : Notice) : Out := OutChannel (wz_origin w) n.

(** [check_confirm] (lines 190-191): the author, in the command's
    channel, answering yes or no in any case. *)
Definition check_confirm (w : WizardState) (m : Message) : bool :=
  String.eqb (msg_author m) (wz_actor w) && bool_decide (msg_channel m = wz_origin w) &&
  (String.eqb (py_lower (msg_content m)) "yes" || String.eqb (py_lower (msg_content m)) "no").

(** [check_response] (lines 211-212): the author, in a DM channel. *)
Definition check_response (w : WizardState) (m : Message) : bool :=
  String.eqb (msg_author m) (wz_actor w) && is_dm (msg_channel m).

(** [response.content.lower() == "cancel"]. *)
Definition is_cancel (m : Message) : bool := String.eqb (py_lower (msg_content m)) "cancel".

(** Lines 201-223: the fresh [character_data], the intro and the name
    prompt, then the wait for the name. *)
Definition begin_creation (now : Z) (w : WizardState) : WizardState * list Out :=
  (goto PcName (now + 60) (empty_character now) alloc_init w, [dm w NIntro; dm w NNamePrompt]).

(** The [for] loop of lines 320-354 from the ability list [l]: on to the
    next prompt, or past the loop to the confirmation (lines 353-366). *)
Definition enter_points (now : Z) (st : Alloc) (data : Character) (l : list Ability) (w : WizardState)
    : WizardState * list Out :=
  match alloc_advance st data l with
  | (data', StopPrompt a rest) =>
      (goto (PcPoints a rest) (now + 60) data' st w, [dm w (NAbilityPrompt a (al_remaining st))])
  | (data', StopDone) =>
      (goto PcConfirm (now + 60) data' st w,
       (if 0 <? al_remaining st then [dm w (NUnassigned (al_remaining st))] else [])
       ++ [dm w (NConfirmCard data')])
  end.

(** Lines 158-221: the preconditions, then the replace question or the
    start of the dialogue. [None]: the handler returned before any wait.
    [loaded] is [self.parent_cog] being set. *)
Definition character_creation `{SessionStore St} (loaded : bool) (s : St) (now : Z)
    (author : string) (origin : Chan) : option WizardState * list Out :=
  if negb loaded then (None, [OutChannel origin NUnavailable]) else
  match get_game s (chan_id origin) with
  | None => (None, [OutChannel origin NNoGame])
  | Some g =>
      if negb (is_player author g) then (None, [OutChannel origin NNotPlayer]) else
      let w := mkWizard author origin g (empty_character now) alloc_init (now + 30) PcReplace in
      if has_character author g then (Some w, [OutChannel origin NReplacePrompt])
      else let '(w', o) := begin_creation now w in (Some w', o)
  end.

(** The message of each wait's [except asyncio.TimeoutError] branch (or
    of [if not view.selected_...] for the menus). *)
Definition timeout_notice (w : WizardState) : list Out :=
  match wz_pc w with
  | PcReplace => [pub w NTimedOut]
  | PcName => [dm w NNameTimeout]
  | PcClass => [dm w NClassTimeout]
  | PcRace => [dm w NRaceTimeout]
  | PcBackstory => [dm w NBackstoryTimeout]
  | PcAlignment => [dm w NAlignmentTimeout]
  | PcPoints _ _ => [dm w NTimedOut]
  | PcConfirm => [dm w NConfirmTimeout]
  | PcDone _ => []
  end.

(** Lines 374-394: the gateway of [Gateway.v] on the wizard's
    [character_data], then the handler returns. *)
Definition persist `{SessionStore St} (s : St) (now : Z) (w : WizardState) : St * WizardState * list Out :=
  let '(s', o) := save_and_announce s (wz_channel_id w) (wz_origin w) (wz_actor w) (wz_data w) now (wz_game w) in
  (s', finish Saved w, o).

(** A step that leaves the store as it is. *)
Definition keep_store {St} (s : St) (r : WizardState * list Out) : St * WizardState * list Out :=
  (s, fst r, snd r).

(** A text reply that the pending wait accepts, at time [t]. *)
Definition on_message `{SessionStore St} (s : St) (w : WizardState) (t : Z) (m : Message)
    : St * WizardState * list Out :=
  match wz_pc w with
  | PcReplace =>
      (* lines 192-199 *)
      if check_confirm w m then
        if String.eqb (py_lower (msg_content m)) "yes"
        then keep_store s (begin_creation t w)
        else (s, finish Cancelled w, [pub w NCancelled])
      else (s, w, [])
  | PcName =>
      (* lines 223-231 *)
      if check_response w m then
        if is_cancel m then (s, finish Cancelled w, [dm w NCancelled]) else
        let name := py_strip (msg_content m) in
        if negb (py_truthy name) then (s, finish Cancelled w, [dm w NNameRequired])
        else (s, goto PcClass (t + 60) (set_name name (wz_data w)) (wz_alloc w) w, [dm w NClassMenu])
      else (s, w, [])
  | PcBackstory =>
      (* lines 275-281 *)
      if check_response w m then
        if is_cancel m then (s, finish Cancelled w, [dm w NCancelled]) else
        let b := py_strip (msg_content m) in
        let data := if py_truthy b then set_backstory b (wz_data w) else wz_data w in
        (s, goto PcAlignment (t + 60) data (wz_alloc w) w, [dm w NAlignmentPrompt])
      else (s, w, [])
  | PcAlignment =>
      (* lines 295-320 *)
      if check_response w m then
        if is_cancel m then (s, finish Cancelled w, [dm w NCancelled]) else
        let al := py_strip (msg_content m) in
        let data := if py_truthy al then set_alignment al (wz_data w) else wz_data w in
        let r := enter_points t alloc_init data ability_scores w in
        (s, fst r, dm w NScoresIntro :: snd r)
      else (s, w, [])
  | PcPoints a rest =>
      (* lines 334-352 *)
      if check_response w m then
        let rem := al_remaining (wz_alloc w) in
        match alloc_reply (wz_alloc w) (wz_data w) a (msg_content m) with
        | ReplyCancel => (s, finish Cancelled w, [dm w NCancelled])
        | ReplyNotNumber =>
            (s, goto (PcPoints a rest) (t + 60) (wz_data w) (wz_alloc w) w,
             [dm w NNotANumber; dm w (NAbilityPrompt a rem)])
        | ReplyOutOfRange b =>
            (s, goto (PcPoints a rest) (t + 60) (wz_data w) (wz_alloc w) w,
             [dm w (NInvalidPoints b); dm w (NAbilityPrompt a rem)])
        | ReplyAccepted st' data' => keep_store s (enter_points t st' data' rest w)
        end
      else (s, w, [])
  | PcConfirm =>
      (* lines 366-377 *)
      if check_response w m then
        if String.eqb (py_lower (msg_content m)) "yes" then persist s t w
        else (s, finish Cancelled w, [dm w NCancelled])
      else (s, w, [])
  | _ => (s, w, [])
  end.

(** A dropdown selection: [ClassDropdown.callback] / [RaceDropdown.callback]
    edit the menu message, set the view's field and stop it (lines 23-29,
    46-52); the handler resumes at line 246 or 261. [Dropdown.v] makes
    the view explicit and proves that this step is what the handler and
    its view do together. *)
Definition on_select (w : WizardState) (t : Z) (v : string) : WizardState * list Out :=
  match wz_pc w with
  | PcClass =>
      match class_of_value v with
      | Some c => (goto PcRace (t + 60) (set_class c (wz_data w)) (wz_alloc w) w,
                   [dm w (NClassSelected v); dm w NRaceMenu])
      | None => (w, [])
      end
  | PcRace =>
      match race_of_value v with
      | Some r => (goto PcBackstory (t + 60) (set_race r (wz_data w)) (wz_alloc w) w,
                   [dm w (NRaceSelected v); dm w NBackstoryPrompt])
      | None => (w, [])
      end
  | _ => (w, [])
  end.

(** One event delivered to the handler. If the pending wait's deadline
    has passed, its timeout branch runs; otherwise the event is offered to
    the wait, which ignores it unless its check accepts it. *)
Definition wizard_step `{SessionStore St} (s : St) (w : WizardState) (ev : Event) : St * WizardState * list Out :=
  match wz_pc w with
  | PcDone _ => (s, w, [])
  | _ =>
      if wz_deadline w <=? ev_time ev then (s, finish TimedOut w, timeout_notice w)
      else
        match ev with
        | EvMessage t m => on_message s w t m
        | EvSelect t v => keep_store s (on_select w t v)
        | EvTick _ => (s, w, [])
        end
  end.

(** A sequence of events, with the notices sent. *)
Fixpoint wizard_run `{SessionStore St} (s : St) (w : WizardState) (evs : list Event) : St * WizardState * list Out :=
  match evs with
  | [] => (s, w, [])
  | ev :: evs' =>
      let '(s1, w1, o1) := wizard_step s w ev in
      let '(s2, w2, o2) := wizard_run s1 w1 evs' in
      (s2, w2, o1 ++ o2)
  end.

(** ** The invariant of the dialogue *)

Definition named (d : Character) : Prop := exists n, ch_name d = Some n /\ n <> EmptyString.
Definition classed (d : Character) : Prop := is_Some (ch_class d).
Definition raced (d : Character) : Prop := is_Some (ch_race d).
Definition unscored (d : Character) : Prop := forall a, ch_scores d a = None.

(** What the dialogue has gathered at each program point: the name
    (non-empty) from the class menu on, the class from the race menu on,
    the race from the backstory on; no score before step 6, and the
    allocator's invariant during and after it. *)
Definition wiz_inv (w : WizardState) : Prop :=
  let d := wz_data w in
  match wz_pc w with
  | PcReplace | PcDone _ => True
  | PcName => unscored d
  | PcClass => named d /\ unscored d
  | PcRace => named d /\ classed d /\ unscored d
  | PcBackstory | PcAlignment => named d /\ classed d /\ raced d /\ unscored d
  | PcPoints a rest => named d /\ classed d /\ raced d /\ alloc_inv (wz_alloc w) (a :: rest) d
  | PcConfirm => named d /\ classed d /\ raced d /\ alloc_inv (wz_alloc w) [] d
  end.

(** The identity of a character: the fields the scores loop never
    touches. *)
Definition ident (d : Character) := (ch_name d, ch_class d, ch_race d).

(** The record the wizard saves: a non-empty name, a class, a race,
    six scores in [10, 17] whose points above 10 sum to 18 minus the
    forfeited points [forfeited >= 0]. *)
Definition record_ok (c : Character) (forfeited : Z) : Prop :=
  named c /\ classed c /\ raced c /\ 0 <= forfeited /\
  (forall a, exists v, ch_scores c a = Some v /\ 10 <= v <= 17) /\
  sumZ (fun a => (ch_scores c a ?? 0) - 10) ability_scores = 18 - forfeited.

(** ** What the handler keeps and what it writes *)

Definition is_done (pc : Pc) : bool := match pc with PcDone _ => true | _ => false end.

Lemma wizard_step_done `{SessionStore St} s w ev o :
  wz_pc w = PcDone o -> wizard_step s w ev = (s, w, []).
Proof. intros Hpc. unfold wizard_step. by rewrite Hpc. Qed.

Lemma wizard_run_done `{SessionStore St} s w evs o :
  wz_pc w = PcDone o -> wizard_run s w evs = (s, w, []).
Proof.
  intros Hpc. induction evs as [|ev evs IH]; simpl; [done|].
  by rewrite (wizard_step_done s w ev o Hpc), IH.
Qed.

Lemma enter_points_frame t st d l w :
  let w' := fst (enter_points t st d l w) in
  wz_actor w' = wz_actor w /\ wz_origin w' = wz_origin w /\ wz_game w' = wz_game w /\
  is_done (wz_pc w') = false.
Proof. unfold enter_points. by destruct (alloc_advance st d l) as [? []]. Qed.

(** The store is written at one place only: the confirmation step, with
    the character of the wizard in the game read at command time. Every
    other step keeps the store, and ends in the saved state only if it
    was already there. *)
Lemma on_message_store `{SessionStore St} s w t m s' w' o :
  on_message s w t m = (s', w', o) ->
  (s' = s /\ (wz_pc w' = PcDone Saved -> w' = w)) \/
  (wz_pc w = PcConfirm /\ wz_pc w' = PcDone Saved /\
   s' = save_game s (wz_channel_id w) (put_character (wz_actor w) (wz_data w) t (wz_game w))).
Proof.
  unfold on_message. intros Hm.
  destruct (wz_pc w) eqn:Hpc; unfold keep_store, persist, save_and_announce in Hm; repeat case_match; simplify_eq;
    try (left; split; [done|]; intros Hs; simpl in Hs; congruence); try by right.
  left. split; [done|]. intros Hs.
  match goal with |- context [enter_points ?t ?st ?d ?l ?w] =>
    pose proof (enter_points_frame t st d l w) as (_ & _ & _ & Hd) end.
  by rewrite Hs in Hd.
Qed.

(** One step of the handler either leaves the session store as it
    is (and reaches the saved state only if it was already there), or is
    the confirmation step: the wizard was at the final yes/no question,
    it ends with the character saved, and the store receives exactly one
    [save_game] of the channel's game with the character put under the
    author's id. *)
Theorem wizard_step_store `{SessionStore St} s w ev s' w' o :
  wizard_step s w ev = (s', w', o) ->
  (s' = s /\ (wz_pc w' = PcDone Saved -> w' = w)) \/
  (wz_pc w = PcConfirm /\ wz_pc w' = PcDone Saved /\
   s' = save_game s (wz_channel_id w) (put_character (wz_actor w) (wz_data w) (ev_time ev) (wz_game w))).
Proof.
  intros Hs. destruct (is_done (wz_pc w)) eqn:Hd.
  { unfold wizard_step in Hs. destruct (wz_pc w); try discriminate. simplify_eq. by left. }
  unfold wizard_step in Hs.
  destruct (wz_deadline w <=? ev_time ev).
  { left. destruct (wz_pc w); simplify_eq; split; try done; by intros ?. }
  destruct ev as [t m|t v|t].
  - assert (on_message s w t m = (s', w', o)) as Hm by (by destruct (wz_pc w)).
    exact (on_message_store s w t m s' w' o Hm).
  - left. unfold keep_store, on_select in Hs.
    destruct (wz_pc w) eqn:Hpc; try discriminate; repeat case_match; simplify_eq;
      split; try done; intros ?; simpl in *; congruence.
  - left. destruct (wz_pc w); simplify_eq; split; done.
Qed.

(** C1: a run of the handler that does not end with the character saved
    (it was cancelled, timed out, or is still waiting) leaves the
    session store exactly as it was: a failed attempt writes nothing. *)
Theorem wizard_run_unsaved_store `{SessionStore St} s w evs s' w' o :
  wizard_run s w evs = (s', w', o) -> wz_pc w' <> PcDone Saved -> s' = s.
Proof.
  revert s w o. induction evs as [|ev evs IH]; intros s w o Hrun Hns; simpl in Hrun.
  { by simplify_eq. }
  destruct (wizard_step s w ev) as [[s1 w1] o1] eqn:Hst.
  destruct (wizard_run s1 w1 evs) as [[s2 w2] o2] eqn:Hr. simplify_eq.
  rewrite (IH _ _ _ Hr Hns).
  destruct (wizard_step_store _ _ _ _ _ _ Hst) as [[-> _]|(_ & Hsaved & _)]; [done|].
  rewrite (wizard_run_done _ _ _ _ Hsaved) in Hr. by simplify_eq.
Qed.

Lemma alloc_advance_ident st d l : ident (fst (alloc_advance st d l)) = ident d.
Proof.
  revert d. induction l as [|a l IH]; intros d; simpl; [done|].
  destruct (al_remaining st =? 0); [by rewrite IH|done].
Qed.

Lemma ident_parts d d' :
  ident d' = ident d -> named d /\ classed d /\ raced d -> named d' /\ classed d' /\ raced d'.
Proof.
  unfold ident, named, classed, raced. intros Heq. injection Heq as -> -> ->. done.
Qed.

Lemma enter_points_inv t st d l w :
  named d /\ classed d /\ raced d -> alloc_inv st l d ->
  wiz_inv (fst (enter_points t st d l w)).
Proof.
  intros Hid Hinv. pose proof (alloc_advance_inv st d l Hinv) as Hadv.
  pose proof (alloc_advance_ident st d l) as Hident.
  unfold enter_points, wiz_inv.
  destruct (alloc_advance st d l) as [d' [a rest|]]; simpl in *.
  - destruct Hadv as [Hadv _]. pose proof (ident_parts _ _ Hident Hid). tauto.
  - pose proof (ident_parts _ _ Hident Hid). tauto.
Qed.

Lemma py_truthy_nonempty s : py_truthy s = true -> s <> EmptyString.
Proof. by destruct s. Qed.

Lemma alloc_reply_ident st d a c st' d' :
  alloc_reply st d a c = ReplyAccepted st' d' -> ident d' = ident d.
Proof. unfold alloc_reply. repeat case_match; intros Heq; by simplify_eq. Qed.

Lemma on_message_inv `{SessionStore St} s w t m s' w' o :
  wiz_inv w -> on_message s w t m = (s', w', o) -> wiz_inv w'.
Proof.
  unfold on_message. intros Hinv Hm. assert (Hinv' := Hinv). unfold wiz_inv in Hinv'.
  destruct (wz_pc w) eqn:Hpc; unfold keep_store, persist, save_and_announce in Hm;
    repeat case_match; simplify_eq; try done.
  - (* the name reply: the name is set and non-empty *)
    unfold wiz_inv; simpl. split; [|done].
    eexists; split; [done|]. apply py_truthy_nonempty. by apply negb_false_iff.
  - (* the alignment reply, non-empty: into the scores loop *)
    destruct Hinv' as (Hn & Hc & Hr & Hu).
    apply enter_points_inv; [exact (conj Hn (conj Hc Hr))|]. apply alloc_inv_init. exact Hu.
  - (* the alignment reply, empty *)
    destruct Hinv' as (Hn & Hc & Hr & Hu).
    apply enter_points_inv; [done|]. by apply alloc_inv_init.
  - (* an accepted number of points *)
    destruct Hinv' as (Hn & Hc & Hr & Ha).
    apply enter_points_inv.
    + eapply ident_parts; [by eapply alloc_reply_ident|done].
    + by eapply alloc_reply_inv.
Qed.

Lemma on_select_inv w t v : wiz_inv w -> wiz_inv (fst (on_select w t v)).
Proof.
  intros Hinv. unfold on_select.
  destruct (wz_pc w) eqn:Hpc; try exact Hinv; case_match; try exact Hinv;
    unfold wiz_inv in *; rewrite Hpc in Hinv; simpl.
  - destruct Hinv as [Hn Hu]. split_and!; [done|by eexists|done].
  - destruct Hinv as (Hn & Hc & Hu). split_and!; [done|done|by eexists|done].
Qed.

(** Every step keeps the invariant. *)
Lemma wizard_step_inv `{SessionStore St} s w ev s' w' o :
  wiz_inv w -> wizard_step s w ev = (s', w', o) -> wiz_inv w'.
Proof.
  unfold wizard_step. intros Hinv Hs.
  destruct (wz_pc w) eqn:Hpc; [..|by simplify_eq].
  all: destruct (wz_deadline w <=? ev_time ev); [simplify_eq; by unfold wiz_inv|].
  all: destruct ev as [t m|t v|t];
    [eapply on_message_inv; eauto | unfold keep_store in Hs; simplify_eq; by apply on_select_inv
    | by simplify_eq].
Qed.

Lemma wizard_step_frame `{SessionStore St} s w ev s' w' o :
  wizard_step s w ev = (s', w', o) ->
  wz_actor w' = wz_actor w /\ wz_origin w' = wz_origin w /\ wz_game w' = wz_game w.
Proof.
  unfold wizard_step, on_message, on_select, keep_store, persist, save_and_announce, enter_points, begin_creation.
  intros Hs. repeat case_match; by simplify_eq.
Qed.

Lemma wiz_inv_confirm w :
  wz_pc w = PcConfirm -> wiz_inv w -> record_ok (wz_data w) (al_remaining (wz_alloc w)).
Proof.
  intros Hpc Hinv. unfold wiz_inv in Hinv. rewrite Hpc in Hinv.
  destruct Hinv as (Hn & Hc & Hr & Ha). apply alloc_inv_done in Ha as (H1 & H2 & H3).
  by split_and!.
Qed.

Section Runs.
Context `{SessionStoreLaws St}.

(** C2: when a run of the handler, from any state satisfying the
    invariant, ends with the character saved, the channel's game in
    the store holds, under the author's id, a record with a non-empty
    name, a class and a race, whose six scores lie in [10, 17] and
    whose points above 10 sum to 18 minus the forfeited points. *)
Theorem wizard_run_saved_record s w evs s' w' o :
  wiz_inv w -> wz_pc w <> PcDone Saved ->
  wizard_run s w evs = (s', w', o) -> wz_pc w' = PcDone Saved ->
  exists g c forfeited,
    get_game s' (wz_channel_id w) = Some g /\
    g_characters g !! wz_actor w = Some c /\ record_ok c forfeited.
Proof.
  revert s w o. induction evs as [|ev evs IH]; intros s w o Hinv Hns Hrun Hsaved;
    simpl in Hrun; [by simplify_eq|].
  destruct (wizard_step s w ev) as [[s1 w1] o1] eqn:Hst.
  destruct (wizard_run s1 w1 evs) as [[s2 w2] o2] eqn:Hr. simplify_eq.
  destruct (wizard_step_frame _ _ _ _ _ _ Hst) as (Hact & Horig & _).
  destruct (decide (wz_pc w1 = PcDone Saved)) as [Hs1|Hs1].
  - (* this step saved: it is the confirmation step *)
    rewrite (wizard_run_done _ _ _ _ Hs1) in Hr. simplify_eq.
    destruct (wizard_step_store _ _ _ _ _ _ Hst) as [[_ Hsame]|(Hpc & _ & ->)].
    { exfalso. apply Hns. by rewrite <- (Hsame Hs1). }
    eexists _, (wz_data w), (al_remaining (wz_alloc w)). split_and!.
    + by rewrite get_save_eq.
    + apply lookup_insert_eq.
    + by apply wiz_inv_confirm.
  - unfold wz_channel_id. rewrite <- Horig, <- Hact.
    eapply IH; [by eapply wizard_step_inv|done|exact Hr|done].
Qed.
End Runs.

(** A message before the deadline of a pending wait reaches the handler
    of that wait. *)
Lemma wizard_step_in_time `{SessionStore St} s w t m :
  is_done (wz_pc w) = false -> t < wz_deadline w -> wizard_step s w (EvMessage t m) = on_message s w t m.
Proof.
  intros Hd Ht. unfold wizard_step. cbn [ev_time]. rewrite (proj2 (Z.leb_gt _ _) Ht).
  by destruct (wz_pc w).
Qed.

Lemma check_response_dm w m :
  msg_author m = wz_actor w -> is_dm (msg_channel m) = true -> check_response w m = true.
Proof. intros Ha Hdm. unfold check_response. by rewrite Ha, String.eqb_refl, Hdm. Qed.

(** A DM reply from the author, in time, to the wait at [pc]. *)
Ltac reply_step Hpc :=
  rewrite wizard_step_in_time by (rewrite ?Hpc; done); unfold on_message; rewrite Hpc;
  rewrite check_response_dm by done.

(** C22: at an ability prompt, a DM reply from the author that is not
    ["cancel"] and is not an integer in [0, min(7, remaining)] does not
    advance the wizard: the same ability is asked again with the same
    scores and pool, the wait restarts with a fresh 60 s deadline, and
    the reply is answered with an error message and a new prompt. *)
Theorem wizard_points_retry `{SessionStore St} s w a rest t m :
  wz_pc w = PcPoints a rest -> t < wz_deadline w ->
  msg_author m = wz_actor w -> is_dm (msg_channel m) = true -> is_cancel m = false ->
  (forall p, py_int (py_strip (msg_content m)) = Some p -> ~ (0 <= p <= Z.min 7 (al_remaining (wz_alloc w)))) ->
  exists err,
    wizard_step s w (EvMessage t m) =
      (s, goto (PcPoints a rest) (t + 60) (wz_data w) (wz_alloc w) w,
       [dm w err; dm w (NAbilityPrompt a (al_remaining (wz_alloc w)))]) /\
    (err = NNotANumber \/ err = NInvalidPoints (Z.min 7 (al_remaining (wz_alloc w)))).
Proof.
  intros Hpc Ht Ha Hdm Hc Hbad. reply_step Hpc.
  unfold alloc_reply. unfold is_cancel in Hc. rewrite Hc.
  destruct (py_int (py_strip (msg_content m))) as [p|] eqn:Hp.
  - destruct ((0 <=? p) && (p <=? Z.min 7 (al_remaining (wz_alloc w)))) eqn:Hr.
    + exfalso. apply (Hbad p eq_refl). apply andb_true_iff in Hr as [H1 H2].
      split; [by apply Z.leb_le|by apply Z.leb_le].
    + eexists. split; [reflexivity|by right].
  - eexists. split; [reflexivity|by left].
Qed.

(** The name step is strict: a DM reply from the author that is
    blank after [strip()] (and is not ["cancel"]) ends the whole wizard
    with "Name is required", before any write. *)
Theorem wizard_name_blank `{SessionStore St} s w t m :
  wz_pc w = PcName -> t < wz_deadline w ->
  msg_author m = wz_actor w -> is_dm (msg_channel m) = true -> is_cancel m = false ->
  py_strip (msg_content m) = EmptyString ->
  wizard_step s w (EvMessage t m) = (s, finish Cancelled w, [dm w NNameRequired]).
Proof.
  intros Hpc Ht Ha Hdm Hc Hblank. reply_step Hpc. by rewrite Hc, Hblank.
Qed.

(** C27: the cancel test of the name step ([response.content.lower() ==
    "cancel"], line 224) runs before [strip()]. A DM reply from the
    author that is "cancel" only after stripping, such as [" cancel"]
    or ["Cancel\n"], does not cancel: it becomes the character's name
    ["cancel"], and the wizard goes on to the class menu. *)
Theorem name_cancel_unstripped `{SessionStore St} s w t m :
  wz_pc w = PcName -> t < wz_deadline w ->
  msg_author m = wz_actor w -> is_dm (msg_channel m) = true -> is_cancel m = false ->
  py_strip (msg_content m) = "cancel"%string ->
  wizard_step s w (EvMessage t m) =
    (s, goto PcClass (t + 60) (set_name "cancel" (wz_data w)) (wz_alloc w) w, [dm w NClassMenu]).
Proof.
  intros Hpc Ht Ha Hdm Hc Hs. reply_step Hpc. by rewrite Hc, Hs.
Qed.

(** C25: a reply that spends the whole pool at an ability prompt ends the
    point allocation: every ability after it is written ["10"] without
    a prompt, and the wizard goes straight to the final question. The
    next DM reply is read as the answer to that question, so a further
    number (anything but "yes") cancels the creation: nothing is saved,
    and no other ability is ever prompted for. *)
Theorem points_exhausted_then_reply_cancels `{SessionStore St} s w a rest t c1 c2 :
  wz_pc w = PcPoints a rest -> t < wz_deadline w ->
  py_lower c1 <> "cancel"%string -> py_int (py_strip c1) = Some (al_remaining (wz_alloc w)) ->
  0 <= al_remaining (wz_alloc w) <= 7 -> py_lower c2 <> "yes"%string ->
  let u := wz_actor w in
  let '(s', w', o) := wizard_run s w [EvMessage t (mkMessage u (ChDM u) c1);
                                      EvMessage (t + 1) (mkMessage u (ChDM u) c2)] in
  s' = s /\ wz_pc w' = PcDone Cancelled /\
  (forall b, b ∈ rest -> ch_scores (wz_data w') b = Some 10) /\
  Forall (fun x => match notice_of x with NAbilityPrompt _ _ => False | _ => True end) o.
Proof.
  intros Hpc Ht Hc1 Hp Hr Hc2 u. cbn [wizard_run].
  reply_step Hpc. unfold alloc_reply. cbn [msg_content].
  rewrite (proj2 (String.eqb_neq _ _) Hc1), Hp.
  replace ((0 <=? al_remaining (wz_alloc w)) && (al_remaining (wz_alloc w) <=? Z.min 7 (al_remaining (wz_alloc w))))
    with true by (symmetry; apply andb_true_iff; split; apply Z.leb_le; lia).
  unfold keep_store, enter_points. rewrite alloc_advance_empty by (cbn; lia). cbn [fst snd al_remaining].
  replace (0 <? al_remaining (wz_alloc w) - al_remaining (wz_alloc w)) with false by (symmetry; apply Z.ltb_ge; lia).
  rewrite wizard_step_in_time by (cbn; lia || done). unfold on_message. cbn [goto wz_pc].
  rewrite check_response_dm by done. cbn [msg_content]. rewrite (proj2 (String.eqb_neq _ _) Hc2).
  split_and!; [done|done| |repeat constructor].
  intros b Hb. by apply fold_set_ten.
Qed.
