(* ===== verification/Dropdown.v ===== *)
(** * The dropdown menus of the wizard: [SelectionView] and its selects

    [src/cogs/character_creation.py], lines 9-61: [RaceDropdown] and
    [ClassDropdown] (a [ui.Select] each, one value out of the fixed
    option list) and [SelectionView] (a [ui.View] with a 60 s timeout).
    The wizard sends a menu with a fresh view, awaits [view.wait()], and
    reads the selected field: [None] means the view timed out (lines
    242-249 and 257-264).

    The view is a state machine of its own. discord.py hands it the
    interactions with its select (an event [EvSelect] whose value is one
    of the select's options; a value of another menu belongs to another
    component and is not dispatched to it), restarts its timer at each
    interaction, and stops it at its expiry, calling [on_timeout].
    [view.wait()] returns once the view is stopped.

    [menu_step] runs the wizard of [Wizard.v] with that view made
    explicit at its two menu waits. The theorem of this file is that it
    refines the wizard's own step: the [EvSelect] abstraction of
    [Wizard.on_select], with the 60 s deadline of the wait, gives the
    same runs, the same store and the same messages. *)

From Stdlib Require Import String ZArith Lia.
From stdpp Require Import base list strings.
From S2P Require Import Prelude Data Store Events Gateway Allocator Wizard.

Open Scope Z_scope.

Inductive DropdownKind := RaceSelect | ClassSelect.

(** The values of the options: [SelectOption(label=race, value=race)]
    over the list of lines 11-14 (line 15), and the same for the classes
    (lines 34-39). *)
Definition dropdown_options (k : DropdownKind) : list string :=
  match k with
  | RaceSelect => map race_name races
  | ClassSelect => map class_name classes
  end.

(** Lines 54-58, and the view's timer: [sv_expiry] is the time at which
    it times out. *)
Record SelectionView := mkView {
  sv_selected_race : option string;
  sv_selected_class : option string;
  sv_stopped : bool;
  sv_timeout : Z;
  sv_expiry : Z
}.

(** [SelectionView()] sent with its menu at time [now]. *)
Definition selection_view (now : Z) : SelectionView := mkView None None false 60 (now + 60).

(** [View.stop()]. *)
Definition view_stop (v : SelectionView) : SelectionView :=
  {| sv_selected_race := sv_selected_race v; sv_selected_class := sv_selected_class v;
     sv_stopped := true; sv_timeout := sv_timeout v; sv_expiry := sv_expiry v |}.

(** Lines 60-61: [on_timeout] stops the view. *)
Definition on_timeout (v : SelectionView) : SelectionView := view_stop v.

(** discord.py restarts the timer of a view at each interaction. *)
Definition refresh_timeout (t : Z) (v : SelectionView) : SelectionView :=
  {| sv_selected_race := sv_selected_race v; sv_selected_class := sv_selected_class v;
     sv_stopped := sv_stopped v; sv_timeout := sv_timeout v; sv_expiry := t + sv_timeout v |}.

(** Lines 23-29 ([RaceDropdown.callback]) and 46-52
    ([ClassDropdown.callback]): edit the menu message in the DMs of
    [user], store the value, stop the view. *)
Definition dropdown_callback (k : DropdownKind) (user value : string) (v : SelectionView)
    : SelectionView * list Out :=
  match k with
  | RaceSelect =>
      (view_stop {| sv_selected_race := Some value; sv_selected_class := sv_selected_class v;
                    sv_stopped := sv_stopped v; sv_timeout := sv_timeout v; sv_expiry := sv_expiry v |},
       [OutDM user (NRaceSelected value)])
  | ClassSelect =>
      (view_stop {| sv_selected_race := sv_selected_race v; sv_selected_class := Some value;
                    sv_stopped := sv_stopped v; sv_timeout := sv_timeout v; sv_expiry := sv_expiry v |},
       [OutDM user (NClassSelected value)])
  end.

(** One event as the view sees it: nothing once stopped; its timeout
    when the event comes at or after the expiry; an interaction with its
    select otherwise. *)
Definition view_step (k : DropdownKind) (user : string) (v : SelectionView) (ev : Event)
    : SelectionView * list Out :=
  if sv_stopped v then (v, [])
  else if sv_expiry v <=? ev_time ev then (on_timeout v, [])
  else
    match ev with
    | EvSelect t value =>
        if existsb (String.eqb value) (dropdown_options k)
        then dropdown_callback k user value (refresh_timeout t v)
        else (v, [])
    | _ => (v, [])
    end.

Definition view_selected (k : DropdownKind) (v : SelectionView) : option string :=
  match k with RaceSelect => sv_selected_race v | ClassSelect => sv_selected_class v end.

(** The menu the wizard waits on at a program point. *)
Definition menu_kind (pc : Pc) : option DropdownKind :=
  match pc with PcClass => Some ClassSelect | PcRace => Some RaceSelect | _ => None end.

(** Lines 245-249 and 260-264, after [view.wait()] returned at time
    [t]: the timeout message when nothing was selected, otherwise the
    field is set and the next step's prompt is sent. The value is one of
    the options, so [class_of_value]/[race_of_value] find it. *)
Definition menu_resume (k : DropdownKind) (w : WizardState) (v : SelectionView) (t : Z)
    : WizardState * list Out :=
  match k, view_selected k v with
  | ClassSelect, None => (finish TimedOut w, [dm w NClassTimeout])
  | RaceSelect, None => (finish TimedOut w, [dm w NRaceTimeout])
  | ClassSelect, Some value =>
      match class_of_value value with
      | Some c => (goto PcRace (t + 60) (set_class c (wz_data w)) (wz_alloc w) w, [dm w NRaceMenu])
      | None => (w, [])
      end
  | RaceSelect, Some value =>
      match race_of_value value with
      | Some r => (goto PcBackstory (t + 60) (set_race r (wz_data w)) (wz_alloc w) w, [dm w NBackstoryPrompt])
      | None => (w, [])
      end
  end.

(** The wizard with its current view. *)
Record MenuState := mkMenu { ms_wizard : WizardState; ms_view : SelectionView }.

(** One event delivered to the handler and its view. At a menu wait the
    view takes the event; when it stops, the handler resumes, and a new
    menu gets a new view. Elsewhere the wizard's step runs. *)
Definition menu_step `{SessionStore St} (s : St) (ms : MenuState) (ev : Event) : St * MenuState * list Out :=
  let w := ms_wizard ms in
  match menu_kind (wz_pc w) with
  | Some k =>
      let '(v', o1) := view_step k (wz_actor w) (ms_view ms) ev in
      if sv_stopped v' then
        let '(w', o2) := menu_resume k w v' (ev_time ev) in
        (s, mkMenu w' (selection_view (ev_time ev)), o1 ++ o2)
      else (s, mkMenu w v', o1)
  | None =>
      let '(s', w', o) := wizard_step s w ev in
      (s', mkMenu w' (selection_view (ev_time ev)), o)
  end.

Fixpoint menu_run `{SessionStore St} (s : St) (ms : MenuState) (evs : list Event) : St * MenuState * list Out :=
  match evs with
  | [] => (s, ms, [])
  | ev :: evs' =>
      let '(s1, ms1, o1) := menu_step s ms ev in
      let '(s2, ms2, o2) := menu_run s1 ms1 evs' in
      (s2, ms2, o1 ++ o2)
  end.

(** A view as [selection_view] makes it, with the expiry [d]. *)
Definition view_fresh (v : SelectionView) (d : Z) : Prop :=
  sv_selected_race v = None /\ sv_selected_class v = None /\ sv_stopped v = false /\
  sv_timeout v = 60 /\ sv_expiry v = d.

(** At a menu wait, the view is the fresh one sent with the menu, and it
    expires at the wait's deadline. *)
Definition menu_ok (ms : MenuState) : Prop :=
  forall k, menu_kind (wz_pc (ms_wizard ms)) = Some k -> view_fresh (ms_view ms) (wz_deadline (ms_wizard ms)).

(** ** The options and the values the handler reads *)

Lemma existsb_map_find {A} (f : A -> string) v l :
  existsb (String.eqb v) (map f l) =
  match List.find (fun x => String.eqb (f x) v) l with Some _ => true | None => false end.
Proof.
  induction l as [|x l IH]; simpl; [done|]. rewrite String.eqb_sym. by destruct (String.eqb (f x) v).
Qed.

(** A value the class select offers is a class, and the handler's
    lookup finds it; another value is no class. *)
Lemma class_option_value v :
  existsb (String.eqb v) (dropdown_options ClassSelect) =
  match class_of_value v with Some _ => true | None => false end.
Proof. apply existsb_map_find. Qed.

Lemma race_option_value v :
  existsb (String.eqb v) (dropdown_options RaceSelect) =
  match race_of_value v with Some _ => true | None => false end.
Proof. apply existsb_map_find. Qed.

(** ** The view *)

(** A stopped view ignores everything: each select fires at most once,
    and nothing after the timeout reaches it. *)
Lemma view_step_stopped k user v ev : sv_stopped v = true -> view_step k user v ev = (v, []).
Proof. intros Hs. unfold view_step. by rewrite Hs. Qed.

(** The wizard's step enters a menu wait only from the name prompt, with
    the 60 s deadline of the view it sends. *)
Lemma wizard_step_enter_menu `{SessionStore St} s w ev s' w' o k :
  menu_kind (wz_pc w) = None -> wizard_step s w ev = (s', w', o) ->
  menu_kind (wz_pc w') = Some k -> wz_deadline w' = ev_time ev + 60.
Proof.
  unfold wizard_step. intros Hm Hs Hk.
  destruct (wz_pc w) eqn:Hpc; try discriminate; [..|simplify_eq; by rewrite Hpc in Hk].
  all: destruct (wz_deadline w <=? ev_time ev); [simplify_eq; discriminate|].
  all: destruct ev as [t m|t v|t]; cbn [ev_time];
    unfold on_message, on_select, keep_store, persist, save_and_announce, begin_creation, enter_points in Hs;
    rewrite ?Hpc in Hs; repeat case_match; simplify_eq; cbn in *; rewrite ?Hpc in Hk; cbn in Hk; congruence.
Qed.

(** ** The view refines the [EvSelect] abstraction *)

Lemma menu_ok_fresh w t : wz_deadline w = t + 60 -> menu_ok (mkMenu w (selection_view t)).
Proof. intros Hd k _. unfold view_fresh. cbn. by rewrite Hd. Qed.

Lemma menu_ok_no_menu w v : menu_kind (wz_pc w) = None -> menu_ok (mkMenu w v).
Proof. intros Hm k Hk. cbn in Hk. congruence. Qed.

(** At a menu wait, the view and the handler's resumption do one step of
    the wizard. *)
Lemma menu_step_at_menu `{SessionStore St} s w v ev k :
  menu_kind (wz_pc w) = Some k -> view_fresh v (wz_deadline w) ->
  let '(s', ms', o) := menu_step s (mkMenu w v) ev in
  wizard_step s w ev = (s', ms_wizard ms', o) /\ menu_ok ms'.
Proof.
  intros Hk (Hr & Hc & Hst & Hto & Hex).
  unfold menu_step. cbn [ms_wizard ms_view]. rewrite Hk.
  destruct (wz_pc w) eqn:Hpc; try discriminate; injection Hk as <-;
    unfold view_step, wizard_step; rewrite Hst, Hex, Hpc;
    destruct (wz_deadline w <=? ev_time ev) eqn:Hd.
  all: cbn [on_timeout view_stop sv_stopped].
  2,4: destruct ev as [t m|t value|t].
  all: try (unfold menu_resume, view_selected, timeout_notice, on_timeout; cbn [view_stop sv_selected_class sv_selected_race];
            rewrite ?Hc, ?Hr, Hpc; split; [done|by apply menu_ok_no_menu]).
  all: try (cbn [ev_time]; rewrite Hst; unfold on_message; rewrite ?Hpc;
            split; [done|intros ? _; by split_and!]).
  all: unfold keep_store, on_select; rewrite ?Hpc; cbn [ev_time];
    rewrite ?class_option_value, ?race_option_value.
  1: destruct (class_of_value value) as [c|] eqn:Hv.
  3: destruct (race_of_value value) as [r|] eqn:Hv.
  all: cbn -[class_of_value race_of_value]; rewrite ?Hst, ?Hv; cbn -[class_of_value race_of_value].
  all: try (split; [done|intros ? _; by split_and!]).
  all: split; [done|by apply menu_ok_fresh].
Qed.

(** Every step of the handler with its view is a step of the wizard,
    and keeps the views fresh. *)
Lemma menu_step_refines `{SessionStore St} s ms ev :
  menu_ok ms ->
  let '(s', ms', o) := menu_step s ms ev in
  wizard_step s (ms_wizard ms) ev = (s', ms_wizard ms', o) /\ menu_ok ms'.
Proof.
  destruct ms as [w v]. intros Hok. cbn [ms_wizard] in *.
  destruct (menu_kind (wz_pc w)) as [k|] eqn:Hk.
  - exact (menu_step_at_menu s w v ev k Hk (Hok k Hk)).
  - unfold menu_step. cbn [ms_wizard ms_view]. rewrite Hk.
    destruct (wizard_step s w ev) as [[s' w'] o] eqn:Hs. split; [done|].
    destruct (menu_kind (wz_pc w')) as [k'|] eqn:Hk'; [|by apply menu_ok_no_menu].
    apply menu_ok_fresh. exact (wizard_step_enter_menu s w ev s' w' o k' Hk Hs Hk').
Qed.

(** C11: the wizard with its dropdown views made explicit has exactly the
    runs of the wizard of [Wizard.v]. For every sequence of events, from
    a state whose view (at a menu wait) is the fresh one sent with the
    menu, [menu_run] writes the same store, reaches the same wizard state
    and sends the same messages as [wizard_run]: the menu waits of the
    handler, modelled as an [EvSelect] with the wait's 60 s deadline, are
    what [SelectionView] and its select do. *)
Theorem menu_run_refines `{SessionStore St} s ms evs :
  menu_ok ms ->
  let '(s', ms', o) := menu_run s ms evs in
  wizard_run s (ms_wizard ms) evs = (s', ms_wizard ms', o).
Proof.
  revert s ms. induction evs as [|ev evs IH]; intros s ms Hok; [done|]. cbn [menu_run wizard_run].
  pose proof (menu_step_refines s ms ev Hok) as Hstep.
  destruct (menu_step s ms ev) as [[s1 ms1] o1]. destruct Hstep as [-> Hok1].
  specialize (IH s1 ms1 Hok1). destruct (menu_run s1 ms1 evs) as [[s2 ms2] o2]. by rewrite IH.
Qed.
