(* ===== verification/RandomFlow.v ===== *)
(** * The [!random] command: generate, resolve the name, confirm, reroll

    [src/cogs/character_creation.py], [random_character] (lines 520-568)
    and [display_and_confirm] (lines 675-733). After the same
    preconditions and replace question as the wizard, the handler loops:
    it generates a character ([Generator.v]), renames it if another
    player's character already has its name ([resolve_name], the
    duplicate-name resolver), shows it in the author's DMs, and waits
    60 s for yes or no. "yes" saves through the gateway ([Gateway.v]);
    "no" generates a new one; a timeout ends the loop ([return True])
    without saving.

    The state [RandomState] holds the handler's locals: the [game] dict
    read at line 531 (the resolver and the save both use this copy, on
    every iteration), the current [character_data], the random tape,
    and the deadline of the pending wait. *)

From Stdlib Require Import String ZArith Lia Permutation.
From stdpp Require Import base list sets gmap strings.
From S2P Require Import Prelude PyStr Data Store Events Rand Generator Gateway.

Open Scope Z_scope.

(** ** The duplicate-name resolver (lines 677-691) *)

(** The characters of the game's other players: [for player_id,
    char_data in game.get("characters", {}).items() if player_id !=
    user_id]. *)
Definition other_characters (g : Game) (uid : string) : list Character :=
  map snd (List.filter (fun pc => negb (String.eqb pc.1 uid)) (map_to_list (g_characters g))).

(** [character_data["name"]] of a generated character. *)
Definition name_of (c : Character) : string := ch_name c ?? EmptyString.

(** Lines 678-682: [name_in_use]. *)
Definition name_in_use (g : Game) (uid : string) (name : string) : bool :=
  existsb (fun c => String.eqb (py_lower (name_or_empty c)) (py_lower name)) (other_characters g uid).

(** Lines 686-687: [used_names], lowered. *)
Definition used_names (g : Game) (uid : string) : list string :=
  map (fun c => py_lower (name_or_empty c)) (other_characters g uid).

(** Line 688: [available_names], in the order of [self.names]. *)
Definition available_names (g : Game) (uid : string) : list string :=
  List.filter (fun n => negb (existsb (String.eqb (py_lower n)) (used_names g uid))) names.

(** Lines 684-691: a new name drawn from the free ones when the name is
    taken, and the name kept when none is free. *)
Definition resolve_name (g : Game) (uid : string) (c : Character) : rand Character :=
  if name_in_use g uid (name_of c) then
    match available_names g uid with
    | [] => rret c
    | avail => n <-$ choice EmptyString avail ;; rret (set_name n c)
    end
  else rret c.

(** ** The handler *)

Inductive ROutcome := RSaved | RCancelled | RTimedOut.

Inductive RPc :=
| RReplace              (* line 556: yes/no in the channel, 30 s *)
| RConfirm              (* line 709: yes/no in the DMs, 60 s *)
| RDone (o : ROutcome).

Record RandomState := mkRandom {
  rs_actor : string;
  rs_origin : Chan;
  rs_game : Game;
  rs_tape : Tape;
  rs_candidate : Character;
  rs_deadline : Z;
  rs_pc : RPc
}.

Definition rs_channel_id (st : RandomState) : string := chan_id (rs_origin st).

Definition rfinish (o : ROutcome) (st : RandomState) : RandomState :=
  mkRandom (rs_actor st) (rs_origin st) (rs_game st) (rs_tape st) (rs_candidate st) (rs_deadline st) (RDone o).

(** One turn of the [while True] loop up to its wait (lines 566-567 and
    677-709): generate, resolve the name, show the card, wait 60 s. *)
Definition propose (now : Z) (st : RandomState) : RandomState * list Out :=
  let '(c, t1) := generate_random_character now (rs_tape st) in
  let '(c', t2) := resolve_name (rs_game st) (rs_actor st) c t1 in
  (mkRandom (rs_actor st) (rs_origin st) (rs_game st) t2 c' (now + 60) RConfirm,
   [OutDM (rs_actor st) (NRandomCard c')]).

(** Lines 520-567: preconditions, the replace question, the first
    proposal. *)
Definition random_character `{SessionStore St} (loaded : bool) (s : St) (now : Z)
    (author : string) (origin : Chan) (tape : Tape) : option RandomState * list Out :=
  if negb loaded then (None, [OutChannel origin NUnavailable]) else
  match get_game s (chan_id origin) with
  | None => (None, [OutChannel origin NNoGame])
  | Some g =>
      if negb (is_player author g) then (None, [OutChannel origin NNotPlayer]) else
      let st := mkRandom author origin g tape (empty_character now) (now + 30) RReplace in
      if has_character author g then (Some st, [OutChannel origin NReplacePrompt])
      else let '(st', o) := propose now st in (Some st', o)
  end.

(** [check_confirm] of line 553 (the channel) and of line 705 (the
    author's DMs): the author, there, answering yes or no in any case. *)
Definition is_yes_no (m : Message) : bool :=
  String.eqb (py_lower (msg_content m)) "yes" || String.eqb (py_lower (msg_content m)) "no".

Definition check_in (st : RandomState) (ch : Chan) (m : Message) : bool :=
  String.eqb (msg_author m) (rs_actor st) && bool_decide (msg_channel m = ch) && is_yes_no m.

Definition random_timeout_notice (st : RandomState) : list Out :=
  match rs_pc st with
  | RReplace => [OutChannel (rs_origin st) NTimedOut]
  | RConfirm => [OutDM (rs_actor st) NConfirmTimeout]
  | RDone _ => []
  end.

(** One event delivered to the handler. *)
Definition random_step `{SessionStore St} (s : St) (st : RandomState) (ev : Event)
    : St * RandomState * list Out :=
  match rs_pc st with
  | RDone _ => (s, st, [])
  | pc =>
      if rs_deadline st <=? ev_time ev then (s, rfinish RTimedOut st, random_timeout_notice st)
      else
        match pc, ev with
        | RReplace, EvMessage t m =>
            (* lines 555-562 *)
            if check_in st (rs_origin st) m then
              if String.eqb (py_lower (msg_content m)) "yes"
              then let '(st', o) := propose t st in (s, st', o)
              else (s, rfinish RCancelled st, [OutChannel (rs_origin st) NCancelled])
            else (s, st, [])
        | RConfirm, EvMessage t m =>
            (* lines 708-730 *)
            if check_in st (ChDM (rs_actor st)) m then
              if String.eqb (py_lower (msg_content m)) "yes" then
                let '(s', o) := save_and_announce s (rs_channel_id st) (rs_origin st)
                                  (rs_actor st) (rs_candidate st) t (rs_game st) in
                (s', rfinish RSaved st, o)
              else
                let '(st', o) := propose t st in
                (s, st', OutDM (rs_actor st) NRerolling :: o)
            else (s, st, [])
        | _, _ => (s, st, [])
        end
  end.

Fixpoint random_run `{SessionStore St} (s : St) (st : RandomState) (evs : list Event)
    : St * RandomState * list Out :=
  match evs with
  | [] => (s, st, [])
  | ev :: evs' =>
      let '(s1, st1, o1) := random_step s st ev in
      let '(s2, st2, o2) := random_run s1 st1 evs' in
      (s2, st2, o1 ++ o2)
  end.

(** ** Invariant *)

(** While a card is shown, the candidate has the shape of a generated
    character ([Generator.gen_shape]). *)
Definition rs_inv (st : RandomState) : Prop :=
  match rs_pc st with RConfirm => gen_shape (rs_candidate st) | _ => True end.

(** ** The resolver *)

Lemma name_in_use_used g uid n :
  existsb (String.eqb (py_lower n)) (used_names g uid) = name_in_use g uid n.
Proof.
  unfold used_names, name_in_use. induction (other_characters g uid) as [|c l IH]; [done|].
  simpl. by rewrite IH, String.eqb_sym.
Qed.

(** A name drawn from [available_names] is one of [self.names] that no
    other player's character uses. *)
Lemma available_names_spec g uid n :
  In n (available_names g uid) -> In n names /\ name_in_use g uid n = false.
Proof.
  unfold available_names. intros Hin. apply filter_In in Hin as [Hn Hf]. split; [exact Hn|].
  rewrite <- name_in_use_used. by apply negb_true_iff.
Qed.

(** C6: the duplicate-name resolver (lines 677-691) either keeps the
    character, because its name is not used (case-insensitively) by
    another player's character or because every name of [self.names] is
    taken; or renames it, when the name is taken, to a member of
    [self.names] that no other player's character uses, ignoring case.
    Nothing but the name changes. *)
Theorem resolve_name_spec g uid c t :
  let c' := fst (resolve_name g uid c t) in
  (c' = c /\ (name_in_use g uid (name_of c) = false \/ available_names g uid = [])) \/
  (exists n, c' = set_name n c /\ name_in_use g uid (name_of c) = true /\
             In n names /\ name_in_use g uid n = false).
Proof.
  unfold resolve_name. destruct (name_in_use g uid (name_of c)) eqn:Hu.
  2:{ left. split; [done|by left]. }
  destruct (available_names g uid) as [|n0 ns] eqn:Ha.
  { left. split; [done|by right]. }
  right. assert (Hin : In (fst (choice EmptyString (n0 :: ns) t)) (available_names g uid)).
  { rewrite Ha. by apply choice_In. }
  apply available_names_spec in Hin as [Hn Hf].
  unfold rbind, rret. destruct (choice EmptyString (n0 :: ns) t) as [n t'].
  exists n. split; [reflexivity|]. split; [reflexivity|]. split; [exact Hn|exact Hf].
Qed.

Lemma resolve_name_shape g uid c t :
  gen_shape c -> gen_shape (fst (resolve_name g uid c t)).
Proof.
  intros Hc. unfold resolve_name. destruct (name_in_use _ _ _); [|exact Hc].
  destruct (available_names g uid); [exact Hc|].
  unfold rbind, rret. destruct (choice _ _ t). exact Hc.
Qed.

(** ** The handler *)

Lemma propose_frame t st :
  let st' := fst (propose t st) in
  rs_actor st' = rs_actor st /\ rs_origin st' = rs_origin st /\ rs_game st' = rs_game st /\
  rs_pc st' = RConfirm /\ rs_deadline st' = t + 60.
Proof.
  unfold propose. destruct (generate_random_character t (rs_tape st)).
  destruct (resolve_name _ _ _ _). done.
Qed.

Lemma propose_inv t st : rs_inv (fst (propose t st)).
Proof.
  unfold propose, rs_inv.
  pose proof (generate_gen_shape t (rs_tape st)) as Hg.
  destruct (generate_random_character t (rs_tape st)) as [c t1]. simpl in Hg.
  pose proof (resolve_name_shape (rs_game st) (rs_actor st) c t1 Hg) as Hr.
  destruct (resolve_name _ _ _ _). done.
Qed.

Lemma random_step_done `{SessionStore St} s st ev o :
  rs_pc st = RDone o -> random_step s st ev = (s, st, []).
Proof. intros Hpc. unfold random_step. by rewrite Hpc. Qed.

Lemma random_run_done `{SessionStore St} s st evs o :
  rs_pc st = RDone o -> random_run s st evs = (s, st, []).
Proof.
  intros Hpc. induction evs as [|ev evs IH]; simpl; [done|].
  by rewrite (random_step_done s st ev o Hpc), IH.
Qed.

(** Every step either ignores the event, ends the command without saving,
    shows a new card, or saves the candidate through the gateway. *)
Lemma random_step_cases `{SessionStore St} s st ev s' st' o :
  random_step s st ev = (s', st', o) ->
  (s' = s /\ st' = st) \/
  (s' = s /\ exists r, st' = rfinish r st /\ r <> RSaved) \/
  (s' = s /\ st' = fst (propose (ev_time ev) st)) \/
  (rs_pc st = RConfirm /\ st' = rfinish RSaved st /\
   s' = save_game s (rs_channel_id st) (put_character (rs_actor st) (rs_candidate st) (ev_time ev) (rs_game st))).
Proof.
  unfold random_step. intros Hs.
  destruct (rs_pc st) eqn:Hpc; [| |simplify_eq; by left].
  all: destruct (rs_deadline st <=? ev_time ev);
       [simplify_eq; right; left; split; [done|]; exists RTimedOut; split; [done|discriminate]|].
  all: destruct ev as [t m|t v|t]; try (simplify_eq; by left).
  all: destruct (check_in _ _ m); [|simplify_eq; by left].
  all: destruct (String.eqb _ "yes").
  all: try (destruct (propose t st) as [st1 o1] eqn:Hp; simplify_eq;
            do 2 right; left; cbn [ev_time]; by rewrite Hp).
  - simplify_eq. right; left. split; [done|]. exists RCancelled. split; [done|discriminate].
  - destruct (save_and_announce _ _ _ _ _ _ _) as [s1 o1] eqn:Hsa. simplify_eq.
    do 3 right. split_and!; [done|done|]. unfold save_and_announce in Hsa. by simplify_eq.
Qed.

Lemma random_step_store `{SessionStore St} s st ev s' st' o :
  random_step s st ev = (s', st', o) ->
  (s' = s /\ rs_pc st' <> RDone RSaved) \/
  (rs_pc st' = RDone RSaved /\
   s' = save_game s (rs_channel_id st) (put_character (rs_actor st) (rs_candidate st) (ev_time ev) (rs_game st))) \/
  (s' = s /\ st' = st).
Proof.
  intros Hs. destruct (random_step_cases _ _ _ _ _ _ Hs) as [[-> ->]|[[-> (r & -> & Hr)]|[[-> ->]|(_ & -> & ->)]]].
  - by do 2 right.
  - left. split; [done|]. simpl. congruence.
  - left. split; [done|]. by rewrite (proj1 (proj2 (proj2 (proj2 (propose_frame _ _))))).
  - by right; left.
Qed.

Lemma random_step_frame `{SessionStore St} s st ev s' st' o :
  random_step s st ev = (s', st', o) ->
  rs_actor st' = rs_actor st /\ rs_origin st' = rs_origin st /\ rs_game st' = rs_game st /\
  (rs_inv st -> rs_inv st').
Proof.
  intros Hs. destruct (random_step_cases _ _ _ _ _ _ Hs) as [[_ ->]|[[_ (r & -> & _)]|[[_ ->]|(_ & -> & _)]]].
  - done.
  - done.
  - pose proof (propose_frame (ev_time ev) st) as (? & ? & ? & _). split_and!; try done.
    intros _. apply propose_inv.
  - done.
Qed.

(** C3: a [!random] session changes the store only by an accepted card.
    If the run has not ended with [RSaved] (the author said no, the
    replace question was refused, or a wait timed out, at whatever
    point), the session store is exactly the one before the run. *)
Theorem random_run_unsaved_store `{SessionStore St} s st evs s' st' o :
  random_run s st evs = (s', st', o) -> rs_pc st' <> RDone RSaved -> s' = s.
Proof.
  revert s st o. induction evs as [|ev evs IH]; intros s st o Hrun Hns; simpl in Hrun.
  { by simplify_eq. }
  destruct (random_step s st ev) as [[s1 st1] o1] eqn:Hst.
  destruct (random_run s1 st1 evs) as [[s2 st2] o2] eqn:Hr. simplify_eq.
  rewrite (IH _ _ _ Hr Hns).
  destruct (random_step_store _ _ _ _ _ _ Hst) as [[-> _]|[[Hsaved _]|[-> _]]]; [done| |done].
  rewrite (random_run_done _ _ _ _ Hsaved) in Hr. by simplify_eq.
Qed.

(** The command's first state: the author and the channel of the
    command, with the invariant. *)
Lemma random_character_init `{SessionStore St} s now author origin tape st o :
  random_character true s now author origin tape = (Some st, o) ->
  rs_actor st = author /\ rs_origin st = origin /\ rs_inv st /\ rs_pc st <> RDone RSaved.
Proof.
  unfold random_character. simpl. destruct (get_game s (chan_id origin)) as [g|]; [|done].
  destruct (negb (is_player author g)); [done|].
  destruct (has_character author g).
  - intros. by simplify_eq.
  - pose proof (propose_inv now (mkRandom author origin g tape (empty_character now) (now + 30) RReplace)) as Hi.
    pose proof (propose_frame now (mkRandom author origin g tape (empty_character now) (now + 30) RReplace))
      as (Ha & Ho & _).
    pose proof (propose_frame now (mkRandom author origin g tape (empty_character now) (now + 30) RReplace))
      as (_ & _ & _ & Hp & _).
    destruct (propose _ _) as [st1 o1]. intros. simplify_eq. simpl in *. by rewrite Hp.
Qed.

Section Runs.
Context `{SessionStoreLaws St}.

Lemma random_run_saved_inv s st evs s' st' o :
  rs_inv st -> rs_pc st <> RDone RSaved ->
  random_run s st evs = (s', st', o) -> rs_pc st' = RDone RSaved ->
  exists g c, get_game s' (rs_channel_id st) = Some g /\ g_characters g !! rs_actor st = Some c /\
              gen_shape c.
Proof.
  revert s st o. induction evs as [|ev evs IH]; intros s st o Hinv Hns Hrun Hsv; simpl in Hrun.
  { by simplify_eq. }
  destruct (random_step s st ev) as [[s1 st1] o1] eqn:Hst.
  destruct (random_run s1 st1 evs) as [[s2 st2] o2] eqn:Hr. simplify_eq.
  pose proof (random_step_frame _ _ _ _ _ _ Hst) as (Ha & Ho & _ & Hi).
  destruct (random_step_cases _ _ _ _ _ _ Hst) as [[-> ->]|[[-> (r & -> & Hr')]|[[-> ->]|(Hpc & -> & ->)]]].
  1-3: unfold rs_channel_id; rewrite <- ?Ha, <- ?Ho; apply (IH s _ o2); [by apply Hi| |done|done].
  - done.
  - simpl. congruence.
  - by rewrite (proj1 (proj2 (proj2 (proj2 (propose_frame _ _))))).
  - rewrite (random_run_done _ _ _ RSaved) in Hr by done. simplify_eq.
    eexists _, _. split; [apply get_save_eq|]. split; [apply put_character_lookup|].
    unfold rs_inv in Hinv. by rewrite Hpc in Hinv.
Qed.

(** C4: a [!random] command that ends with the author's "yes" has saved,
    in the command's channel and under the author's id, a character
    with a race, a class, scores equal to a permutation of the standard
    array plus the racial bonus (whatever rerolls came before), each
    score between 8 and 17. *)
Theorem random_run_saved_record s now author origin tape st o0 evs s' st' o :
  random_character true s now author origin tape = (Some st, o0) ->
  random_run s st evs = (s', st', o) -> rs_pc st' = RDone RSaved ->
  exists g c, get_game s' (chan_id origin) = Some g /\ g_characters g !! author = Some c /\
    gen_shape c /\ forall a, exists v, ch_scores c a = Some v /\ 8 <= v <= 17.
Proof.
  intros Hinit Hrun Hsv. destruct (random_character_init _ _ _ _ _ _ _ Hinit) as (<- & <- & Hi & Hns).
  destruct (random_run_saved_inv _ _ _ _ _ _ Hi Hns Hrun Hsv) as (g & c & Hg & Hc & Hsh).
  exists g, c. split_and!; try done.
  by destruct (gen_shape_bounds c Hsh) as (r & _ & Hb & _).
Qed.
End Runs.

(** ** The confirmation wait *)

(** C21: when the 60 s confirmation wait of a card times out, the author
    is told "Confirmation timed out. Character creation cancelled." and
    [display_and_confirm] returns [True], which ends the [while True]
    loop: the command is over, nothing was saved, and no later event
    (a late "yes" included) does anything. *)
Theorem random_confirm_timeout `{SessionStore St} s st ev evs :
  rs_pc st = RConfirm -> rs_deadline st <= ev_time ev ->
  random_run s st (ev :: evs) = (s, rfinish RTimedOut st, [OutDM (rs_actor st) NConfirmTimeout]).
Proof.
  intros Hpc Hd. simpl. unfold random_step. rewrite Hpc.
  replace (rs_deadline st <=? ev_time ev) with true by (symmetry; by apply Z.leb_le).
  unfold random_timeout_notice. rewrite Hpc.
  by rewrite (random_run_done _ _ _ RTimedOut).
Qed.

(** C23: a "no" (in any case) from the author in the DMs, in time, saves
    nothing and shows a new card: a fresh generated character whose name
    went through the resolver, with a new 60 s wait, after the message
    "Generating a new character...". *)
Theorem random_confirm_no `{SessionStore St} s st t m :
  rs_pc st = RConfirm -> t < rs_deadline st ->
  msg_author m = rs_actor st -> msg_channel m = ChDM (rs_actor st) ->
  py_lower (msg_content m) = "no"%string ->
  let '(s', st', o) := random_step s st (EvMessage t m) in
  s' = s /\ rs_pc st' = RConfirm /\ rs_deadline st' = t + 60 /\ rs_inv st' /\
  o = [OutDM (rs_actor st) NRerolling; OutDM (rs_actor st) (NRandomCard (rs_candidate st'))].
Proof.
  intros Hpc Ht Ha Hc Hno. unfold random_step. rewrite Hpc.
  replace (rs_deadline st <=? ev_time (EvMessage t m)) with false by (symmetry; apply Z.leb_gt; done).
  unfold check_in, is_yes_no. rewrite Ha, Hc, Hno, String.eqb_refl, bool_decide_true by done.
  simpl. pose proof (propose_inv t st) as Hi. pose proof (propose_frame t st) as (_ & _ & _ & Hp & Hd).
  unfold propose in *. destruct (generate_random_character t (rs_tape st)).
  destruct (resolve_name _ _ _ _). done.
Qed.

(** C24: while a card is shown, a message that is not "yes" or "no" in
    some case (for example "reroll") does not satisfy [check_confirm]:
    it is ignored, and the wait goes on with the same card and deadline. *)
Theorem random_confirm_ignores `{SessionStore St} s st t m :
  rs_pc st = RConfirm -> t < rs_deadline st -> is_yes_no m = false ->
  random_step s st (EvMessage t m) = (s, st, []).
Proof.
  intros Hpc Ht Hyn. unfold random_step. rewrite Hpc.
  replace (rs_deadline st <=? ev_time (EvMessage t m)) with false by (symmetry; apply Z.leb_gt; done).
  unfold check_in. by rewrite Hyn, andb_false_r.
Qed.

(** The step of an accepted "yes" to the card. *)
Lemma random_step_yes `{SessionStore St} s st t m :
  rs_pc st = RConfirm -> t < rs_deadline st ->
  msg_author m = rs_actor st -> msg_channel m = ChDM (rs_actor st) ->
  py_lower (msg_content m) = "yes"%string ->
  random_step s st (EvMessage t m) =
    let '(s', o) := save_and_announce s (rs_channel_id st) (rs_origin st) (rs_actor st)
                      (rs_candidate st) t (rs_game st) in (s', rfinish RSaved st, o).
Proof.
  intros Hpc Ht Ha Hc Hyes. unfold random_step. rewrite Hpc.
  replace (rs_deadline st <=? ev_time (EvMessage t m)) with false by (symmetry; apply Z.leb_gt; done).
  unfold check_in, is_yes_no. rewrite Ha, Hc, Hyes, bool_decide_true by done.
  by rewrite String.eqb_refl.
Qed.

(** The step of an accepted "yes" to the replace question: the first
    card is shown. *)
Lemma random_step_replace_yes `{SessionStore St} s st t m :
  rs_pc st = RReplace -> t < rs_deadline st ->
  msg_author m = rs_actor st -> msg_channel m = rs_origin st ->
  py_lower (msg_content m) = "yes"%string ->
  random_step s st (EvMessage t m) = (s, fst (propose t st), snd (propose t st)).
Proof.
  intros Hpc Ht Ha Hc Hyes. unfold random_step. rewrite Hpc.
  replace (rs_deadline st <=? ev_time (EvMessage t m)) with false by (symmetry; apply Z.leb_gt; done).
  unfold check_in, is_yes_no. rewrite Ha, Hc, Hyes, bool_decide_true by done.
  rewrite String.eqb_refl. simpl. by destruct (propose t st).
Qed.

(** A "yes" (in any case) from the author in the DMs, in time,
    accepts the card shown: the gateway saves the handler's game with
    the card's character under the author, and the command ends
    [RSaved]; no later event changes anything. *)
Theorem random_confirm_yes `{SessionStore St} s st t m evs :
  rs_pc st = RConfirm -> t < rs_deadline st ->
  msg_author m = rs_actor st -> msg_channel m = ChDM (rs_actor st) ->
  py_lower (msg_content m) = "yes"%string ->
  random_run s st (EvMessage t m :: evs) =
    let '(s', o) := save_and_announce s (rs_channel_id st) (rs_origin st) (rs_actor st)
                      (rs_candidate st) t (rs_game st) in
    (s', rfinish RSaved st, o).
Proof.
  intros Hpc Ht Ha Hc Hyes. cbn [random_run]. rewrite (random_step_yes s st t m) by done.
  destruct (save_and_announce _ _ _ _ _ _ _) as [s' o].
  rewrite (random_run_done s' _ _ RSaved) by done. by rewrite app_nil_r.
Qed.
