(* ===== verification/Liveness.v ===== *)
(** * Liveness: a cooperative author always gets a character saved

    Every wait of the two creation handlers accepts some reply. This
    file takes an author who answers each wait in time with a reply the
    wait accepts ([wizard_reply]). It shows that the handlers then end
    with the character saved, after a number of answers bounded by the
    rank of the current wait ([wizard_rank]) for the wizard, and after at
    most two answers for [!random]. The author is part of the
    environment, not of the code: [cooperative_run] drives the wizard of
    [Wizard.v] with that author's answers, one time unit apart. *)

From Stdlib Require Import String ZArith Lia Wellfounded.
From stdpp Require Import base list sets gmap strings.
From S2P Require Import Prelude PyStr Data Store Events Gateway Allocator Wizard RandomFlow.

Open Scope Z_scope.

(** The author's answer to the pending wait of the wizard, at time [t]:
    "yes" to the replace question in the channel; then, in the DMs, a
    name, the Fighter class, the Human race, a backstory, an alignment,
    0 points for every ability, and "yes". *)
Definition wizard_reply (w : WizardState) (t : Z) : Event :=
  let dmsg c := EvMessage t (mkMessage (wz_actor w) (ChDM (wz_actor w)) c) in
  match wz_pc w with
  | PcReplace => EvMessage t (mkMessage (wz_actor w) (wz_origin w) "yes")
  | PcName => dmsg "Hero"
  | PcClass => EvSelect t "Fighter"
  | PcRace => EvSelect t "Human"
  | PcBackstory => dmsg "Wanderer"
  | PcAlignment => dmsg "Neutral"
  | PcPoints _ _ => dmsg "0"
  | PcConfirm => dmsg "yes"
  | PcDone _ => EvTick t
  end.

(** An upper bound on the number of answers still needed. *)
Definition wizard_rank (pc : Pc) : nat :=
  match pc with
  | PcReplace => 13 | PcName => 12 | PcClass => 11 | PcRace => 10
  | PcBackstory => 9 | PcAlignment => 8
  | PcPoints _ rest => 2 + length rest
  | PcConfirm => 1
  | PcDone _ => 0
  end.

(** [fuel] answers of the author, the first at time [t], then one time
    unit apart. *)
Fixpoint cooperative_run `{SessionStore St} (fuel : nat) (s : St) (w : WizardState) (t : Z)
    : St * WizardState :=
  match fuel with
  | O => (s, w)
  | S n => let '(s', w', _) := wizard_step s w (wizard_reply w t) in cooperative_run n s' w' (t + 1)
  end.

(** A step of the wizard that moves it to another wait (or ends it):
    [w'] is reached from [w] by one event and its program point
    differs. *)
Definition wizard_moves `{SessionStore St} (w' w : WizardState) : Prop :=
  exists (s s' : St) ev o, wizard_step s w ev = (s', w', o) /\ wz_pc w' <> wz_pc w.

(** ** The wizard *)

Lemma alloc_advance_stop st d l d' b rest :
  alloc_advance st d l = (d', StopPrompt b rest) -> (length rest < length l)%nat.
Proof.
  revert d. induction l as [|a l IH]; intros d; simpl; [done|].
  destruct (al_remaining st =? 0); [intros H; specialize (IH _ H); lia|].
  intros H. simplify_eq. lia.
Qed.

(** Past an ability, the [for] loop stops at a later prompt or at the
    confirmation, with a fresh 60 s wait. *)
Lemma enter_points_rank t st d l w :
  let w' := fst (enter_points t st d l w) in
  wz_deadline w' = t + 60 /\ is_done (wz_pc w') = false /\
  (wizard_rank (wz_pc w') <= 1 + length l)%nat.
Proof.
  unfold enter_points. destruct (alloc_advance st d l) as [d' [b rest|]] eqn:E; simpl.
  - apply alloc_advance_stop in E. split_and!; [done|done|lia].
  - split_and!; [done|done|lia].
Qed.

(** The reply "0" to an ability prompt is accepted whenever the pool
    is not negative. *)
Lemma alloc_reply_zero st d a :
  0 <= al_remaining st ->
  alloc_reply st d a "0" =
    ReplyAccepted (mkAlloc (upd (al_values st) a (al_values st a + 0)) (al_remaining st - 0))
                  (set_score a (al_values st a + 0) d).
Proof.
  intros Hr. unfold alloc_reply. change (py_int (py_strip "0")) with (Some 0). cbn -[Z.min].
  replace (0 <=? Z.min 7 (al_remaining st)) with true by (symmetry; apply Z.leb_le; lia). done.
Qed.

(** One answer of the author, in time, saves or moves to a wait of
    smaller rank, with a fresh 60 s deadline. *)
Lemma wizard_reply_progress `{SessionStore St} s w t :
  wiz_inv w -> is_done (wz_pc w) = false -> t < wz_deadline w ->
  let '(s', w', _) := wizard_step s w (wizard_reply w t) in
  wz_pc w' = PcDone Saved \/
  ((wizard_rank (wz_pc w') < wizard_rank (wz_pc w))%nat /\ is_done (wz_pc w') = false /\
   wz_deadline w' = t + 60).
Proof.
  intros Hinv Hnd Ht. unfold wizard_step, wizard_reply.
  assert (Hlt : (wz_deadline w <=? t) = false) by (apply Z.leb_gt; lia).
  unfold wiz_inv in Hinv. destruct (wz_pc w) as [| | | | | |a rest| |o] eqn:Hpc; try discriminate;
    cbn [ev_time]; rewrite Hlt; unfold on_message, on_select, keep_store, check_confirm, check_response;
    rewrite Hpc; cbn [msg_author msg_channel msg_content];
    rewrite ?String.eqb_refl, ?bool_decide_true by done.
  1-5: simpl; right; split_and!; [simpl; lia|done|done].
  - simpl. destruct (enter_points_rank t alloc_init (set_alignment "Neutral" (wz_data w)) ability_scores w)
      as (Hd & Hn & Hr).
    right. split_and!; [simpl in *; lia|done|done].
  - destruct Hinv as (_ & _ & _ & Hr & _). rewrite alloc_reply_zero by done. simpl. right.
    destruct (enter_points_rank t (mkAlloc (upd (al_values (wz_alloc w)) a (al_values (wz_alloc w) a + 0))
                                   (al_remaining (wz_alloc w) - 0))
                (set_score a (al_values (wz_alloc w) a + 0) (wz_data w)) rest w) as (Hd & Hn & Hrk).
    split_and!; [simpl; lia|done|done].
  - left. unfold persist, save_and_announce. reflexivity.
Qed.

Lemma cooperative_run_done `{SessionStore St} n s w t o :
  wz_pc w = PcDone o -> cooperative_run n s w t = (s, w).
Proof.
  intros Hpc. revert t. induction n as [|n IH]; intros t; simpl; [done|].
  rewrite (wizard_step_done s w _ o Hpc). apply IH.
Qed.

(** Every step stays at its wait (an ignored event, a rejected number
    of points) or lowers the rank: the dialogue only moves forward. *)
Lemma wizard_step_rank `{SessionStore St} s w ev s' w' o :
  wizard_step s w ev = (s', w', o) ->
  wz_pc w' = wz_pc w \/ (wizard_rank (wz_pc w') < wizard_rank (wz_pc w))%nat.
Proof.
  unfold wizard_step. intros Hs.
  destruct (wz_pc w) eqn:Hpc; [..|simplify_eq; by left].
  all: destruct (wz_deadline w <=? ev_time ev); [simplify_eq; right; simpl; lia|].
  all: destruct ev as [t m|t v|t]; [|unfold keep_store, on_select in Hs; rewrite Hpc in Hs|simplify_eq; by left].
  all: unfold on_message, keep_store, persist, save_and_announce, begin_creation in Hs;
    try rewrite Hpc in Hs; repeat case_match; simplify_eq; try (by left); try (right; simpl; lia).
  all: match goal with |- context [enter_points ?t ?st ?d ?l ?w] =>
         pose proof (enter_points_rank t st d l w) as (_ & _ & Hr) end; right; simpl in *; lia.
Qed.

(** C14: the guided wizard always completes for a cooperative author.
    From any state that satisfies the wizard's invariant and is still
    waiting, an author who answers each wait in time saves the
    character within [wizard_rank] answers (at most 13). No wait can
    loop for ever on replies that the code accepts. *)
Theorem wizard_cooperative_saves `{SessionStore St} s w t :
  wiz_inv w -> is_done (wz_pc w) = false -> t < wz_deadline w ->
  wz_pc (cooperative_run (wizard_rank (wz_pc w)) s w t).2 = PcDone Saved.
Proof.
  intros Hinv Hnd Ht. remember (wizard_rank (wz_pc w)) as n eqn:Hn.
  assert (Hle : (wizard_rank (wz_pc w) <= n)%nat) by lia. clear Hn.
  revert s w t Hinv Hnd Ht Hle. induction n as [|n IH]; intros s w t Hinv Hnd Ht Hle.
  { destruct (wz_pc w); simpl in *; try lia; discriminate. }
  simpl. pose proof (wizard_reply_progress s w t Hinv Hnd Ht) as Hp.
  destruct (wizard_step s w (wizard_reply w t)) as [[s' w'] o] eqn:E.
  destruct Hp as [Hsv|(Hr & Hnd' & Hd)].
  - by rewrite (cooperative_run_done n s' w' (t + 1) Saved Hsv).
  - apply IH; [by eapply wizard_step_inv|done|lia|lia].
Qed.

(** C16: the guided wizard cannot move between its waits for ever: the
    relation "one event moves the wizard to another wait" is well
    founded, whatever the events and the store. Every such move lowers
    [wizard_rank], which is at most 13, so no sequence of events makes
    the dialogue go back to an earlier question. *)
Theorem wizard_moves_wf `{SessionStore St} : well_founded (wizard_moves (St := St)).
Proof.
  apply (wf_incl _ _ (ltof _ (fun w => wizard_rank (wz_pc w)))); [|apply well_founded_ltof].
  intros w' w (s & s' & ev & o & Hs & Hne). unfold ltof.
  by destruct (wizard_step_rank _ _ _ _ _ _ Hs).
Qed.

(** ** [!random] *)

Lemma random_character_pc `{SessionStore St} s now author origin tape st o :
  random_character true s now author origin tape = (Some st, o) ->
  rs_pc st = RReplace \/ rs_pc st = RConfirm.
Proof.
  unfold random_character. simpl. destruct (get_game s (chan_id origin)) as [g|]; [|done].
  destruct (negb (is_player author g)); [done|]. destruct (has_character author g).
  - intros. simplify_eq. by left.
  - pose proof (propose_frame now (mkRandom author origin g tape (empty_character now) (now + 30) RReplace))
      as (_ & _ & _ & Hp & _).
    destruct (propose _ _). intros. simplify_eq. by right.
Qed.

(** C15: [!random] always completes for a cooperative author. From the
    command's first state (the replace question or the first card), the
    author's "yes" in the command's channel, then "yes" in the DMs one
    time unit later, both in time, end the command with the character
    saved. *)
Theorem random_cooperative_saves `{SessionStore St} s now author origin tape st o0 t :
  random_character true s now author origin tape = (Some st, o0) -> t + 1 < rs_deadline st ->
  rs_pc (random_run s st [EvMessage t (mkMessage author origin "yes");
                          EvMessage (t + 1) (mkMessage author (ChDM author) "yes")]).1.2 = RDone RSaved.
Proof.
  intros Hinit Ht. destruct (random_character_init _ _ _ _ _ _ _ Hinit) as (<- & <- & _ & _).
  destruct (random_character_pc _ _ _ _ _ _ _ Hinit) as [Hpc|Hpc]; cbn [random_run].
  - rewrite (random_step_replace_yes s st t) by (done || lia).
    pose proof (propose_frame t st) as (Ha & Ho & _ & Hp & Hd).
    rewrite (random_step_yes s (fst (propose t st)) (t + 1)) by (cbn [msg_author msg_channel msg_content]; rewrite ?Hp, ?Hd, ?Ha; (reflexivity || lia)).
    destruct (save_and_announce _ _ _ _ _ _ _). reflexivity.
  - destruct (decide (rs_origin st = ChDM (rs_actor st))) as [Ho|Ho].
    + rewrite (random_step_yes s st t) by (done || lia).
      destruct (save_and_announce _ _ _ _ _ _ _) as [s' o'].
      rewrite (random_step_done s' (rfinish RSaved st) (EvMessage (t + 1) (mkMessage (rs_actor st) (ChDM (rs_actor st)) "yes")) RSaved) by done. reflexivity.
    + assert (Hign : random_step s st (EvMessage t (mkMessage (rs_actor st) (rs_origin st) "yes")) = (s, st, [])).
      { unfold random_step. rewrite Hpc.
        replace (rs_deadline st <=? ev_time _) with false by (symmetry; apply Z.leb_gt; simpl; lia).
        unfold check_in. simpl. by rewrite bool_decide_false, andb_false_r. }
      rewrite Hign, (random_step_yes s st (t + 1)) by (done || lia).
      destruct (save_and_announce _ _ _ _ _ _ _). reflexivity.
Qed.
