(* ===== verification/Npc.v ===== *)
(** * The NPC manager: [src/cogs/npc_manager.py]

    The [NPCManager] cog keeps the game's non-player characters in the
    list [game["npcs"]] of the session record. [create_npc] (lines 21-76)
    generates a character with the generator of [Generator.v], names it
    if a name is given, marks it as an NPC and appends it; [remove_npc]
    (lines 184-225) pops the first NPC whose name matches,
    case-insensitively. Both are for the game master or the game's
    creator only, and both save the game read at the start of the
    command. [list_npcs] (lines 78-115) and [npc_detail] (lines 117-182)
    only read.

    Each command runs without a wait, so it is one function from the
    store to the new store and the messages sent. The generator's draws
    come from a tape ([Rand.v]). *)

From Stdlib Require Import String ZArith Lia.
From stdpp Require Import base list sets gmap strings.
From S2P Require Import Prelude PyStr Data Store Events Rand Generator.

Open Scope Z_scope.

(** Lines 38 and 201: [str(ctx.author.id) != game["game_master_id"] and
    str(ctx.author.id) != game["created_by"]] refuses. *)
Definition may_manage_npcs (author : string) (g : Game) : bool :=
  String.eqb author (g_game_master_id g) || String.eqb author (g_created_by g).

(** Lines 47-55: the generated character, renamed when [npc_name] is a
    non-empty string, with [is_npc] and [created_at] set. *)
Definition new_npc (now : Z) (npc_name : option string) (t : Tape) : Character * Tape :=
  let '(c, t') := generate_random_character now t in
  let c1 := match npc_name with
            | Some n => if py_truthy n then set_name n c else c
            | None => c
            end in
  (mark_npc now c1, t').

(** [character.get("name", "").lower() == npc_name.lower()]. *)
Definition npc_matches (npc_name : string) (c : Character) : bool :=
  String.eqb (py_lower (name_or_empty c)) (py_lower npc_name).

(** Lines 138-142: the first NPC whose name matches. *)
Definition find_npc (npcs : list Character) (npc_name : string) : option Character :=
  List.find (npc_matches npc_name) npcs.

(** Lines 210-214: the index of the first NPC whose name matches. *)
Fixpoint npc_index (npcs : list Character) (npc_name : string) : option nat :=
  match npcs with
  | [] => None
  | c :: rest =>
      if npc_matches npc_name c then Some 0%nat
      else option_map S (npc_index rest npc_name)
  end.

(** [list.pop(i)] for an index in range: the list without its [i]-th
    element. *)
Definition pop_at {A} (i : nat) (l : list A) : list A := take i l ++ drop (S i) l.

(** [removed_npc.get('name', 'Unknown')]. *)
Definition name_or_unknown (c : Character) : string := ch_name c ?? "Unknown"%string.

(** [create_npc] (lines 21-76). [ready] is [self.parent_cog and
    self.character_creation_cog]. *)
Definition create_npc `{SessionStore St} (ready : bool) (s : St) (now : Z) (author : string)
    (origin : Chan) (npc_name : option string) (t : Tape) : St * list Out :=
  if negb ready then (s, [OutChannel origin NUnavailable]) else
  match get_game s (chan_id origin) with
  | None => (s, [OutChannel origin NNoGame])
  | Some g =>
      if negb (may_manage_npcs author g) then (s, [OutChannel origin NNotGM]) else
      let c := fst (new_npc now npc_name t) in
      (save_game s (chan_id origin) (put_npcs (g_npcs g ++ [c]) now g),
       (* lines 71-72, after the save: [character_data['race']],
          [character_data['class']] *)
       match ch_race c, ch_class c with
       | Some _, Some _ => [OutChannel origin (NNpcCreated c)]
       | _, _ => on_command_error origin (ErrOther "KeyError")
       end)
  end.

(** [list_npcs] (lines 78-115): read only. *)
Definition list_npcs `{SessionStore St} (loaded : bool) (s : St) (origin : Chan) : list Out :=
  if negb loaded then [OutChannel origin NUnavailable] else
  match get_game s (chan_id origin) with
  | None => [OutChannel origin NNoGame]
  | Some g =>
      match g_npcs g with
      | [] => [OutChannel origin NNoNpcs]
      | npcs => [OutChannel origin (NNpcList npcs)]
      end
  end.

(** [npc_detail] (lines 117-182): read only. [loaded] is
    [self.parent_cog], [cc_loaded] is [self.character_creation_cog]: the
    command tests only the first, and calls
    [self.character_creation_cog._add_character_fields] (line 155) on the
    NPC it found, which raises [AttributeError] on [None]. *)
Definition npc_detail `{SessionStore St} (loaded cc_loaded : bool) (s : St) (origin : Chan)
    (npc_name : string) : list Out :=
  if negb loaded then [OutChannel origin NUnavailable] else
  match get_game s (chan_id origin) with
  | None => [OutChannel origin NNoGame]
  | Some g =>
      match g_npcs g with
      | [] => [OutChannel origin NNoNpcs]
      | npcs =>
          match find_npc npcs npc_name with
          | None => [OutChannel origin (NNpcNotFound npc_name)]
          | Some c =>
              if negb cc_loaded then on_command_error origin (ErrOther "AttributeError") else
              (* lines 177-178: [npc['race']], [npc['class']] *)
              match ch_race c, ch_class c with
              | Some _, Some _ => [OutChannel origin (NNpcDetail c)]
              | _, _ => on_command_error origin (ErrOther "KeyError")
              end
          end
      end
  end.

(** [remove_npc] (lines 184-225). *)
Definition remove_npc `{SessionStore St} (loaded : bool) (s : St) (now : Z) (author : string)
    (origin : Chan) (npc_name : string) : St * list Out :=
  if negb loaded then (s, [OutChannel origin NUnavailable]) else
  match get_game s (chan_id origin) with
  | None => (s, [OutChannel origin NNoGame])
  | Some g =>
      if negb (may_manage_npcs author g) then (s, [OutChannel origin NNotGM]) else
      match g_npcs g with
      | [] => (s, [OutChannel origin NNoNpcs])
      | npcs =>
          match npc_index npcs npc_name with
          | None => (s, [OutChannel origin (NNpcNotFound npc_name)])
          | Some i =>
              let removed := nth i npcs (empty_character 0) in
              (save_game s (chan_id origin) (put_npcs (pop_at i npcs) now g),
               [OutChannel origin (NNpcRemoved (name_or_unknown removed))])
          end
      end
  end.

(** ** The search by name *)

(** The NPC [npc_detail] shows is the one at the index [remove_npc]
    pops. *)
Lemma find_npc_index npcs n : find_npc npcs n = npc_index npcs n ≫= (fun i => npcs !! i).
Proof.
  unfold find_npc. induction npcs as [|c rest IH]; [done|]. simpl.
  destruct (npc_matches n c); [done|]. rewrite IH. by destruct (npc_index rest n).
Qed.

(** [npc_index] finds the first match. *)
Lemma npc_index_first npcs n i :
  npc_index npcs n = Some i ->
  (exists c, npcs !! i = Some c /\ npc_matches n c = true) /\
  (forall j c, (j < i)%nat -> npcs !! j = Some c -> npc_matches n c = false).
Proof.
  revert i. induction npcs as [|c rest IH]; intros i Hi; [done|]. simpl in Hi.
  destruct (npc_matches n c) eqn:Hc.
  - simplify_eq. split; [by exists c|]. intros j c' Hj. lia.
  - destruct (npc_index rest n) as [k|] eqn:Hk; [|done]. simpl in Hi. simplify_eq.
    destruct (IH k eq_refl) as [Hfound Hbefore]. split; [exact Hfound|].
    intros [|j] c' Hj Hl; simpl in Hl; [injection Hl as <-; exact Hc|].
    apply (Hbefore j); [lia|done].
Qed.

(** An NPC appended after NPCs that do not match is found at the end. *)
Lemma npc_index_app_last npcs c n :
  (forall c', c' ∈ npcs -> npc_matches n c' = false) -> npc_matches n c = true ->
  npc_index (npcs ++ [c]) n = Some (length npcs).
Proof.
  intros Hnone Hc. induction npcs as [|c0 rest IH]; simpl; [by rewrite Hc|].
  rewrite (Hnone c0 (list_elem_of_here _ _)), IH; [done|].
  intros c' Hc'. apply Hnone. by apply list_elem_of_further.
Qed.

Lemma pop_at_last {A} (l : list A) x : pop_at (length l) (l ++ [x]) = l.
Proof.
  unfold pop_at. rewrite take_app_length, drop_ge; [apply app_nil_r|].
  rewrite length_app. simpl. lia.
Qed.

Lemma pop_at_length {A} (l : list A) i : (i < length l)%nat -> length (pop_at i l) = pred (length l).
Proof. intros Hi. unfold pop_at. rewrite length_app, length_take, length_drop. lia. Qed.

(** A match before the end stays the first match when NPCs are
    appended. *)
Lemma npc_index_app npcs l n i : npc_index npcs n = Some i -> npc_index (npcs ++ l) n = Some i.
Proof.
  revert i. induction npcs as [|c rest IH]; intros i Hi; [done|]. simpl in *.
  destruct (npc_matches n c); [done|].
  destruct (npc_index rest n) as [k|]; [|done]. simpl in Hi. simplify_eq. by rewrite (IH k).
Qed.

Lemma pop_at_app {A} (l l' : list A) i : (i < length l)%nat -> pop_at i (l ++ l') = pop_at i l ++ l'.
Proof.
  intros Hi. unfold pop_at. rewrite take_app_le, drop_app_le by lia. by rewrite app_assoc.
Qed.

Lemma put_npcs_put_npcs npcs1 npcs2 now1 now2 g :
  put_npcs npcs2 now2 (put_npcs npcs1 now1 g) = put_npcs npcs2 now2 g.
Proof. reflexivity. Qed.

(** A name given to [!create_npc] is matched by that name. *)
Lemma new_npc_matches now n t :
  py_truthy n = true -> npc_matches n (fst (new_npc now (Some n) t)) = true.
Proof.
  intros Hn. unfold new_npc. destruct (generate_random_character now t). rewrite Hn.
  unfold npc_matches. simpl. apply String.eqb_refl.
Qed.

(** The NPC is a generated character: naming and marking it touch
    neither its race, class nor scores. *)
Lemma new_npc_shape now npc_name t : gen_shape (fst (new_npc now npc_name t)).
Proof.
  pose proof (generate_gen_shape now t) as Hs. unfold new_npc.
  destruct (generate_random_character now t) as [c t']. simpl in *.
  destruct npc_name as [n|]; [destruct (py_truthy n)|]; exact Hs.
Qed.

(** ** The commands *)

(** C7: only the game master or the game's creator may create or remove
    NPCs. For anyone else both commands answer "Only the Game Master or
    game creator can ..." and leave the store as it was. *)
Theorem npc_manage_refused `{SessionStore St} s now author origin npc_name t n g :
  get_game s (chan_id origin) = Some g -> may_manage_npcs author g = false ->
  create_npc true s now author origin npc_name t = (s, [OutChannel origin NNotGM]) /\
  remove_npc true s now author origin n = (s, [OutChannel origin NNotGM]).
Proof. intros Hg Hm. unfold create_npc, remove_npc. by rewrite Hg, Hm. Qed.

Section Laws.
Context `{SessionStoreLaws St}.

(** C17: [!create_npc] by the game master appends one NPC to the end of
    the channel's NPC list and changes nothing else of the game but
    [last_updated]; no other channel changes. The NPC is a generated
    character (race, class, standard array permuted plus racial bonus),
    marked [is_npc], carrying the given name when one is given. *)
Theorem create_npc_spec s now author origin npc_name t g :
  get_game s (chan_id origin) = Some g -> may_manage_npcs author g = true ->
  let c := fst (new_npc now npc_name t) in
  let '(s', o) := create_npc true s now author origin npc_name t in
  get_game s' (chan_id origin) = Some (put_npcs (g_npcs g ++ [c]) now g) /\
  (forall ch, ch <> chan_id origin -> get_game s' ch = get_game s ch) /\
  ch_is_npc c = Some true /\ gen_shape c /\
  (forall n, npc_name = Some n -> py_truthy n = true -> ch_name c = Some n) /\
  o = [OutChannel origin (NNpcCreated c)].
Proof.
  intros Hg Hm c. unfold create_npc. rewrite Hg, Hm. simpl.
  split; [apply get_save_eq|]. split; [intros ch Hch; by apply get_save_ne|].
  pose proof (new_npc_shape now npc_name t) as Hsh.
  split; [|split; [exact Hsh|split]].
  - subst c. unfold new_npc. by destruct (generate_random_character now t).
  - intros n -> Hn. subst c. unfold new_npc. destruct (generate_random_character now t). by rewrite Hn.
  - destruct Hsh as (r & k & _ & Hr & Hk & _). subst c. by rewrite Hr, Hk.
Qed.

(** C18: [!remove_npc name] by the game master pops exactly the first NPC
    whose name equals [name] ignoring case (the one [!npc_detail name]
    shows), keeps the others in order, and reports the popped NPC's
    name. *)
Theorem remove_npc_spec s now author origin n g i :
  get_game s (chan_id origin) = Some g -> may_manage_npcs author g = true ->
  npc_index (g_npcs g) n = Some i ->
  let '(s', o) := remove_npc true s now author origin n in
  get_game s' (chan_id origin) = Some (put_npcs (pop_at i (g_npcs g)) now g) /\
  find_npc (g_npcs g) n = g_npcs g !! i /\
  length (pop_at i (g_npcs g)) = pred (length (g_npcs g)) /\
  (forall j c, (j < i)%nat -> g_npcs g !! j = Some c -> npc_matches n c = false) /\
  exists c, g_npcs g !! i = Some c /\ npc_matches n c = true /\
            o = [OutChannel origin (NNpcRemoved (name_or_unknown c))].
Proof.
  intros Hg Hm Hi. pose proof (npc_index_first _ _ _ Hi) as [(c & Hc & Hmc) Hbefore].
  pose proof (find_npc_index (g_npcs g) n) as Hf. rewrite Hi in Hf.
  pose proof (pop_at_length (g_npcs g) i (proj1 (lookup_lt_is_Some _ _) (mk_is_Some _ _ Hc))) as Hlen.
  unfold remove_npc. rewrite Hg, Hm. cbn [negb].
  destruct (g_npcs g) as [|x l] eqn:E; [done|]. cbv beta iota. rewrite Hi. rewrite <- E in *.
  split; [apply get_save_eq|]. split; [done|]. split; [done|]. split; [done|].
  exists c. split_and!; [done|done|]. by rewrite (nth_lookup_Some _ _ _ _ Hc).
Qed.

(** C29: creating an NPC under a fresh name and then removing it by that
    name, both by the game master, gives back the channel's game with
    its NPC list as it was (only [last_updated] has moved). *)
Theorem create_remove_roundtrip s now1 now2 author origin n t g :
  get_game s (chan_id origin) = Some g -> may_manage_npcs author g = true ->
  py_truthy n = true -> (forall c, c ∈ g_npcs g -> npc_matches n c = false) ->
  let s1 := fst (create_npc true s now1 author origin (Some n) t) in
  get_game (fst (remove_npc true s1 now2 author origin n)) (chan_id origin)
  = Some (put_npcs (g_npcs g) now2 g).
Proof.
  intros Hg Hm Hn Hfresh s1.
  pose proof (npc_index_app_last (g_npcs g) _ n Hfresh (new_npc_matches now1 n t Hn)) as Hi.
  subst s1. unfold create_npc. rewrite Hg, Hm. cbn [negb fst].
  unfold remove_npc. rewrite get_save_eq. cbn [negb].
  change (may_manage_npcs author (put_npcs ?l ?t g)) with (may_manage_npcs author g).
  rewrite Hm. cbn [negb]. change (g_npcs (put_npcs ?l ?t g)) with l.
  destruct (g_npcs g ++ _) as [|x l] eqn:E; [by destruct (g_npcs g)|]. cbv beta iota.
  rewrite Hi. rewrite <- E in *. cbn [fst]. rewrite get_save_eq, put_npcs_put_npcs, pop_at_last. done.
Qed.
(** C30: [!create_npc] appends without comparing names (line 63). When
    an NPC of the channel already matches [n] (case-insensitively), the
    game master's [!create_npc n] still appends a new NPC that matches
    [n]; from then on the search by name of [!npc_detail] and
    [!remove_npc] stops at the older NPC, so [!remove_npc n] removes the
    older one and keeps the new one, at the end of the list. *)
Theorem create_npc_duplicate_shadowed s now1 now2 author origin n t g i :
  get_game s (chan_id origin) = Some g -> may_manage_npcs author g = true ->
  py_truthy n = true -> npc_index (g_npcs g) n = Some i ->
  let c := fst (new_npc now1 (Some n) t) in
  let s1 := fst (create_npc true s now1 author origin (Some n) t) in
  get_game s1 (chan_id origin) = Some (put_npcs (g_npcs g ++ [c]) now1 g) /\
  npc_matches n c = true /\
  find_npc (g_npcs g ++ [c]) n = g_npcs g !! i /\
  get_game (fst (remove_npc true s1 now2 author origin n)) (chan_id origin)
  = Some (put_npcs (pop_at i (g_npcs g) ++ [c]) now2 g).
Proof.
  intros Hg Hm Hn Hi c s1.
  pose proof (npc_index_first _ _ _ Hi) as [(c0 & Hc0 & _) _].
  assert (Hlt : (i < length (g_npcs g))%nat) by (apply lookup_lt_is_Some; eauto).
  pose proof (npc_index_app (g_npcs g) [c] n i Hi) as Hi'.
  assert (Hs1 : get_game s1 (chan_id origin) = Some (put_npcs (g_npcs g ++ [c]) now1 g)).
  { subst s1. unfold create_npc. rewrite Hg, Hm. apply get_save_eq. }
  split_and!; [exact Hs1|by apply new_npc_matches| |].
  - rewrite find_npc_index, Hi'. cbn. by apply lookup_app_l.
  - unfold remove_npc. rewrite Hs1. cbn [negb].
    change (may_manage_npcs author (put_npcs ?l ?t g)) with (may_manage_npcs author g).
    rewrite Hm. cbn [negb]. change (g_npcs (put_npcs ?l ?t g)) with l.
    destruct (g_npcs g ++ _) as [|x l] eqn:E; [by destruct (g_npcs g)|]. cbv beta iota.
    rewrite Hi'. rewrite <- E. cbn [fst]. by rewrite get_save_eq, put_npcs_put_npcs, pop_at_app.
Qed.
End Laws.
