(* ===== verification/Views.v ===== *)
(** * The read-only views: [!view_character] and [!list_characters]

    [src/cogs/character_creation.py], [view_character] (lines 415-464)
    and [list_characters] (lines 466-518), with [normalize_race] (lines
    146-151). Both commands look the game up for the channel, and for a
    thread whose own id has no game, for its parent channel. They send
    one embed to the channel of the command and a copy to the game's
    out-of-character channel when the bot can see it. Neither writes
    the store.

    The image table [character_images] is not under [src/]; the model
    keeps the key the code looks up in it. [bot.get_channel] is a
    parameter: the text channel or thread with a given id, if any. *)

From Stdlib Require Import Ascii String ZArith.
From stdpp Require Import base list gmap strings.
From S2P Require Import Prelude PyStr Data Store Events.

Open Scope Z_scope.

(** Lines 146-151: [if "-" in race: parts = race.split("-"); return
    "-".join([parts[0], parts[1].lower()])]. *)
Definition normalize_race (race : string) : string :=
  if py_in_char "-" race then
    let parts := py_split_char "-" race in
    py_join "-" [nth 0 parts EmptyString; py_lower (nth 1 parts EmptyString)]
  else race.

(** [f"{race}_{class}"]. *)
Definition image_key (race cls : string) : string := race ++ "_" ++ cls.

(** Line 453: [f"{character['race']}_{character['class']}"], the key of
    [!view_character]. [None] when a key is missing: the code raises
    [KeyError] there, before anything is sent, and the error handler
    of [Emo.py] answers. *)
Definition view_image_key (c : Character) : option string :=
  match ch_race c, ch_class c with
  | Some r, Some k => Some (image_key (race_name r) (class_name k))
  | _, _ => None
  end.

(** Lines 386 and 696-697: the key of the creation embeds, with the
    race normalized. *)
Definition creation_image_key (c : Character) : option string :=
  match ch_race c, ch_class c with
  | Some r, Some k => Some (image_key (normalize_race (race_name r)) (class_name k))
  | _, _ => None
  end.

(** Lines 427-431 and 477-481: the game of the channel, or of the
    parent channel for a thread without a game of its own. *)
Definition lookup_game `{SessionStore St} (s : St) (ch : Chan) : option Game :=
  match get_game s (chan_id ch) with
  | Some g => Some g
  | None => match ch with ChThread _ parent => get_game s parent | _ => None end
  end.

(** Lines 458-463 and 513-518: the copy for the out-of-character
    channel, when [ooc_channel_id] is set, is a number, and names a
    text channel or a thread the bot sees. A non-numeric id makes
    [int()] raise [ValueError] after the first embed was sent; the
    error handler of [Emo.py] then answers in the command's channel. *)
Definition ooc_copy (get_channel : Z -> option Chan) (origin : Chan) (g : Game) (n : Notice) : list Out :=
  match g_ooc_channel_id g with
  | Some id =>
      if py_truthy id then
        match py_int id with
        | Some k =>
            match get_channel k with
            | Some ch => if is_dm ch then [] else [OutChannel ch n]
            | None => []
            end
        | None => on_command_error origin (ErrOther "ValueError")
        end
      else []
  | None => []
  end.

(** [view_character] (lines 415-464). [member] is the mentioned member,
    [None] for the author. *)
Definition view_character `{SessionStore St} (get_channel : Z -> option Chan) (loaded : bool)
    (s : St) (origin : Chan) (author : string) (member : option string) : list Out :=
  if negb loaded then [OutChannel origin NUnavailable] else
  let uid := member ?? author in
  match lookup_game s origin with
  | None => [OutChannel origin NNoGame]
  | Some g =>
      match g_characters g !! uid with
      | None => [OutChannel origin NNoCharacter]
      | Some c =>
          match view_image_key c with
          | None => on_command_error origin (ErrOther "KeyError")
          | Some key =>
              let n := NCharacterView c key in
              OutChannel origin n :: ooc_copy get_channel origin g n
          end
      end
  end.

(** [list_characters] (lines 466-518). *)
Definition list_characters `{SessionStore St} (get_channel : Z -> option Chan) (loaded : bool)
    (s : St) (origin : Chan) : list Out :=
  if negb loaded then [OutChannel origin NUnavailable] else
  match lookup_game s origin with
  | None => [OutChannel origin NNoGame]
  | Some g =>
      if bool_decide (g_characters g = ∅) then [OutChannel origin NNoCharacters]
      else
        let n := NCharacterList (g_characters g) in
        OutChannel origin n :: ooc_copy get_channel origin g n
  end.

(** A score as [_add_character_fields] shows it:
    [character_data.get('strength', '10')]. The dict holds [str(v)] of
    the number [v] the model keeps. *)
Definition score_text (c : Character) (a : Ability) : string :=
  match ch_scores c a with
  | Some v => py_str_nat (Z.to_nat v)
  | None => "10"
  end.

(** The two lines of the "Ability Scores" field (lines 402-409). *)
Definition ability_scores_text (c : Character) : string :=
  ("**STR:** " ++ score_text c Strength ++ " | " ++
  "**DEX:** " ++ score_text c Dexterity ++ " | " ++
  "**CON:** " ++ score_text c Constitution ++ String (ascii_of_nat 10) EmptyString ++
  "**INT:** " ++ score_text c Intelligence ++ " | " ++
  "**WIS:** " ++ score_text c Wisdom ++ " | " ++
  "**CHA:** " ++ score_text c Charisma)%string.

(** [_add_character_fields] (lines 396-413): the fields of a character
    embed, with the defaults of [dict.get], and the footer when an
    author name is given. *)
Definition character_fields (c : Character) (author_name : option string)
    : list (string * string) * option string :=
  ([("Class", default "Unknown" (option_map class_name (ch_class c)));
    ("Level", ch_level c);
    ("Race", default "Unknown" (option_map race_name (ch_race c)));
    ("Backstory", default "None" (ch_backstory c));
    ("Alignment", default "Neutral" (ch_alignment c));
    ("Ability Scores", ability_scores_text c)],
   match author_name with
   | Some n => if py_truthy n then Some ("Created by " ++ n)%string else None
   | None => None
   end).

(** ** Theorems *)

(** [normalize_race] on the nine race names: the two hyphenated ones
    get their second part lowered, the others are unchanged. *)
Lemma normalize_race_names r :
  normalize_race (race_name r) =
  match r with HalfElf => "Half-elf"%string | HalfOrc => "Half-orc"%string | _ => race_name r end.
Proof. by destruct r. Qed.

(** C19: [!view_character] looks the image up under the raw race
    ([f"{character['race']}_{character['class']}"], line 453), while the
    creation embeds use [normalize_race] (lines 386, 696), which its
    docstring says matches the image table's keys. The two keys agree
    exactly when the race is neither Half-Elf nor Half-Orc. *)
Theorem view_image_key_mismatch c r k :
  ch_race c = Some r -> ch_class c = Some k ->
  view_image_key c = creation_image_key c <-> r <> HalfElf /\ r <> HalfOrc.
Proof.
  intros Hr Hk. unfold view_image_key, creation_image_key. rewrite Hr, Hk, normalize_race_names.
  destruct r; split; intros H; try (split; discriminate); try reflexivity;
    try (destruct H as [H1 H2]; by (exfalso; auto)).
  all: unfold image_key in H; simpl in H; discriminate.
Qed.

(** In a thread whose own id has no game, [!view_character @member]
    falls back on the game of the parent channel: it shows the member's
    character from that game, in the thread, with the raw image key, and
    copies it to the game's out-of-character channel. *)
Theorem view_character_thread `{SessionStore St} gc s id p author uid g c key :
  get_game s id = None -> get_game s p = Some g -> g_characters g !! uid = Some c ->
  view_image_key c = Some key ->
  view_character gc true s (ChThread id p) author (Some uid) =
    OutChannel (ChThread id p) (NCharacterView c key) :: ooc_copy gc (ChThread id p) g (NCharacterView c key).
Proof.
  intros Hid Hp Hc Hkey. unfold view_character, lookup_game. simpl.
  by rewrite Hid, Hp, Hc, Hkey.
Qed.

