(* ===== verification/Session.v ===== *)
(** * Creation handlers sharing one session

    The two creation commands ([!creation], [Wizard.v]; [!random],
    [RandomFlow.v]) run as independent asyncio tasks. They touch the
    session store only at their save. Each reads the game once, when
    the command starts (lines 169 and 531 of
    [src/cogs/character_creation.py]), and each save writes that copy
    back with one character put in it. This file states that contract as
    an interface, [CreationHandler] with its laws. Both handlers
    implement it. It then proves, against the interface alone, what any
    interleaving of two handlers on one channel can leave in the store:
    the later save erases the earlier one, and, under the refinement
    [CheckedHandler] (every save puts a complete character), the store
    stays well-formed ([store_wf]). *)

From Stdlib Require Import String ZArith.
From stdpp Require Import base list gmap strings.
From S2P Require Import Prelude Data Store Events Generator Gateway Allocator Wizard RandomFlow.

Open Scope Z_scope.

(** One step of a handler commits to the store: it leaves the store as
    it is, or saves the snapshot [g0] with one character put under the
    actor [uid]. *)
Definition commits `{SessionStore St} (ch uid : string) (g0 : Game) (s s' : St) : Prop :=
  s' = s \/ exists c t, s' = save_game s ch (put_character uid c t g0).

(** The abstract contract of a creation command over a whole run: the
    store is left as it was, or it holds the snapshot [g0] with one
    acceptable character ([ok]) put under the actor, saved in the
    channel's slot. *)
Definition create_spec `{SessionStore St} (ok : Character -> Prop) (ch uid : string) (g0 : Game)
    (s s' : St) : Prop :=
  s' = s \/ exists c t, ok c /\ s' = save_game s ch (put_character uid c t g0).

(** What the wizard may save: [Wizard.record_ok] for some forfeited
    points. *)
Definition wizard_ok (c : Character) : Prop := exists forfeited, record_ok c forfeited.

(** What [!random] may save: a generated character, its scores in
    [8, 17]. *)
Definition random_ok (c : Character) : Prop :=
  gen_shape c /\ forall a, exists v, ch_scores c a = Some v /\ 8 <= v <= 17.

(** A creation handler: the user it creates for, the channel whose game
    it saves, the snapshot of that game it read, and its step. *)
Class CreationHandler (St H : Type) `{SessionStore St} := {
  h_actor : H -> string;
  h_channel : H -> string;
  h_snapshot : H -> Game;
  h_step : St -> H -> Event -> St * H * list Out
}.

Class CreationHandlerLaws (St H : Type) `{CreationHandler St H} := {
  h_step_commits s h ev :
    commits (h_channel h) (h_actor h) (h_snapshot h) s (h_step s h ev).1.1;
  h_step_frame s h ev :
    h_actor (h_step s h ev).1.2 = h_actor h /\ h_channel (h_step s h ev).1.2 = h_channel h /\
    h_snapshot (h_step s h ev).1.2 = h_snapshot h
}.

#[export] Instance wizard_handler `{SessionStore St} : CreationHandler St WizardState := {
  h_actor := wz_actor;
  h_channel := wz_channel_id;
  h_snapshot := wz_game;
  h_step := wizard_step
}.

#[export] Instance random_handler `{SessionStore St} : CreationHandler St RandomState := {
  h_actor := rs_actor;
  h_channel := rs_channel_id;
  h_snapshot := rs_game;
  h_step := random_step
}.

(** Two handlers driven by one schedule: each entry hands an event to
    the first ([true]) or the second ([false]) handler. *)
Fixpoint run_pair `{SessionStore St} {H1 H2} `{!CreationHandler St H1} `{!CreationHandler St H2}
    (s : St) (h1 : H1) (h2 : H2) (sched : list (bool * Event)) : St * H1 * H2 :=
  match sched with
  | [] => (s, h1, h2)
  | (true, ev) :: rest => let '(s1, h1', _) := h_step s h1 ev in run_pair s1 h1' h2 rest
  | (false, ev) :: rest => let '(s1, h2', _) := h_step s h2 ev in run_pair s1 h1 h2' rest
  end.

(** The game of channel [ch] is the snapshot [g0], or the snapshot with
    one character put under [u1] or [u2]. *)
Definition last_writer `{SessionStore St} (ch : string) (g0 : Game) (u1 u2 : string) (s : St) : Prop :=
  get_game s ch = Some g0 \/
  exists u c t, (u = u1 \/ u = u2) /\ get_game s ch = Some (put_character u c t g0).

(** A character the views can show without [KeyError]: a race, a
    class, and six scores, none negative. *)
Definition char_wf (c : Character) : Prop :=
  is_Some (ch_race c) /\ is_Some (ch_class c) /\
  forall a, exists v, ch_scores c a = Some v /\ 0 <= v.

Definition game_wf (g : Game) : Prop := map_Forall (fun _ c => char_wf c) (g_characters g).

(** Every game of the store holds well-formed characters only. *)
Definition store_wf `{SessionStore St} (s : St) : Prop :=
  forall ch g, get_game s ch = Some g -> game_wf g.

(** A handler with an invariant [h_inv] under which each of its saves
    puts a character of the shape [h_ok], and [h_ok] characters are
    well-formed. *)
Class CheckedHandler (St H : Type) `{CreationHandler St H} := {
  h_inv : H -> Prop;
  h_ok : Character -> Prop;
  h_ok_wf c : h_ok c -> char_wf c;
  h_step_inv s h ev : h_inv h -> h_inv (h_step s h ev).1.2;
  h_step_checked s h ev : h_inv h ->
    (h_step s h ev).1.1 = s \/
    exists c t, h_ok c /\
      (h_step s h ev).1.1 = save_game s (h_channel h) (put_character (h_actor h) c t (h_snapshot h))
}.

(** ** The two handlers implement the interface *)

#[export] Instance wizard_handler_laws `{SessionStore St} : CreationHandlerLaws St WizardState.
Proof.
  split; intros s w ev; simpl; destruct (wizard_step s w ev) as [[s' w'] o] eqn:E; simpl.
  - destruct (wizard_step_store _ _ _ _ _ _ E) as [[-> _]|(_ & _ & ->)]; [by left|right; by eexists _, _].
  - destruct (wizard_step_frame _ _ _ _ _ _ E) as (-> & Ho & ->). unfold wz_channel_id. by rewrite Ho.
Qed.

#[export] Instance random_handler_laws `{SessionStore St} : CreationHandlerLaws St RandomState.
Proof.
  split; intros s st ev; simpl; destruct (random_step s st ev) as [[s' st'] o] eqn:E; simpl.
  - destruct (random_step_cases _ _ _ _ _ _ E) as [[-> _]|[[-> _]|[[-> _]|(_ & _ & ->)]]];
      [by left|by left|by left|right; by eexists _, _].
  - destruct (random_step_frame _ _ _ _ _ _ E) as (-> & Ho & -> & _). unfold rs_channel_id. by rewrite Ho.
Qed.

#[export] Program Instance wizard_checked `{SessionStore St} : CheckedHandler St WizardState := {
  h_inv := wiz_inv;
  h_ok := wizard_ok
}.
Next Obligation.
  intros St ? c (f & Hn & Hc & Hr & _ & Hs & _). split_and!; [done|done|].
  intros a. destruct (Hs a) as (v & Hv & Hb). exists v. split; [done|lia].
Qed.
Next Obligation.
  intros St ? s w ev Hinv. simpl. destruct (wizard_step s w ev) as [[s' w'] o] eqn:E.
  exact (wizard_step_inv _ _ _ _ _ _ Hinv E).
Qed.
Next Obligation.
  intros St ? s w ev Hinv. simpl. destruct (wizard_step s w ev) as [[s' w'] o] eqn:E. simpl.
  destruct (wizard_step_store _ _ _ _ _ _ E) as [[-> _]|(Hpc & _ & ->)]; [by left|right].
  exists (wz_data w), (ev_time ev). split; [|done].
  exists (al_remaining (wz_alloc w)). by apply wiz_inv_confirm.
Qed.

#[export] Program Instance random_checked `{SessionStore St} : CheckedHandler St RandomState := {
  h_inv := rs_inv;
  h_ok := random_ok
}.
Next Obligation.
  intros St ? c ((r & k & b & Hr & Hk & _) & Hs). split_and!; [by rewrite Hr|by rewrite Hk|].
  intros a. destruct (Hs a) as (v & Hv & Hb). exists v. split; [done|lia].
Qed.
Next Obligation.
  intros St ? s st ev Hinv. simpl. destruct (random_step s st ev) as [[s' st'] o] eqn:E.
  by apply (random_step_frame _ _ _ _ _ _ E).
Qed.
Next Obligation.
  intros St ? s st ev Hinv. simpl. destruct (random_step s st ev) as [[s' st'] o] eqn:E. simpl.
  destruct (random_step_cases _ _ _ _ _ _ E) as [[-> _]|[[-> _]|[[-> _]|(Hpc & _ & ->)]]];
    [by left|by left|by left|right].
  exists (rs_candidate st), (ev_time ev). split; [|done].
  unfold rs_inv in Hinv. rewrite Hpc in Hinv. split; [done|].
  by destruct (gen_shape_bounds _ Hinv) as (? & _ & Hb & _).
Qed.

(** ** Both handlers refine the abstract contract *)

(** C9: every run of the guided wizard, from a state satisfying its
    invariant and not already saved, refines [create_spec]: the store
    after the run is the store before, or the game read at command time
    with one record of [record_ok] shape put under the author, saved in
    the command's channel. *)
Theorem wizard_refines `{SessionStore St} (s : St) w evs :
  wiz_inv w -> wz_pc w <> PcDone Saved ->
  create_spec wizard_ok (wz_channel_id w) (wz_actor w) (wz_game w) s (wizard_run s w evs).1.1.
Proof.
  revert s w. induction evs as [|ev evs IH]; intros s w Hinv Hns; simpl; [by left|].
  destruct (wizard_step s w ev) as [[s1 w1] o1] eqn:Hst.
  destruct (wizard_run s1 w1 evs) as [[s2 w2] o2] eqn:Hr. simpl.
  destruct (wizard_step_frame _ _ _ _ _ _ Hst) as (Hact & Horig & Hgame).
  destruct (wizard_step_store _ _ _ _ _ _ Hst) as [[-> Hsame]|(Hpc & Hs1 & ->)].
  - destruct (decide (wz_pc w1 = PcDone Saved)) as [Hsv|Hsv].
    { exfalso. apply Hns. by rewrite <- (Hsame Hsv). }
    pose proof (IH s w1 (wizard_step_inv _ _ _ _ _ _ Hinv Hst) Hsv) as Hspec. rewrite Hr in Hspec.
    unfold wz_channel_id in *. by rewrite <- Hact, <- Horig, <- Hgame.
  - rewrite (wizard_run_done _ _ _ _ Hs1) in Hr. simplify_eq. right.
    exists (wz_data w), (ev_time ev). split; [|done].
    exists (al_remaining (wz_alloc w)). by apply wiz_inv_confirm.
Qed.

(** C10: every run of [!random] from its first state refines
    [create_spec]: the store after the run is the store before, or the
    game read at command time with one generated character (scores in
    [8, 17]) put under the author, saved in the command's channel. *)
Theorem random_refines `{SessionStore St} (s : St) now author origin tape st o0 evs :
  random_character true s now author origin tape = (Some st, o0) ->
  create_spec random_ok (chan_id origin) author (rs_game st) s (random_run s st evs).1.1.
Proof.
  intros Hinit. destruct (random_character_init _ _ _ _ _ _ _ Hinit) as (<- & <- & Hinv & Hns).
  clear Hinit. revert s st Hinv Hns. induction evs as [|ev evs IH]; intros s st Hinv Hns; simpl; [by left|].
  destruct (random_step s st ev) as [[s1 st1] o1] eqn:Hst.
  destruct (random_run s1 st1 evs) as [[s2 st2] o2] eqn:Hr. simpl.
  pose proof (random_step_frame _ _ _ _ _ _ Hst) as (Ha & Ho & Hg & Hi).
  destruct (random_step_cases _ _ _ _ _ _ Hst) as [[-> ->]|[[-> (r & -> & Hr')]|[[-> ->]|(Hpc & -> & ->)]]].
  1-3: pose proof (IH s _ (Hi Hinv)) as Hspec; rewrite Hr in Hspec; rewrite <- ?Ha, <- ?Ho, <- ?Hg; apply Hspec.
  - done.
  - simpl. congruence.
  - by rewrite (proj1 (proj2 (proj2 (proj2 (propose_frame _ _))))).
  - rewrite (random_run_done _ _ _ RSaved) in Hr by done. simplify_eq. right.
    exists (rs_candidate st), (ev_time ev). split; [|done].
    unfold rs_inv in Hinv. rewrite Hpc in Hinv. split; [done|].
    by destruct (gen_shape_bounds _ Hinv) as (? & _ & Hb & _).
Qed.

(** ** Any interleaving of two handlers *)

Section Interleaving.
Context `{SessionStoreLaws St} {H1 H2 : Type}.
Context `{!CreationHandler St H1, !CreationHandlerLaws St H1}.
Context `{!CreationHandler St H2, !CreationHandlerLaws St H2}.

(** A committing step of either handler keeps [last_writer]. *)
Lemma commits_last_writer ch g0 u1 u2 u s s' :
  u = u1 \/ u = u2 -> commits ch u g0 s s' -> last_writer ch g0 u1 u2 s -> last_writer ch g0 u1 u2 s'.
Proof.
  intros Hu [->|(c & t & ->)] Hs; [done|]. right. exists u, c, t. split; [done|]. apply get_save_eq.
Qed.

Lemma run_pair_last_writer s (h1 : H1) (h2 : H2) sched ch g0 :
  h_channel h1 = ch -> h_channel h2 = ch -> h_snapshot h1 = g0 -> h_snapshot h2 = g0 ->
  last_writer ch g0 (h_actor h1) (h_actor h2) s ->
  last_writer ch g0 (h_actor h1) (h_actor h2) (run_pair s h1 h2 sched).1.1.
Proof.
  revert s h1 h2. induction sched as [|[[] ev] rest IH]; intros s h1 h2 Hc1 Hc2 Hg1 Hg2 Hs; [done| |].
  - simpl. pose proof (h_step_commits s h1 ev) as Hcm. pose proof (h_step_frame s h1 ev) as (Ha & Hc & Hg).
    destruct (h_step s h1 ev) as [[s1 h1'] o]. simpl in *.
    assert (Hs1 : last_writer ch g0 (h_actor h1) (h_actor h2) s1).
    { subst. eapply (commits_last_writer _ _ _ _ (h_actor h1)); [by left|exact Hcm|done]. }
    rewrite <- Ha in Hs1 |- *. apply IH; [congruence|done|congruence|done|done].
  - simpl. pose proof (h_step_commits s h2 ev) as Hcm. pose proof (h_step_frame s h2 ev) as (Ha & Hc & Hg).
    destruct (h_step s h2 ev) as [[s1 h2'] o]. simpl in *.
    assert (Hs1 : last_writer ch g0 (h_actor h1) (h_actor h2) s1).
    { subst. rewrite Hc2, Hg2 in Hcm. eapply (commits_last_writer _ _ _ _ (h_actor h2)); [by right|exact Hcm|done]. }
    rewrite <- Ha in Hs1 |- *. apply IH; [done|congruence|done|congruence|done].
Qed.

(** C8: two creation handlers for different users on the same channel,
    started from the same game (each read it at its command), never both
    leave a character in the store, whatever the order of their events:
    each save writes the handler's own snapshot, so the later save erases
    the earlier one. If neither user had a character, at most one of
    them has one at the end. This is the lost update of section 5 of
    the spec, for the wizard, for [!random], and for one of each. *)
Theorem interleaving_lost_update s (h1 : H1) (h2 : H2) sched ch g0 g' :
  h_channel h1 = ch -> h_channel h2 = ch -> h_snapshot h1 = g0 -> h_snapshot h2 = g0 ->
  get_game s ch = Some g0 -> h_actor h1 <> h_actor h2 ->
  g_characters g0 !! h_actor h1 = None -> g_characters g0 !! h_actor h2 = None ->
  get_game (run_pair s h1 h2 sched).1.1 ch = Some g' ->
  g_characters g' !! h_actor h1 = None \/ g_characters g' !! h_actor h2 = None.
Proof.
  intros Hc1 Hc2 Hg1 Hg2 Hs Hne Hn1 Hn2 Hg'.
  destruct (run_pair_last_writer s h1 h2 sched ch g0 Hc1 Hc2 Hg1 Hg2 (or_introl Hs))
    as [Hg|(u & c & t & [->| ->] & Hg)]; rewrite Hg' in Hg; simplify_eq.
  - by left.
  - right. simpl. by rewrite lookup_insert_ne.
  - left. simpl. by rewrite lookup_insert_ne.
Qed.
End Interleaving.

(** ** Well-formed stores *)

Section WellFormed.
Context `{SessionStoreLaws St} {H1 H2 : Type}.
Context `{!CreationHandler St H1, !CreationHandlerLaws St H1, !CheckedHandler St H1}.
Context `{!CreationHandler St H2, !CreationHandlerLaws St H2, !CheckedHandler St H2}.

Lemma save_store_wf s ch g : store_wf s -> game_wf g -> store_wf (save_game s ch g).
Proof.
  intros Hs Hg ch' g'. destruct (decide (ch = ch')) as [<-|Hne].
  - rewrite get_save_eq. intros [= <-]. done.
  - rewrite get_save_ne by done. apply Hs.
Qed.

Lemma put_character_wf uid c t g : game_wf g -> char_wf c -> game_wf (put_character uid c t g).
Proof. intros Hg Hc. by apply map_Forall_insert_2. Qed.

(** One step of a checked handler keeps the store well-formed, when
    the handler's snapshot is. *)
Lemma checked_step_wf {HT} `{!CreationHandler St HT, !CheckedHandler St HT} s (h : HT) ev :
  h_inv h -> store_wf s -> game_wf (h_snapshot h) -> store_wf (h_step s h ev).1.1.
Proof.
  intros Hi Hs Hg. destruct (h_step_checked s h ev Hi) as [->|(c & t & Hok & ->)]; [done|].
  apply save_store_wf; [done|]. apply put_character_wf; [done|]. by apply h_ok_wf.
Qed.

(** C12: the store stays well-formed under any interleaving of two
    creation handlers (the wizard, [!random], or one of each). If every
    character in the store and in the handlers' snapshots has a race, a
    class and six non-negative scores, and both handlers satisfy their
    invariants, then so does every character in the store afterwards,
    whatever the order of the events. *)
Theorem interleaving_store_wf s (h1 : H1) (h2 : H2) sched :
  h_inv h1 -> h_inv h2 -> game_wf (h_snapshot h1) -> game_wf (h_snapshot h2) -> store_wf s ->
  store_wf (run_pair s h1 h2 sched).1.1.
Proof.
  revert s h1 h2. induction sched as [|[[] ev] rest IH]; intros s h1 h2 Hi1 Hi2 Hg1 Hg2 Hs; [done| |].
  - simpl. pose proof (checked_step_wf s h1 ev Hi1 Hs Hg1) as Hs1.
    pose proof (h_step_inv s h1 ev Hi1) as Hi1'. pose proof (h_step_frame s h1 ev) as (_ & _ & Hg).
    destruct (h_step s h1 ev) as [[s1 h1'] o]. simpl in *. apply IH; [done|done|by rewrite Hg|done|done].
  - simpl. pose proof (checked_step_wf s h2 ev Hi2 Hs Hg2) as Hs1.
    pose proof (h_step_inv s h2 ev Hi2) as Hi2'. pose proof (h_step_frame s h2 ev) as (_ & _ & Hg).
    destruct (h_step s h2 ev) as [[s1 h2'] o]. simpl in *. apply IH; [done|done|done|by rewrite Hg|done].
Qed.
End WellFormed.
