(* ===== verification/Reach.v ===== *)
(** * The reachable states of the guided wizard

    [wizard_reachable] is the step relation of the [!creation] handler
    closed under its rules. It starts at the state [character_creation]
    returns for a command on a well-formed store. Then it takes one
    [wizard_step] per event. A pair of a store and a wizard state is
    reachable when some sequence of events leads the handler there. The
    invariants of the handler are proved by rule induction over it: the
    wizard's own invariant [Wizard.wiz_inv] holds, and the store keeps
    only characters the views can show ([Session.store_wf]). *)

From Stdlib Require Import String ZArith Lia.
From stdpp Require Import base list gmap strings.
From S2P Require Import Prelude Data Store Events Gateway Allocator Wizard Views Session.

Open Scope Z_scope.

Section Reach.
Context `{SessionStoreLaws St}.

Inductive wizard_reachable : St -> WizardState -> Prop :=
| reach_start s now author origin w o :
    store_wf s -> character_creation true s now author origin = (Some w, o) ->
    wizard_reachable s w
| reach_step s w ev s' w' o :
    wizard_reachable s w -> wizard_step s w ev = (s', w', o) -> wizard_reachable s' w'.

(** The state the command starts from: its snapshot is the game of its
    channel, and it satisfies the invariant. *)
Lemma character_creation_start s now author origin w o :
  character_creation true s now author origin = (Some w, o) ->
  get_game s (wz_channel_id w) = Some (wz_game w) /\ wiz_inv w.
Proof.
  unfold character_creation. simpl. destruct (get_game s (chan_id origin)) as [g|] eqn:Hg; [|done].
  destruct (negb (is_player author g)); [done|]. destruct (has_character author g).
  - intros. simplify_eq. split; [done|exact I].
  - intros. simplify_eq. split; [done|]. intros a. done.
Qed.

(** Reachable states keep the invariant, a well-formed store, and the
    snapshot the command read from that store. *)
Lemma wizard_reachable_wf s w :
  wizard_reachable s w -> wiz_inv w /\ store_wf s /\ game_wf (wz_game w).
Proof.
  induction 1 as [s now author origin w o Hs Hc|s w ev s' w' o Hr (Hi & Hs & Hg) Hst].
  - destruct (character_creation_start _ _ _ _ _ _ Hc) as [Hg Hi]. split_and!; [done|done|].
    by apply (Hs (wz_channel_id w)).
  - pose proof (checked_step_wf s w ev Hi Hs Hg) as Hs'.
    simpl in Hs'. rewrite Hst in Hs'.
    destruct (wizard_step_frame _ _ _ _ _ _ Hst) as (_ & _ & Hgame).
    split_and!; [by eapply wizard_step_inv|done|by rewrite Hgame].
Qed.

Lemma wizard_run_reachable s w evs s' w' o :
  wizard_reachable s w -> wizard_run s w evs = (s', w', o) -> wizard_reachable s' w'.
Proof.
  revert s w o. induction evs as [|ev evs IH]; intros s w o Hr Hrun; simpl in Hrun; [by simplify_eq|].
  destruct (wizard_step s w ev) as [[s1 w1] o1] eqn:Hst.
  destruct (wizard_run s1 w1 evs) as [[s2 w2] o2] eqn:Hr2. simplify_eq.
  eapply IH; [|exact Hr2]. by eapply reach_step.
Qed.

(** C13: in every store the guided wizard reaches from a well-formed
    store, every character of every channel can be shown by
    [!view_character] in that channel: it has an image key, and the
    command sends its embed (and the copy to the out-of-character
    channel) instead of failing with [KeyError]. *)
Theorem wizard_reachable_viewable gc s w ch author uid g c :
  wizard_reachable s w -> get_game s ch = Some g -> g_characters g !! uid = Some c ->
  exists key, view_image_key c = Some key /\
    view_character gc true s (ChText ch) author (Some uid) =
      OutChannel (ChText ch) (NCharacterView c key) :: ooc_copy gc (ChText ch) g (NCharacterView c key).
Proof.
  intros Hr Hg Hc. destruct (wizard_reachable_wf s w Hr) as (_ & Hs & _).
  destruct (map_Forall_lookup_1 _ _ _ _ (Hs ch g Hg) Hc) as ([r Hrace] & [k Hclass] & _).
  exists (image_key (race_name r) (class_name k)).
  assert (Hk : view_image_key c = Some (image_key (race_name r) (class_name k)))
    by (unfold view_image_key; by rewrite Hrace, Hclass).
  split; [done|]. unfold view_character, lookup_game. simpl. by rewrite Hg, Hc, Hk.
Qed.
End Reach.
