(* ===== verification/Bot.v ===== *)
(** * The bot process: loading the cogs ([src/Emo.py])

    [on_ready] (lines 61-85) loads six extensions in a fixed order, each
    in its own [try]. Loading an extension adds its cog, and adding a
    cog runs its [cog_load]. [CharacterCreation.cog_load]
    (character_creation.py lines 153-156) and [NPCManager.cog_load]
    (npc_manager.py lines 13-19) look up the cogs they depend on
    ([bot.get_cog]) at that moment, once. So the order of
    [cogs_to_load] decides whether the handlers find their parents.
    The flags of [BotState] are the attributes those lookups set; the
    handlers' [loaded]/[ready] arguments are these flags.

    discord.py fires [on_ready] again after every reconnection. Line 66
    starts the [status_update] loop, and a loop that is already running
    refuses to start again with [RuntimeError]; so a later [on_ready]
    stops there, before the loading loop, and [on_error] (lines 34-37)
    prints the error. [on_ready_events] runs a sequence of them.

    Whether an extension loads ([ok]) is a parameter: its import and
    [setup] may raise. [status_update] (lines 51-59) is kept as the
    presence it sets. The Flask health check and the token are process
    I/O and are not modelled. *)

From Stdlib Require Import String ZArith.
From stdpp Require Import base list gmap strings.
From S2P Require Import Prelude Data Store Events Rand Wizard RandomFlow Npc.

Open Scope Z_scope.
Open Scope string_scope.

(** Lines 69-76. *)
Definition cogs_to_load : list string :=
  ["cogs.private_groups"; "cogs.gemini_chat"; "cogs.dnd_game"; "cogs.character_creation";
   "cogs.emo_narration"; "cogs.npc_manager"].

Record BotState := mkBot {
  bot_extensions : list string;   (* the extensions loaded so far, in order *)
  bot_cogs : list string;         (* [bot.cogs], by name, in the order added *)
  cc_parent : bool;               (* [CharacterCreation.parent_cog] is set *)
  npc_parent : bool;              (* [NPCManager.parent_cog] is set *)
  npc_cc : bool;                  (* [NPCManager.character_creation_cog] is set *)
  status_running : bool;          (* [status_update] was started (line 66) *)
  bot_presence : option string    (* the activity [status_update] set *)
}.

(** Line 31: the bot, before any extension. *)
Definition bot_init : BotState := mkBot [] [] false false false false None.

(** [bot.get_cog(name)] is not [None]. *)
Definition get_cog (name : string) (st : BotState) : bool := bool_decide (name ∈ bot_cogs st).

(** The cog registered under [name], after its [cog_load] ran. *)
Definition register_cog (name : string) (st : BotState) : BotState :=
  match st with mkBot exts cogs cc np nc sr pr => mkBot exts (cogs ++ [name]) cc np nc sr pr end.

(** [CharacterCreation.cog_load] (character_creation.py lines
    153-156); the warning it prints is not kept. *)
Definition cc_cog_load (st : BotState) : BotState :=
  match st with mkBot exts cogs _ np nc sr pr => mkBot exts cogs (get_cog "DnDGame" st) np nc sr pr end.

(** [NPCManager.cog_load] (npc_manager.py lines 13-19). *)
Definition npc_cog_load (st : BotState) : BotState :=
  match st with
  | mkBot exts cogs cc _ _ sr pr =>
      mkBot exts cogs cc (get_cog "DnDGame" st) (get_cog "CharacterCreation" st) sr pr
  end.

(** [setup] of character_creation.py (lines 735-736):
    [bot.add_cog(CharacterCreation(bot))]. The new cog's [parent_cog]
    is [None] until its [cog_load], which [add_cog] runs before it
    registers the cog. *)
Definition cc_setup (st : BotState) : BotState := register_cog "CharacterCreation" (cc_cog_load st).

(** [setup] of npc_manager.py (lines 227-228). *)
Definition npc_setup (st : BotState) : BotState := register_cog "NPCManager" (npc_cog_load st).

(** The [setup] of an extension. [cogs.dnd_game] is not under [src/]:
    its setup adds the cog [DnDGame] that the two [cog_load]s look up.
    The other three add cogs that nothing here looks up. *)
Definition extension_setup (ext : string) (st : BotState) : BotState :=
  if String.eqb ext "cogs.character_creation" then cc_setup st
  else if String.eqb ext "cogs.npc_manager" then npc_setup st
  else if String.eqb ext "cogs.dnd_game" then register_cog "DnDGame" st
  else st.

Definition record_extension (ext : string) (st : BotState) : BotState :=
  match st with mkBot exts cogs cc np nc sr pr => mkBot (exts ++ [ext]) cogs cc np nc sr pr end.

(** Lines 78-83: [await bot.load_extension(cog)]; a failure ([ok ext]
    false: the import or the [setup] raised) is printed and the loop
    goes on. An extension already loaded makes [load_extension] raise
    [ExtensionAlreadyLoaded], which is caught the same way. *)
Definition load_extension (ok : string -> bool) (st : BotState) (ext : string) : BotState :=
  if bool_decide (ext ∈ bot_extensions st) then st
  else if ok ext then record_extension ext (extension_setup ext st)
  else st.

(** Lines 34-37: the line [on_error] prints. *)
Definition on_error (event error_type error_value : string) : string :=
  "Error in " ++ event ++ ": " ++ error_type ++ ": " ++ error_value.

(** What [on_error] prints for the [RuntimeError] of
    [status_update.start()] on a loop that runs. *)
Definition reconnect_error : string :=
  on_error "on_ready" "RuntimeError" "Task is already launched and is not completed.".

(** Line 66: [status_update.start()]. *)
Definition start_status (st : BotState) : BotState :=
  match st with mkBot exts cogs cc np nc _ pr => mkBot exts cogs cc np nc true pr end.

(** Lines 52-59: one run of [status_update], every 5 minutes while the
    loop runs. [ok] is whether [change_presence] succeeds; its exception
    is printed. *)
Definition status_update (ok : bool) (st : BotState) : BotState :=
  if status_running st && ok then
    match st with mkBot exts cogs cc np nc sr _ => mkBot exts cogs cc np nc sr (Some "!list for help") end
  else st.

(** Lines 61-85: one [on_ready] event, with the line [on_error]
    prints, if any. *)
Definition on_ready (ok : string -> bool) (st : BotState) : BotState * option string :=
  if status_running st then (st, Some reconnect_error)
  else (fold_left (load_extension ok) cogs_to_load (start_status st), None).

(** Line 92: [bot.run(TOKEN)], up to the first [on_ready]. *)
Definition startup (ok : string -> bool) : BotState := fst (on_ready ok bot_init).

(** [n] [on_ready] events in a row, with what [on_error] reports for
    each. *)
Fixpoint on_ready_events (ok : string -> bool) (n : nat) (st : BotState) : BotState * list (option string) :=
  match n with
  | O => (st, [])
  | S n' =>
      let '(st1, e) := on_ready ok st in
      let '(st2, es) := on_ready_events ok n' st1 in
      (st2, e :: es)
  end.

(** [not self.parent_cog or not self.character_creation_cog] of
    [create_npc] is [negb (npc_ready st)]. *)
Definition npc_ready (st : BotState) : bool := npc_parent st && npc_cc st.

(** An outcome of the six loads, as a table: [ok_table b1 ... b6] loads
    the [i]-th extension of [cogs_to_load] when [bi] holds. *)
Definition ok_table (b1 b2 b3 b4 b5 b6 : bool) (e : string) : bool :=
  if String.eqb e "cogs.private_groups" then b1
  else if String.eqb e "cogs.gemini_chat" then b2
  else if String.eqb e "cogs.dnd_game" then b3
  else if String.eqb e "cogs.character_creation" then b4
  else if String.eqb e "cogs.emo_narration" then b5
  else b6.

(** ** Theorems *)

(** Loading an extension does not touch the status task. *)
Lemma load_extension_status ok st ext : status_running (load_extension ok st ext) = status_running st.
Proof.
  unfold load_extension. destruct (bool_decide _); [done|]. destruct (ok ext); [|done].
  destruct st. unfold record_extension, extension_setup, cc_setup, npc_setup, register_cog, cc_cog_load, npc_cog_load.
  destruct (String.eqb ext "cogs.character_creation"), (String.eqb ext "cogs.npc_manager"),
    (String.eqb ext "cogs.dnd_game"); reflexivity.
Qed.

Lemma fold_load_status ok l st :
  status_running (fold_left (load_extension ok) l st) = status_running st.
Proof.
  revert st. induction l as [|e l IH]; intros st; [reflexivity|]. cbn [fold_left].
  rewrite IH. apply load_extension_status.
Qed.

(** Only the outcome of the six loads matters. *)
Lemma fold_load_ext ok1 ok2 l st :
  (forall e, e ∈ l -> ok1 e = ok2 e) ->
  fold_left (load_extension ok1) l st = fold_left (load_extension ok2) l st.
Proof.
  revert st. induction l as [|e l IH]; intros st Hok; [reflexivity|]. cbn [fold_left].
  assert (Hst : load_extension ok1 st e = load_extension ok2 st e).
  { unfold load_extension. by rewrite (Hok e) by apply list_elem_of_here. }
  rewrite Hst. apply IH. intros e' He'. apply Hok. by apply list_elem_of_further.
Qed.

Lemma startup_table ok :
  startup ok = startup (ok_table (ok "cogs.private_groups") (ok "cogs.gemini_chat") (ok "cogs.dnd_game")
                          (ok "cogs.character_creation") (ok "cogs.emo_narration") (ok "cogs.npc_manager")).
Proof.
  unfold startup, on_ready. cbn [status_running bot_init fst]. apply fold_load_ext.
  intros e He. unfold cogs_to_load in He.
  repeat (apply elem_of_cons in He as [->|He]; [reflexivity|]). by apply elem_of_nil in He.
Qed.

(** After the first [on_ready] the status task runs. *)
Lemma startup_status ok : status_running (startup ok) = true.
Proof.
  unfold startup, on_ready. cbn [status_running bot_init fst]. rewrite fold_load_status. reflexivity.
Qed.

(** C31: with the code's order of [cogs_to_load] ([cogs.dnd_game] before
    [cogs.character_creation] before [cogs.npc_manager]), every cog
    finds the cogs it depends on exactly when they loaded:
    [CharacterCreation.parent_cog] is set iff both it and DnDGame
    loaded; the NPC manager's two references are set iff it and the
    cog referred to loaded. *)
Theorem on_ready_flags ok :
  let st := startup ok in
  cc_parent st = ok "cogs.dnd_game" && ok "cogs.character_creation" /\
  npc_parent st = ok "cogs.dnd_game" && ok "cogs.npc_manager" /\
  npc_cc st = ok "cogs.character_creation" && ok "cogs.npc_manager".
Proof.
  rewrite startup_table.
  destruct (ok "cogs.private_groups"), (ok "cogs.gemini_chat"), (ok "cogs.dnd_game"),
    (ok "cogs.character_creation"), (ok "cogs.emo_narration"), (ok "cogs.npc_manager");
    vm_compute; repeat split.
Qed.

(** C32: when the DnDGame extension fails to load, the creation and NPC
    commands all answer "Error: ... not currently available" and
    change nothing. *)
Theorem dnd_missing_unavailable `{SessionStore St} ok (s : St) now author origin tape npc_name n :
  ok "cogs.dnd_game" = false ->
  let st := startup ok in
  character_creation (cc_parent st) s now author origin = (None, [OutChannel origin NUnavailable]) /\
  random_character (cc_parent st) s now author origin tape = (None, [OutChannel origin NUnavailable]) /\
  create_npc (npc_ready st) s now author origin npc_name tape = (s, [OutChannel origin NUnavailable]) /\
  remove_npc (npc_parent st) s now author origin n = (s, [OutChannel origin NUnavailable]).
Proof.
  intros Hd st. subst st. rewrite startup_table, Hd. unfold npc_ready.
  destruct (ok "cogs.private_groups"), (ok "cogs.gemini_chat"), (ok "cogs.character_creation"),
    (ok "cogs.emo_narration"), (ok "cogs.npc_manager"); vm_compute; repeat split.
Qed.

(** C35: discord.py fires [on_ready] again after each reconnection. Only
    the first one loads the extensions: every later one raises
    [RuntimeError] at [status_update.start()] (line 66), which [on_error]
    prints, and leaves the bot as the first one left it. *)
Theorem on_ready_reconnect ok n :
  on_ready_events ok (S n) bot_init = (startup ok, None :: repeat (Some reconnect_error) n).
Proof.
  assert (Hrest : forall m, on_ready_events ok m (startup ok) = (startup ok, repeat (Some reconnect_error) m)).
  { induction m as [|m IH]; [done|]. cbn [on_ready_events].
    unfold on_ready at 1. rewrite startup_status, IH. done. }
  cbn [on_ready_events]. fold (startup ok).
  replace (on_ready ok bot_init) with (startup ok, @None string) by done.
  by rewrite Hrest.
Qed.

(** After startup, the two cogs of [src/] are in [bot.cogs] exactly when
    their extensions loaded. *)
Lemma startup_cogs ok :
  get_cog "CharacterCreation" (startup ok) = ok "cogs.character_creation" /\
  get_cog "NPCManager" (startup ok) = ok "cogs.npc_manager".
Proof.
  rewrite startup_table.
  destruct (ok "cogs.private_groups"), (ok "cogs.gemini_chat"), (ok "cogs.dnd_game"),
    (ok "cogs.character_creation"), (ok "cogs.emo_narration"), (ok "cogs.npc_manager");
    vm_compute; split; reflexivity.
Qed.
