(* ===== verification/Commands.v ===== *)
(** * Command dispatch: from a message to the cogs' handlers

    [src/Emo.py] makes the bot with [command_prefix='!'] (line 31). The
    commands of a cog exist only while the cog is in [bot.cogs]; the
    bot's own command is [!test] (lines 87-89). discord.py reads a
    message that starts with the prefix as the command's name, up to the
    first whitespace, and the rest as its arguments:
    - a keyword-only argument ([*, npc_name]) takes the rest, stripped;
      when nothing is left it takes its default, or raises
      [MissingRequiredArgument] when it has none;
    - a [discord.Member] argument takes the next word and converts it,
      raising [MemberNotFound] when no member matches.
    An unknown name raises [CommandNotFound]. Every exception goes to
    [on_command_error] ([Events.v]), which drops [CommandNotFound]
    silently.

    The guild's member lookup ([find_member]) and [bot.get_channel] are
    parameters. A quoted argument (["a b"]) is read here as its first
    word: quoting is not modelled. *)

From Stdlib Require Import Ascii String ZArith.
From stdpp Require Import base list strings.
From S2P Require Import Prelude PyStr Data Store Events Rand Wizard RandomFlow Npc Views Bot.

Open Scope Z_scope.
Open Scope string_scope.

(** discord.py's [StringView.get_word]: the characters up to the first
    whitespace, and what follows. *)
Fixpoint split_word (l : list ascii) : list ascii * list ascii :=
  match l with
  | [] => ([], [])
  | c :: r => if py_isspace c then ([], l) else let '(w, rest) := split_word r in (c :: w, rest)
  end.

(** A message [!name args]: the name, and the argument text with its
    whitespace stripped. [None]: not a command. *)
Definition parse_command (content : string) : option (string * string) :=
  match list_ascii_of_string content with
  | c :: rest =>
      if Ascii.eqb c "!"%char then
        let '(w, r) := split_word rest in Some (string_of_list_ascii w, py_strip (string_of_list_ascii r))
      else None
  | [] => None
  end.

(** The first word of the argument text. *)
Definition first_word (args : string) : string :=
  string_of_list_ascii (fst (split_word (list_ascii_of_string args))).

(** The cog whose commands the name belongs to; [!test] is the bot's. *)
Definition command_cog (name : string) : option string :=
  if existsb (String.eqb name) ["creation"; "view_character"; "list_characters"; "random"]
  then Some "CharacterCreation"
  else if existsb (String.eqb name) ["create_npc"; "list_npcs"; "npc_detail"; "remove_npc"]
  then Some "NPCManager"
  else None.

(** [bot.get_command(name)] is not [None]. *)
Definition command_found (bs : BotState) (name : string) : bool :=
  String.eqb name "test" || match command_cog name with Some c => get_cog c bs | None => false end.

(** Lines 87-89: [!test]. *)
Definition test_command (origin : Chan) : list Out := [OutChannel origin NTestWorks].

(** A handler started by a command, which goes on as its own task. *)
Inductive Task :=
| TaskWizard (w : WizardState)
| TaskRandom (st : RandomState).

(** The keyword-only argument [npc_name]: the stripped rest, [None]
    when nothing is left. *)
Definition npc_name_arg (args : string) : option string := if py_truthy args then Some args else None.

(** [npc_detail] and [remove_npc] give [npc_name] no default. *)
Definition missing_npc_name (origin : Chan) : list Out :=
  on_command_error origin (ErrMissingArgument "npc_name").

(** The invocation of the command [name] found in [bs], with the cog
    flags that the cogs' [cog_load] set. *)
Definition invoke `{SessionStore St} (bs : BotState) (get_channel : Z -> option Chan)
    (find_member : string -> option string) (s : St) (now : Z) (author : string) (origin : Chan)
    (tape : Tape) (name args : string) : St * option Task * list Out :=
  if String.eqb name "creation" then
    let '(w, o) := character_creation (cc_parent bs) s now author origin in (s, option_map TaskWizard w, o)
  else if String.eqb name "random" then
    let '(st, o) := random_character (cc_parent bs) s now author origin tape in (s, option_map TaskRandom st, o)
  else if String.eqb name "view_character" then
    if py_truthy args then
      match find_member (first_word args) with
      | Some uid => (s, None, view_character get_channel (cc_parent bs) s origin author (Some uid))
      | None => (s, None, on_command_error origin ErrMemberNotFound)
      end
    else (s, None, view_character get_channel (cc_parent bs) s origin author None)
  else if String.eqb name "list_characters" then
    (s, None, list_characters get_channel (cc_parent bs) s origin)
  else if String.eqb name "create_npc" then
    let '(s', o) := create_npc (npc_ready bs) s now author origin (npc_name_arg args) tape in (s', None, o)
  else if String.eqb name "list_npcs" then (s, None, list_npcs (npc_parent bs) s origin)
  else if String.eqb name "npc_detail" then
    match npc_name_arg args with
    | Some n => (s, None, npc_detail (npc_parent bs) (npc_cc bs) s origin n)
    | None => (s, None, missing_npc_name origin)
    end
  else if String.eqb name "remove_npc" then
    match npc_name_arg args with
    | Some n => let '(s', o) := remove_npc (npc_parent bs) s now author origin n in (s', None, o)
    | None => (s, None, missing_npc_name origin)
    end
  else (s, None, test_command origin).

(** A message in a channel the bot reads: [bot.process_commands]. An
    empty name after the prefix invokes nothing. *)
Definition on_command_message `{SessionStore St} (bs : BotState) (get_channel : Z -> option Chan)
    (find_member : string -> option string) (s : St) (now : Z) (author : string) (origin : Chan)
    (tape : Tape) (content : string) : St * option Task * list Out :=
  match parse_command content with
  | None => (s, None, [])
  | Some (name, args) =>
      if negb (py_truthy name) then (s, None, [])
      else if command_found bs name then invoke bs get_channel find_member s now author origin tape name args
      else (s, None, on_command_error origin ErrCommandNotFound)
  end.

(** ** Theorems *)

Lemma split_word_space l : Forall (fun c => py_isspace c = true) l -> split_word l = ([], l).
Proof. intros [|c l' Hc _]; simpl; [done|]. by rewrite Hc. Qed.

Lemma split_word_app w r :
  Forall (fun c => py_isspace c = false) w -> split_word r = ([], r) -> split_word (w ++ r) = (w, r).
Proof.
  intros Hw Hr. induction Hw as [|c w Hc _ IH]; [exact Hr|]. simpl. by rewrite Hc, IH.
Qed.

(** [!name args] with a name without whitespace, and arguments that are
    empty or start with whitespace. *)
Lemma parse_command_name name args :
  Forall (fun c => py_isspace c = false) (list_ascii_of_string name) ->
  split_word (list_ascii_of_string args) = ([], list_ascii_of_string args) ->
  parse_command ("!" ++ name ++ args) = Some (name, py_strip args).
Proof.
  intros Hn Ha. unfold parse_command. change ("!" ++ name ++ args) with (String "!" (name ++ args)).
  cbn [list_ascii_of_string]. rewrite list_ascii_of_string_app, (split_word_app _ _ Hn Ha).
  cbv beta iota. by rewrite !string_of_list_ascii_of_string.
Qed.

(** C33: when the [cogs.character_creation] extension did not load,
    [!creation], [!random], [!view_character] and [!list_characters],
    with any arguments, are unknown commands: [on_command_error] drops
    [CommandNotFound] without a word, and the store is unchanged. (When
    only [DnDGame] is missing, the same commands answer "not available",
    [Bot.dnd_missing_unavailable].) *)
Theorem unloaded_cog_commands_silent `{SessionStore St} ok gc fm (s : St) now author origin tape name args :
  ok "cogs.character_creation" = false ->
  name ∈ ["creation"; "random"; "view_character"; "list_characters"] ->
  on_command_message (startup ok) gc fm s now author origin tape ("!" ++ name ++ " " ++ args) = (s, None, []).
Proof.
  intros Hok Hin. destruct (startup_cogs ok) as [Hcc _].
  repeat (apply elem_of_cons in Hin as [->|Hin]); [..|by apply elem_of_nil in Hin].
  all: unfold on_command_message; rewrite parse_command_name by (by repeat constructor || reflexivity).
  all: unfold command_found; cbn -[startup get_cog]; by rewrite Hcc, Hok.
Qed.

(** C34: [!npc_detail] and [!remove_npc] without a name (nothing but
    whitespace after the command) raise [MissingRequiredArgument]: the
    bot answers "Missing required argument: npc_name" and the store is
    unchanged. [!create_npc] without a name is not an error: its
    [npc_name] defaults to [None], and the NPC gets a generated name. *)
Theorem npc_name_required `{SessionStore St} bs gc fm (s : St) now author origin tape args :
  get_cog "NPCManager" bs = true -> py_strip args = EmptyString ->
  on_command_message bs gc fm s now author origin tape ("!npc_detail" ++ args) =
    (s, None, [OutChannel origin (NMissingArgument "npc_name")]) /\
  on_command_message bs gc fm s now author origin tape ("!remove_npc" ++ args) =
    (s, None, [OutChannel origin (NMissingArgument "npc_name")]) /\
  on_command_message bs gc fm s now author origin tape ("!create_npc" ++ args) =
    let '(s', o) := create_npc (npc_ready bs) s now author origin None tape in (s', None, o).
Proof.
  intros Hcog Hblank.
  pose proof (split_word_space _ (proj1 (py_strip_empty args) Hblank)) as Hsplit.
  change ("!npc_detail" ++ args) with ("!" ++ "npc_detail" ++ args).
  change ("!remove_npc" ++ args) with ("!" ++ "remove_npc" ++ args).
  change ("!create_npc" ++ args) with ("!" ++ "create_npc" ++ args).
  unfold on_command_message. rewrite !parse_command_name by (exact Hsplit || by repeat constructor).
  unfold command_found, invoke, npc_name_arg. rewrite Hblank. cbn -[get_cog]. rewrite Hcog.
  split_and!; reflexivity.
Qed.
