(* ===== verification/Process.v ===== *)
(** * The bot process: environment, health check, start, and one message

    [src/Emo.py] lines 9-31 and 91-92. The process reads two variables of
    its environment: [PORT] for the Flask health check, run in a daemon
    thread (lines 9-21), and [DISCORD_TOKEN] for [bot.run] (lines 23-25,
    92). The bot is made with the [message_content] and [members]
    intents (lines 27-31).

    Once the bot runs, the gateway delivers each message to every
    pending [bot.wait_for] whose check accepts it and to [on_message],
    whose default runs [process_commands]. [deliver_message] does both
    for a message that arrives while a wizard of [Wizard.v] waits:
    the same DM is a reply to the wizard and a command to the
    dispatcher of [Commands.v].

    The environment is an association list, as [os.environ] is a
    mapping; serving HTTP and logging in to Discord are I/O, and whether
    Discord accepts the token is a parameter. *)

From Stdlib Require Import String ZArith Lia.
From stdpp Require Import base list strings.
From S2P Require Import Prelude PyStr Data Store Events Rand Wizard RandomFlow Npc Views Bot Commands.

Open Scope Z_scope.
Open Scope string_scope.

(** [os.environ], as its (name, value) pairs. *)
Definition Env := list (string * string).

(** [os.environ.get(key)]. *)
Fixpoint env_get (env : Env) (key : string) : option string :=
  match env with
  | [] => None
  | (k, v) :: env' => if String.eqb k key then Some v else env_get env' key
  end.

(** Lines 12-14: the health-check route [/]. *)
Definition flask_home : string := "Bot is online and healthy!".

(** Lines 16-18: [port = int(os.environ.get('PORT', 10000))]. The
    default is the int [10000]; a value is parsed by [int()]. [None]:
    [int()] raises [ValueError], which ends the Flask thread; the thread
    is a daemon, so the bot goes on without its health check. *)
Definition flask_port (env : Env) : option Z :=
  match env_get env "PORT" with
  | None => Some 10000
  | Some v => py_int v
  end.

(** Line 25: [TOKEN = os.getenv('DISCORD_TOKEN')]. *)
Definition discord_token (env : Env) : option string := env_get env "DISCORD_TOKEN".

(** Lines 28-30. *)
Record Intents := mkIntents { intent_message_content : bool; intent_members : bool }.

Definition bot_intents : Intents := mkIntents true true.

(** What the bot sees of a message: without the [message_content]
    intent, the content of a guild message is empty; DMs keep theirs. *)
Definition message_seen (i : Intents) (m : Message) : Message :=
  if intent_message_content i || is_dm (msg_channel m) then m
  else mkMessage (msg_author m) (msg_channel m) EmptyString.

(** Line 92: [bot.run(TOKEN)]. Without a token ([None]: [login] fails
    on [None]) or with a token Discord refuses ([LoginFailure]), the
    process ends before any [on_ready]; otherwise the first [on_ready]
    runs. *)
Definition bot_run (env : Env) (login_ok : string -> bool) (ok : string -> bool) : option BotState :=
  match discord_token env with
  | Some token => if login_ok token then Some (startup ok) else None
  | None => None
  end.

(** A message delivered while the wizard [w] waits: the handler's
    [wait_for] sees it, and so does [process_commands]. *)
Definition deliver_message `{SessionStore St} (bs : BotState) (get_channel : Z -> option Chan)
    (find_member : string -> option string) (s : St) (w : WizardState) (t : Z) (m : Message) (tape : Tape)
    : St * WizardState * option Task * list Out :=
  let m' := message_seen bot_intents m in
  let '(s1, w1, o1) := wizard_step s w (EvMessage t m') in
  let '(s2, task, o2) := on_command_message bs get_channel find_member s1 t (msg_author m') (msg_channel m')
                           tape (msg_content m') in
  (s2, w1, task, (o1 ++ o2)%list).

(** ** Theorems *)

(** C28: a user who types [!cancel] at the wizard's name prompt, in the
    DMs, in time, does not cancel. The wizard's test is
    [content.lower() == "cancel"], so it takes [!cancel] as the
    character's name and sends the class menu; the dispatcher reads the
    command [cancel], which no cog has, and [on_command_error] drops
    [CommandNotFound] without a word. The store is unchanged. *)
Theorem bang_cancel_becomes_name `{SessionStore St} bs gc fm (s : St) w t tape :
  wz_pc w = PcName -> t < wz_deadline w ->
  deliver_message bs gc fm s w t (mkMessage (wz_actor w) (ChDM (wz_actor w)) "!cancel") tape =
    (s, goto PcClass (t + 60) (set_name "!cancel" (wz_data w)) (wz_alloc w) w, None, [dm w NClassMenu]).
Proof.
  intros Hpc Ht. unfold deliver_message, message_seen. cbn [bot_intents intent_message_content orb].
  unfold wizard_step. rewrite Hpc.
  replace ((wz_deadline w <=? ev_time _)%Z) with false by (symmetry; apply Z.leb_gt; simpl; lia).
  unfold on_message. rewrite Hpc. unfold check_response, is_cancel. cbn [msg_author msg_channel msg_content is_dm].
  rewrite String.eqb_refl. cbn -[goto set_name wz_alloc wz_data]. reflexivity.
Qed.
