(* ===== verification/Scenarios.v ===== *)
(** * The spec's scenarios, run on the models

    A session store with one game in channel ["c1"], players ["A"] and
    ["B"], and game master ["G"]. The runs below replay section 8 of the
    spec on the wizard, run [!random] and the NPC commands on that store,
    and apply the general theorems of the other files to concrete states
    (each [_witness] lemma). *)

From Stdlib Require Import String ZArith Lia Permutation.
From stdpp Require Import base list gmap strings.
From S2P Require Import Prelude PyStr Data Store Events Rand Generator Gateway Allocator Wizard Dropdown RandomFlow Liveness Npc Views Session Reach Bot Commands Process.

Open Scope Z_scope.
Open Scope string_scope.

(** ** Data *)

Definition demo_game : Game := mkGame ["A"; "B"] "G" "G" ∅ [] 0 None.
Definition demo_store : gmap string Game := {[ "c1" := demo_game ]}.
Definition demo_channel : Chan := ChText "c1".

(** A DM from user [u] at time [t]. *)
Definition dm_from (u : string) (t : Z) (content : string) : Event :=
  EvMessage t (mkMessage u (ChDM u) content).

(** The wizard of [u] started at time [now], or a finished one if the
    command was refused. *)
Definition start_wizard (s : gmap string Game) (now : Z) (u : string) : WizardState :=
  match character_creation true s now u demo_channel with
  | (Some w, _) => w
  | (None, _) => mkWizard u demo_channel demo_game (empty_character now) alloc_init now (PcDone Cancelled)
  end.

(** A full dialogue of user [u] from time [t0]: name, class, race,
    backstory, alignment, then the point replies, then [last]. *)
Definition dialogue (u : string) (t0 : Z) (points : list string) (last : string) : list Event :=
  [dm_from u (t0 + 1) "Thorin"; EvSelect (t0 + 2) "Fighter"; EvSelect (t0 + 3) "Dwarf";
   dm_from u (t0 + 4) "Raised in the hills"; dm_from u (t0 + 5) "Lawful Good"]
  ++ imap (fun i p => dm_from u (t0 + 6 + Z.of_nat i) p) points
  ++ [dm_from u (t0 + 20) last].

Definition is_ready_notice (o : Out) : bool :=
  match notice_of o with NAllReady => true | _ => false end.

Definition count_ready (os : list Out) : nat := length (List.filter is_ready_notice os).

(** The run of user [u]'s dialogue on store [s]. *)
Definition run_dialogue (s : gmap string Game) (now : Z) (u : string) (points : list string) (last : string) :=
  wizard_run s (start_wizard s now u) (dialogue u now points last).

(** The random draws of the [!random] runs below. *)
Definition demo_tape : Tape := [3; 5; 7; 11; 13; 17; 19; 23; 29; 31; 37; 41; 43; 47; 53; 59; 61; 67]%nat.

(** The [!random] command of [u] at time [now], or a finished one if the
    command was refused. *)
Definition start_random (s : gmap string Game) (now : Z) (u : string) : RandomState :=
  match random_character true s now u demo_channel demo_tape with
  | (Some st, _) => st
  | (None, _) => mkRandom u demo_channel demo_game demo_tape (empty_character now) now (RDone RCancelled)
  end.

(** The wizard of A at the final confirmation, after 7, 7, 4. *)
Definition demo_confirm : WizardState :=
  (wizard_run demo_store (start_wizard demo_store 0 "A")
     (take 8 (dialogue "A" 0 ["7"; "7"; "4"] "yes"))).1.2.

(** The wizard of A at the Strength prompt. *)
Definition demo_points : WizardState :=
  (wizard_run demo_store (start_wizard demo_store 0 "A")
     (take 5 (dialogue "A" 0 [] "yes"))).1.2.

(** ** Section 8 of the spec *)

(** The wizard of A at the Constitution prompt, after 7 and 7: four
    points are left. *)
Definition demo_con : WizardState :=
  (wizard_run demo_store (start_wizard demo_store 0 "A")
     (take 7 (dialogue "A" 0 ["7"; "7"; "4"] "yes"))).1.2.

(** The spec's allocation scenario "replies 7, 7, 4, 0, 0, 0 yield 17,
    17, 14, 10, 10, 10": after 7, 7, 4 the pool is empty, and the next
    reply, "0", answers the final question and cancels. *)
Lemma points_exhausted_then_reply_cancels_witness :
  let u := wz_actor demo_con in
  let '(s', w', o) := wizard_run demo_store demo_con [EvMessage 8 (mkMessage u (ChDM u) "4");
                                                      EvMessage (8 + 1) (mkMessage u (ChDM u) "0")] in
  s' = demo_store /\ wz_pc w' = PcDone Cancelled /\
  (forall b, b ∈ [Intelligence; Wisdom; Charisma] -> ch_scores (wz_data w') b = Some 10) /\
  Forall (fun x => match notice_of x with NAbilityPrompt _ _ => False | _ => True end) o.
Proof.
  apply (points_exhausted_then_reply_cancels demo_store demo_con Constitution [Intelligence; Wisdom; Charisma] 8 "4" "0").
  - vm_compute. reflexivity.
  - vm_compute. reflexivity.
  - vm_compute. discriminate.
  - vm_compute. reflexivity.
  - vm_compute. split; discriminate.
  - vm_compute. discriminate.
Defined.

(** With the confirmation given right after 7, 7, 4, the saved scores
    are 17, 17, 14, 10, 10, 10 and no point is left. *)
Example spec_points_scenario_saved :
  let '(s', w', o) := run_dialogue demo_store 0 "A" ["7"; "7"; "4"] "yes" in
  wz_pc w' = PcDone Saved /\ al_remaining (wz_alloc w') = 0 /\
  option_map (fun g => option_map (fun c => map (ch_scores c) ability_scores) (g_characters g !! "A"))
    (s' !! "c1") = Some (Some [Some 17; Some 17; Some 14; Some 10; Some 10; Some 10]).
Proof. vm_compute. repeat split. Qed.

(** The spec's readiness scenario. With players A and B, A completes
    a character: one character for two players, no "everyone is ready"
    notice. B then completes one: two for two, and the notice is sent
    exactly once. *)
Theorem spec_ready_scenario :
  let '(s1, _, o1) := run_dialogue demo_store 0 "A" ["7"; "7"; "4"] "yes" in
  let '(s2, _, o2) := run_dialogue s1 100 "B" ["6"; "6"; "6"] "yes" in
  count_ready o1 = 0%nat /\ count_ready o2 = 1%nat /\
  option_map (fun g => size (g_characters g)) (s2 !! "c1") = Some 2%nat.
Proof. vm_compute. repeat split. Qed.

(** ** The general theorems at concrete states *)

Lemma wizard_step_store_witness :
  let r := wizard_step demo_store demo_confirm (dm_from "A" 20 "yes") in
  (r.1.1 = demo_store /\ (wz_pc r.1.2 = PcDone Saved -> r.1.2 = demo_confirm)) \/
  (wz_pc demo_confirm = PcConfirm /\ wz_pc r.1.2 = PcDone Saved /\
   r.1.1 = save_game demo_store (wz_channel_id demo_confirm)
             (put_character (wz_actor demo_confirm) (wz_data demo_confirm)
                (ev_time (dm_from "A" 20 "yes")) (wz_game demo_confirm))).
Proof.
  intros r. apply (wizard_step_store demo_store demo_confirm _ r.1.1 r.1.2 r.2).
  vm_compute. reflexivity.
Defined.

Lemma wizard_run_unsaved_store_witness :
  (run_dialogue demo_store 0 "A" ["7"; "7"; "4"] "0").1.1 = demo_store.
Proof.
  apply (wizard_run_unsaved_store demo_store (start_wizard demo_store 0 "A")
           (dialogue "A" 0 ["7"; "7"; "4"] "0") _
           (run_dialogue demo_store 0 "A" ["7"; "7"; "4"] "0").1.2
           (run_dialogue demo_store 0 "A" ["7"; "7"; "4"] "0").2).
  - vm_compute. reflexivity.
  - vm_compute. discriminate.
Defined.

Lemma wizard_run_saved_record_witness :
  exists g c forfeited,
    get_game (run_dialogue demo_store 0 "A" ["7"; "7"; "4"] "yes").1.1
      (wz_channel_id (start_wizard demo_store 0 "A")) = Some g /\
    g_characters g !! wz_actor (start_wizard demo_store 0 "A") = Some c /\ record_ok c forfeited.
Proof.
  apply (wizard_run_saved_record demo_store (start_wizard demo_store 0 "A")
           (dialogue "A" 0 ["7"; "7"; "4"] "yes") _
           (run_dialogue demo_store 0 "A" ["7"; "7"; "4"] "yes").1.2
           (run_dialogue demo_store 0 "A" ["7"; "7"; "4"] "yes").2).
  - vm_compute. intros a. reflexivity.
  - vm_compute. discriminate.
  - vm_compute. reflexivity.
  - vm_compute. reflexivity.
Defined.

Lemma wizard_points_retry_witness :
  exists err,
    wizard_step demo_store demo_points (EvMessage 6 (mkMessage "A" (ChDM "A") "eight")) =
      (demo_store, goto (PcPoints Strength [Dexterity; Constitution; Intelligence; Wisdom; Charisma])
                     (6 + 60) (wz_data demo_points) (wz_alloc demo_points) demo_points,
       [dm demo_points err; dm demo_points (NAbilityPrompt Strength (al_remaining (wz_alloc demo_points)))]) /\
    (err = NNotANumber \/ err = NInvalidPoints (Z.min 7 (al_remaining (wz_alloc demo_points)))).
Proof.
  apply wizard_points_retry.
  - vm_compute. reflexivity.
  - vm_compute. reflexivity.
  - vm_compute. reflexivity.
  - reflexivity.
  - reflexivity.
  - intros p Hp. vm_compute in Hp. discriminate.
Defined.

Lemma wizard_name_blank_witness :
  wizard_step demo_store (start_wizard demo_store 0 "A") (EvMessage 5 (mkMessage "A" (ChDM "A") "   "))
  = (demo_store, finish Cancelled (start_wizard demo_store 0 "A"),
     [dm (start_wizard demo_store 0 "A") NNameRequired]).
Proof.
  apply wizard_name_blank.
  - vm_compute. reflexivity.
  - vm_compute. reflexivity.
  - vm_compute. reflexivity.
  - reflexivity.
  - reflexivity.
  - vm_compute. reflexivity.
Defined.

Lemma generated_base_values_distinct_witness :
  base_value Barbarian Elf base_scores Strength <> base_value Barbarian Elf base_scores Dexterity.
Proof.
  apply generated_base_values_distinct.
  - reflexivity.
  - discriminate.
Defined.

(** ** Two wizards on one session *)

(** The wizard reads the game once, at command time (line 169), and
    saves that copy after the whole dialogue (lines 375-377). A and B
    both start at the beginning (times 0 and 1), and both read the game
    with no character. A confirms at time 20 and saves. B confirms at
    time 21 and saves its own stale copy. The final game holds B's
    character but not A's: A's update is lost. (The two runs interact
    only through the store, at the two saves, so running A's events
    and then B's gives the interleaving in time order.) *)
Theorem lost_update_scenario :
  let wA := start_wizard demo_store 0 "A" in
  let wB := start_wizard demo_store 1 "B" in
  let '(s1, _, _) := wizard_run demo_store wA (dialogue "A" 0 ["7"; "7"; "4"] "yes") in
  let '(s2, wB', _) := wizard_run s1 wB (dialogue "B" 1 ["6"; "6"; "6"] "yes") in
  wz_pc wB' = PcDone Saved /\
  option_map (fun g => (bool_decide (is_Some (g_characters g !! "A")),
                        bool_decide (is_Some (g_characters g !! "B")))) (s2 !! "c1")
  = Some (false, true).
Proof. vm_compute. split; reflexivity. Qed.

(** [" cancel"], with a leading space, at the name prompt. *)
Lemma name_cancel_unstripped_witness :
  let w := start_wizard demo_store 0 "A" in
  wizard_step demo_store w (EvMessage 1 (mkMessage "A" (ChDM "A") " cancel")) =
    (demo_store, goto PcClass (1 + 60) (set_name "cancel" (wz_data w)) (wz_alloc w) w, [dm w NClassMenu]).
Proof.
  apply (name_cancel_unstripped demo_store (start_wizard demo_store 0 "A") 1 (mkMessage "A" (ChDM "A") " cancel")).
  all: vm_compute; reflexivity.
Defined.

(** ** The [!random] command *)

(** B already has a character named "Aldrich"; A's generated character
    is named "ALDRICH". The resolver sees the clash regardless of case
    and draws from the free names: with the draw 0, the first free one,
    "Blackwood". *)
Example resolver_renames :
  let g := put_character "B" (set_name "Aldrich" (empty_character 0)) 0 demo_game in
  let c := fst (resolve_name g "A" (set_name "ALDRICH" (empty_character 0)) [0%nat]) in
  name_in_use g "A" "ALDRICH" = true /\ ch_name c = Some "Blackwood" /\ name_in_use g "A" (name_of c) = false.
Proof. vm_compute. split; [reflexivity|]. split; reflexivity. Qed.

Lemma random_run_unsaved_store_witness :
  (random_run demo_store (start_random demo_store 0 "A") [dm_from "A" 5 "No"; dm_from "A" 100 "yes"]).1.1
  = demo_store.
Proof.
  apply (random_run_unsaved_store demo_store (start_random demo_store 0 "A")
           [dm_from "A" 5 "No"; dm_from "A" 100 "yes"] _
           (random_run demo_store (start_random demo_store 0 "A") [dm_from "A" 5 "No"; dm_from "A" 100 "yes"]).1.2
           (random_run demo_store (start_random demo_store 0 "A") [dm_from "A" 5 "No"; dm_from "A" 100 "yes"]).2).
  - vm_compute. reflexivity.
  - vm_compute. discriminate.
Defined.

Lemma random_run_saved_record_witness :
  exists g c,
    get_game (random_run demo_store (start_random demo_store 0 "A") [dm_from "A" 5 "no"; dm_from "A" 10 "YES"]).1.1
      (chan_id demo_channel) = Some g /\ g_characters g !! "A" = Some c /\
    gen_shape c /\ forall a, exists v, ch_scores c a = Some v /\ 8 <= v <= 17.
Proof.
  apply (random_run_saved_record demo_store 0 "A" demo_channel demo_tape (start_random demo_store 0 "A")
           (random_character true demo_store 0 "A" demo_channel demo_tape).2
           [dm_from "A" 5 "no"; dm_from "A" 10 "YES"] _
           (random_run demo_store (start_random demo_store 0 "A") [dm_from "A" 5 "no"; dm_from "A" 10 "YES"]).1.2
           (random_run demo_store (start_random demo_store 0 "A") [dm_from "A" 5 "no"; dm_from "A" 10 "YES"]).2).
  - vm_compute. reflexivity.
  - vm_compute. reflexivity.
  - vm_compute. reflexivity.
Defined.

Lemma random_confirm_timeout_witness :
  random_run demo_store (start_random demo_store 0 "A") [EvTick 60; dm_from "A" 61 "yes"] =
  (demo_store, rfinish RTimedOut (start_random demo_store 0 "A"), [OutDM "A" NConfirmTimeout]).
Proof.
  apply random_confirm_timeout.
  - vm_compute. reflexivity.
  - vm_compute. discriminate.
Defined.

Lemma random_confirm_no_witness :
  let '(s', st', o) := random_step demo_store (start_random demo_store 0 "A") (dm_from "A" 5 "NO") in
  s' = demo_store /\ rs_pc st' = RConfirm /\ rs_deadline st' = 5 + 60 /\ rs_inv st' /\
  o = [OutDM (rs_actor (start_random demo_store 0 "A")) NRerolling;
       OutDM (rs_actor (start_random demo_store 0 "A")) (NRandomCard (rs_candidate st'))].
Proof.
  apply random_confirm_no.
  - vm_compute. reflexivity.
  - vm_compute. reflexivity.
  - vm_compute. reflexivity.
  - vm_compute. reflexivity.
  - vm_compute. reflexivity.
Defined.

Lemma random_confirm_ignores_witness :
  random_step demo_store (start_random demo_store 0 "A") (dm_from "A" 5 "reroll")
  = (demo_store, start_random demo_store 0 "A", []).
Proof.
  apply random_confirm_ignores.
  - vm_compute. reflexivity.
  - vm_compute. reflexivity.
  - vm_compute. reflexivity.
Defined.

(** ** NPCs *)

(** The store after the game master created one NPC named "Gandalf". *)
Definition npc_store : gmap string Game :=
  fst (create_npc true demo_store 10 "G" demo_channel (Some "Gandalf") demo_tape).

Definition npc_game : Game := default demo_game (npc_store !! "c1").

(** The game master creates "gandalf" while "Gandalf" exists:
    [!remove_npc gandalf] then removes "Gandalf". *)
Lemma create_npc_duplicate_shadowed_witness :
  let c := fst (new_npc 11 (Some "gandalf") (drop 8 demo_tape)) in
  let s1 := fst (create_npc true npc_store 11 "G" demo_channel (Some "gandalf") (drop 8 demo_tape)) in
  get_game s1 (chan_id demo_channel) = Some (put_npcs (g_npcs npc_game ++ [c]) 11 npc_game) /\
  npc_matches "gandalf" c = true /\
  find_npc (g_npcs npc_game ++ [c]) "gandalf" = g_npcs npc_game !! 0%nat /\
  get_game (fst (remove_npc true s1 12 "G" demo_channel "gandalf")) (chan_id demo_channel)
  = Some (put_npcs (pop_at 0 (g_npcs npc_game) ++ [c]) 12 npc_game).
Proof.
  apply (create_npc_duplicate_shadowed npc_store 11 12 "G" demo_channel "gandalf" (drop 8 demo_tape) npc_game 0).
  all: vm_compute; reflexivity.
Defined.

Lemma npc_manage_refused_witness :
  create_npc true demo_store 0 "A" demo_channel None demo_tape = (demo_store, [OutChannel demo_channel NNotGM]) /\
  remove_npc true demo_store 0 "A" demo_channel "Gandalf" = (demo_store, [OutChannel demo_channel NNotGM]).
Proof.
  apply (npc_manage_refused demo_store 0 "A" demo_channel None demo_tape "Gandalf" demo_game).
  - vm_compute. reflexivity.
  - vm_compute. reflexivity.
Defined.

Lemma create_npc_spec_witness :
  let c := fst (new_npc 10 (Some "Gandalf") demo_tape) in
  let '(s', o) := create_npc true demo_store 10 "G" demo_channel (Some "Gandalf") demo_tape in
  get_game s' (chan_id demo_channel) = Some (put_npcs (g_npcs demo_game ++ [c]) 10 demo_game) /\
  (forall ch, ch <> chan_id demo_channel -> get_game s' ch = get_game demo_store ch) /\
  ch_is_npc c = Some true /\ gen_shape c /\
  (forall n, Some "Gandalf" = Some n -> py_truthy n = true -> ch_name c = Some n) /\
  o = [OutChannel demo_channel (NNpcCreated c)].
Proof.
  apply (create_npc_spec demo_store 10 "G" demo_channel (Some "Gandalf") demo_tape demo_game).
  - vm_compute. reflexivity.
  - vm_compute. reflexivity.
Defined.

Lemma remove_npc_spec_witness :
  let '(s', o) := remove_npc true npc_store 12 "G" demo_channel "gandalf" in
  get_game s' (chan_id demo_channel) = Some (put_npcs (pop_at 0 (g_npcs npc_game)) 12 npc_game) /\
  find_npc (g_npcs npc_game) "gandalf" = g_npcs npc_game !! 0%nat /\
  length (pop_at 0 (g_npcs npc_game)) = pred (length (g_npcs npc_game)) /\
  (forall j c, (j < 0)%nat -> g_npcs npc_game !! j = Some c -> npc_matches "gandalf" c = false) /\
  exists c, g_npcs npc_game !! 0%nat = Some c /\ npc_matches "gandalf" c = true /\
            o = [OutChannel demo_channel (NNpcRemoved (name_or_unknown c))].
Proof.
  apply (remove_npc_spec npc_store 12 "G" demo_channel "gandalf" npc_game 0).
  - vm_compute. reflexivity.
  - vm_compute. reflexivity.
  - vm_compute. reflexivity.
Defined.

Lemma create_remove_roundtrip_witness :
  get_game (fst (remove_npc true (fst (create_npc true demo_store 10 "G" demo_channel (Some "Gandalf") demo_tape))
                   12 "G" demo_channel "Gandalf")) (chan_id demo_channel)
  = Some (put_npcs (g_npcs demo_game) 12 demo_game).
Proof.
  apply (create_remove_roundtrip demo_store 10 12 "G" demo_channel "Gandalf" demo_tape demo_game).
  - vm_compute. reflexivity.
  - vm_compute. reflexivity.
  - vm_compute. reflexivity.
  - intros c Hc. vm_compute in Hc. inversion Hc.
Defined.

(** ** Views *)

(** A Half-Elf wizard. *)
Definition demo_half_elf : Character := set_race HalfElf (set_class Wizard (empty_character 0)).

Lemma view_image_key_mismatch_witness :
  view_image_key demo_half_elf = creation_image_key demo_half_elf <-> HalfElf <> HalfElf /\ HalfElf <> HalfOrc.
Proof. apply (view_image_key_mismatch demo_half_elf HalfElf Wizard); reflexivity. Defined.

(** The store after A's guided creation in channel ["c1"]. *)
Definition store_with_A : gmap string Game := (run_dialogue demo_store 0 "A" ["7"; "7"; "4"] "yes").1.1.

Definition game_with_A : Game := default demo_game (store_with_A !! "c1").

Definition character_of_A : Character := default (empty_character 0) (g_characters game_with_A !! "A").

Lemma view_character_thread_witness :
  view_character (fun _ => None) true store_with_A (ChThread "t1" "c1") "B" (Some "A") =
    OutChannel (ChThread "t1" "c1") (NCharacterView character_of_A "Dwarf_Fighter")
      :: ooc_copy (fun _ => None) (ChThread "t1" "c1") game_with_A (NCharacterView character_of_A "Dwarf_Fighter").
Proof.
  apply view_character_thread.
  - vm_compute. reflexivity.
  - vm_compute. reflexivity.
  - vm_compute. reflexivity.
  - vm_compute. reflexivity.
Defined.

(** The views fall back on the parent channel's game in a thread,
    the creation commands do not. In a thread of channel ["c1"], after
    A created a character there, [!view_character @A] shows it, while
    [!creation] answers that there is no game. *)
Theorem thread_view_but_no_creation :
  let th := ChThread "t1" "c1" in
  (character_creation true store_with_A 30 "A" th).2 = [OutChannel th NNoGame] /\
  match view_character (fun _ => None) true store_with_A th "B" (Some "A") with
  | [OutChannel _ (NCharacterView c _)] => ch_name c = Some "Thorin"
  | _ => False
  end.
Proof. vm_compute. split; reflexivity. Qed.

(** ** A wizard and a [!random] command on one session *)

(** A's guided creation from time 0, with B's [!random] card (shown at
    time 1) accepted at time 5, in the middle of A's dialogue. *)
Definition mixed_schedule : list (bool * Event) :=
  let a := map (pair true) (dialogue "A" 0 ["7"; "7"; "4"] "yes") in
  take 3 a ++ [(false, dm_from "B" 5 "yes")] ++ drop 3 a.

Definition mixed_run := run_pair demo_store (start_wizard demo_store 0 "A") (start_random demo_store 1 "B") mixed_schedule.

Definition mixed_final_game : Game := default demo_game (mixed_run.1.1 !! "c1").

Lemma interleaving_lost_update_witness :
  g_characters mixed_final_game !! h_actor (start_wizard demo_store 0 "A") = None \/
  g_characters mixed_final_game !! h_actor (start_random demo_store 1 "B") = None.
Proof.
  apply (interleaving_lost_update demo_store (start_wizard demo_store 0 "A") (start_random demo_store 1 "B")
           mixed_schedule "c1" demo_game mixed_final_game).
  all: vm_compute; try reflexivity; discriminate.
Defined.

(** Both saved, and only A's character is left: B's was erased by A's
    later save of the game A read at time 0. *)
Example mixed_run_keeps_only_A :
  option_map (fun g => (bool_decide (is_Some (g_characters g !! "A")),
                        bool_decide (is_Some (g_characters g !! "B")))) (mixed_run.1.1 !! "c1")
  = Some (true, false) /\ rs_pc mixed_run.2 = RDone RSaved.
Proof. vm_compute. split; reflexivity. Qed.

(** ** The bot without its DnDGame extension *)

Definition all_but_dnd (ext : string) : bool := negb (String.eqb ext "cogs.dnd_game").

Lemma dnd_missing_unavailable_witness :
  let st := startup all_but_dnd in
  character_creation (cc_parent st) demo_store 0 "A" demo_channel = (None, [OutChannel demo_channel NUnavailable]) /\
  random_character (cc_parent st) demo_store 0 "A" demo_channel demo_tape = (None, [OutChannel demo_channel NUnavailable]) /\
  create_npc (npc_ready st) demo_store 0 "A" demo_channel None demo_tape = (demo_store, [OutChannel demo_channel NUnavailable]) /\
  remove_npc (npc_parent st) demo_store 0 "A" demo_channel "Gandalf" = (demo_store, [OutChannel demo_channel NUnavailable]).
Proof. apply dnd_missing_unavailable. vm_compute. reflexivity. Defined.

(** ** The refinement theorems at concrete runs *)

Lemma wizard_refines_witness :
  create_spec wizard_ok (wz_channel_id (start_wizard demo_store 0 "A")) (wz_actor (start_wizard demo_store 0 "A"))
    (wz_game (start_wizard demo_store 0 "A")) demo_store
    (wizard_run demo_store (start_wizard demo_store 0 "A") (dialogue "A" 0 ["7"; "7"; "4"] "yes")).1.1.
Proof.
  apply wizard_refines.
  - vm_compute. intros a. reflexivity.
  - vm_compute. discriminate.
Defined.

Lemma random_refines_witness :
  create_spec random_ok (chan_id demo_channel) "A" (rs_game (start_random demo_store 0 "A")) demo_store
    (random_run demo_store (start_random demo_store 0 "A") [dm_from "A" 5 "no"; dm_from "A" 10 "yes"]).1.1.
Proof.
  apply (random_refines demo_store 0 "A" demo_channel demo_tape (start_random demo_store 0 "A")
           (random_character true demo_store 0 "A" demo_channel demo_tape).2).
  vm_compute. reflexivity.
Defined.

(** ** Cooperative authors *)

Lemma wizard_cooperative_saves_witness :
  wz_pc (cooperative_run (wizard_rank (wz_pc (start_wizard demo_store 0 "A"))) demo_store
           (start_wizard demo_store 0 "A") 1).2 = PcDone Saved.
Proof.
  apply wizard_cooperative_saves.
  - vm_compute. intros a. reflexivity.
  - vm_compute. reflexivity.
  - vm_compute. reflexivity.
Defined.

Lemma random_cooperative_saves_witness :
  rs_pc (random_run demo_store (start_random demo_store 0 "A")
           [EvMessage 1 (mkMessage "A" demo_channel "yes");
            EvMessage (1 + 1) (mkMessage "A" (ChDM "A") "yes")]).1.2 = RDone RSaved.
Proof.
  apply (random_cooperative_saves demo_store 0 "A" demo_channel demo_tape (start_random demo_store 0 "A")
           (random_character true demo_store 0 "A" demo_channel demo_tape).2 1).
  - vm_compute. reflexivity.
  - vm_compute. reflexivity.
Defined.

Lemma random_confirm_yes_witness :
  random_run demo_store (start_random demo_store 0 "A") [EvMessage 5 (mkMessage "A" (ChDM "A") "Yes"); dm_from "A" 6 "no"] =
    let '(s', o) := save_and_announce demo_store (rs_channel_id (start_random demo_store 0 "A"))
                      (rs_origin (start_random demo_store 0 "A")) (rs_actor (start_random demo_store 0 "A"))
                      (rs_candidate (start_random demo_store 0 "A")) 5 (rs_game (start_random demo_store 0 "A")) in
    (s', rfinish RSaved (start_random demo_store 0 "A"), o).
Proof.
  apply random_confirm_yes.
  - vm_compute. reflexivity.
  - vm_compute. reflexivity.
  - vm_compute. reflexivity.
  - vm_compute. reflexivity.
  - vm_compute. reflexivity.
Defined.

(** ** Well-formed stores *)

Lemma demo_store_wf : store_wf demo_store.
Proof.
  intros ch g Hg. unfold demo_store in Hg. simpl in Hg. apply lookup_singleton_Some in Hg as [_ <-].
  apply map_Forall_empty.
Qed.

(** A and B go through the guided wizard at the same time, their events
    alternating. *)
Definition two_wizards_schedule : list (bool * Event) :=
  flat_map (fun p => [(true, p.1); (false, p.2)])
    (zip (dialogue "A" 0 ["7"; "7"; "4"] "yes") (dialogue "B" 0 ["6"; "6"; "6"] "yes")).

Lemma interleaving_store_wf_witness :
  store_wf (run_pair demo_store (start_wizard demo_store 0 "A") (start_wizard demo_store 0 "B")
              two_wizards_schedule).1.1.
Proof.
  apply interleaving_store_wf.
  - vm_compute. intros a. reflexivity.
  - vm_compute. intros a. reflexivity.
  - apply map_Forall_empty.
  - apply map_Forall_empty.
  - exact demo_store_wf.
Defined.

Lemma wizard_reachable_viewable_witness :
  exists key, view_image_key character_of_A = Some key /\
    view_character (fun _ => None) true store_with_A demo_channel "B" (Some "A") =
      OutChannel demo_channel (NCharacterView character_of_A key) ::
      ooc_copy (fun _ => None) demo_channel game_with_A (NCharacterView character_of_A key).
Proof.
  apply (wizard_reachable_viewable _ _ (run_dialogue demo_store 0 "A" ["7"; "7"; "4"] "yes").1.2).
  - apply (wizard_run_reachable demo_store (start_wizard demo_store 0 "A") (dialogue "A" 0 ["7"; "7"; "4"] "yes")
             _ _ (run_dialogue demo_store 0 "A" ["7"; "7"; "4"] "yes").2).
    + apply (reach_start _ 0 "A" demo_channel _ (character_creation true demo_store 0 "A" demo_channel).2);
        [exact demo_store_wf|vm_compute; reflexivity].
    + vm_compute. reflexivity.
  - vm_compute. reflexivity.
  - vm_compute. reflexivity.
Defined.

(** ** The dropdown views and the command dispatch *)

(** A's dialogue, run with the class and race views made explicit. *)
Lemma menu_run_refines_witness :
  let '(s', ms', o) := menu_run demo_store (mkMenu (start_wizard demo_store 0 "A") (selection_view 0))
                         (dialogue "A" 0 ["7"; "7"; "4"] "yes") in
  wizard_run demo_store (start_wizard demo_store 0 "A") (dialogue "A" 0 ["7"; "7"; "4"] "yes") =
    (s', ms_wizard ms', o).
Proof. apply menu_run_refines. intros k Hk. vm_compute in Hk. discriminate. Defined.

(** A class picked after the menu's 60 s: the view has timed out, and
    the handler says so in the DMs. *)
Example late_class_selection :
  let w := (wizard_run demo_store (start_wizard demo_store 0 "A") [dm_from "A" 1 "Thorin"]).1.2 in
  menu_run demo_store (mkMenu w (selection_view 1)) [EvSelect 61 "Fighter"] =
    (demo_store, mkMenu (finish TimedOut w) (selection_view 61), [OutDM "A" NClassTimeout]).
Proof. vm_compute. reflexivity. Qed.

(** Every extension but [cogs.character_creation] loads. *)
Definition all_but_cc (ext : string) : bool := negb (String.eqb ext "cogs.character_creation").

Lemma unloaded_cog_commands_silent_witness :
  on_command_message (startup all_but_cc) (fun _ => None) (fun _ => None) demo_store 5 "A" demo_channel demo_tape
    ("!" ++ "creation" ++ " " ++ "") = (demo_store, None, []).
Proof. apply unloaded_cog_commands_silent; [reflexivity|apply list_elem_of_here]. Defined.

Lemma npc_name_required_witness :
  on_command_message (startup (fun _ => true)) (fun _ => None) (fun _ => None) npc_store 5 "G" demo_channel demo_tape
    ("!npc_detail" ++ "  ") = (npc_store, None, [OutChannel demo_channel (NMissingArgument "npc_name")]).
Proof. apply (npc_name_required (startup (fun _ => true))); vm_compute; reflexivity. Defined.

(** With every extension loaded, [!remove_npc gandalf] from the game
    master, through the dispatcher, removes the NPC. *)
Example dispatch_remove_npc :
  option_map (fun g => length (g_npcs g))
    ((on_command_message (startup (fun _ => true)) (fun _ => None) (fun _ => None) npc_store 20 "G" demo_channel
        demo_tape "!remove_npc gandalf").1.1 !! "c1") = Some 0%nat.
Proof. vm_compute. reflexivity. Qed.

(** ** The process *)

(** A at the name prompt types [!cancel] in the DMs at time 5. *)
Lemma bang_cancel_becomes_name_witness :
  let w := start_wizard demo_store 0 "A" in
  deliver_message (startup (fun _ => true)) (fun _ => None) (fun _ => None) demo_store w 5
    (mkMessage (wz_actor w) (ChDM (wz_actor w)) "!cancel") demo_tape =
    (demo_store, goto PcClass (5 + 60) (set_name "!cancel" (wz_data w)) (wz_alloc w) w, None, [dm w NClassMenu]).
Proof. apply bang_cancel_becomes_name; vm_compute; reflexivity. Defined.

(** [PORT="8_080 "]: Python's [int()] accepts the underscore and the
    space; [PORT="http"] makes it raise [ValueError]. *)
Example flask_port_examples :
  flask_port [("PORT", "8_080 ")] = Some 8080 /\ flask_port [("PORT", "http")] = None /\
  flask_port [] = Some 10000.
Proof. vm_compute. repeat split. Qed.

(** A shuffle that put 8 first: a Fighter's Strength gets 8, plus the
    racial bonus. *)
Lemma primary_gets_first_shuffled_witness :
  generated_scores Fighter Human [8; 15; 14; 13; 12; 10] (hd Strength (class_primary_abilities Fighter)) =
    hd 0 [8; 15; 14; 13; 12; 10] + bonus_spec Human (hd Strength (class_primary_abilities Fighter)).
Proof.
  apply primary_gets_first_shuffled. exact (Permutation_cons_append [15; 14; 13; 12; 10] 8).
Defined.
